(** * Workspace monitor: a shallow embedding of [workspace_monitor.py]

    The development follows the source file top to bottom: Python values
    and strings, the two tag regular expressions, [parse_user_message],
    [extract_prompts_from_session], [SessionCache.get_prompts],
    [get_today_sessions] and [format_markdown].  Library calls whose
    behaviour is fixed by the platform ([json.loads],
    [datetime.fromtimestamp], [str.lower]) are section variables; a
    reference JSON decoder is supplied for the closed examples. *)

From Stdlib Require Import ZArith NArith String Ascii Lia.
From stdpp Require Import base option list sorting gmap.

Local Open Scope Z_scope.
Set Warnings "-register-all".

(** ** Python strings: sequences of Unicode code points *)

Definition char := N.
Definition str := list char.

(** Decoding of a UTF-8 byte sequence; literals of the source are written
    as Rocq strings and read through it. *)
Fixpoint utf8_decode (bs : list N) (acc : N) (need : nat) : str :=
  match bs with
  | [] => []
  | b :: bs' =>
      if (b <? 128)%N then b :: utf8_decode bs' 0%N 0%nat
      else if (b <? 192)%N then
        let acc' := (acc * 64 + (b - 128))%N in
        match need with
        | 0%nat => utf8_decode bs' 0%N 0%nat
        | 1%nat => acc' :: utf8_decode bs' 0%N 0%nat
        | S n => utf8_decode bs' acc' n
        end
      else if (b <? 224)%N then utf8_decode bs' (b - 192)%N 1%nat
      else if (b <? 240)%N then utf8_decode bs' (b - 224)%N 2%nat
      else utf8_decode bs' (b - 240)%N 3%nat
  end.

Definition py (s : string) : str :=
  utf8_decode (map N_of_ascii (list_ascii_of_string s)) 0%N 0%nat.

(** [len(l)] *)
Definition len {A} (l : list A) : Z := Z.of_nat (length l).

Definition char_eqb (a b : char) : bool := (a =? b)%N.

Fixpoint str_eqb (a b : str) : bool :=
  match a, b with
  | [], [] => true
  | x :: a', y :: b' => char_eqb x y && str_eqb a' b'
  | _, _ => false
  end.

(** [str.isspace] on one character: the set used by [str.strip],
    [str.split] and by [\s] in a [str] pattern. *)
Definition is_space (c : char) : bool :=
  ((9 <=? c) && (c <=? 13) || (28 <=? c) && (c <=? 32)
   || (c =? 133) || (c =? 160) || (c =? 5760)
   || (8192 <=? c) && (c <=? 8202)
   || (c =? 8232) || (c =? 8233) || (c =? 8239) || (c =? 8287)
   || (c =? 12288))%N.

Fixpoint lstrip (s : str) : str :=
  match s with
  | c :: s' => if is_space c then lstrip s' else s
  | [] => []
  end.

Fixpoint rstrip (s : str) : str :=
  match s with
  | [] => []
  | c :: s' =>
      match rstrip s' with
      | [] => if is_space c then [] else [c]
      | r => c :: r
      end
  end.

(** [s.strip()] *)
Definition strip (s : str) : str := rstrip (lstrip s).

(** [s.split()]: maximal runs of non-whitespace characters.  [cur] is the
    word being read, kept reversed. *)
Fixpoint split_from (s : str) (cur : str) : list str :=
  match s with
  | [] => match cur with [] => [] | _ => [rev cur] end
  | c :: s' =>
      if is_space c
      then match cur with
           | [] => split_from s' []
           | _ => rev cur :: split_from s' []
           end
      else split_from s' (c :: cur)
  end.

Definition split (s : str) : list str := split_from s [].

(** [sep.join(parts)] *)
Fixpoint join (sep : str) (parts : list str) : str :=
  match parts with
  | [] => []
  | [p] => p
  | p :: rest => p ++ sep ++ join sep rest
  end.

Fixpoint is_prefix (p s : str) : bool :=
  match p, s with
  | [], _ => true
  | x :: p', y :: s' => char_eqb x y && is_prefix p' s'
  | _ :: _, [] => false
  end.

(** [sub in s] *)
Fixpoint contains (sub s : str) : bool :=
  is_prefix sub s
  || match s with
     | [] => false
     | _ :: s' => contains sub s'
     end.

(** [s[:n]] with Python's reading of a negative bound. *)
Definition slice_to (n : Z) (s : str) : str :=
  if n <? 0 then take (Z.to_nat (len s + n)) s else take (Z.to_nat n) s.

(** ** Regular expressions

    A backtracking matcher with the semantics of Python's [re] for the
    constructs the two patterns use: literals, character classes, greedy
    repetition of a class, a greedy optional group and a negative
    lookahead. *)

Inductive regex :=
| Lit (c : char)
| Cls (p : char -> bool)
| StarCls (p : char -> bool)
| Seq (a b : regex)
| Opt (a : regex)
| NotAhead (a : regex).

Fixpoint star_exec (p : char -> bool) (s : str) (k : str -> option str)
  : option str :=
  match s with
  | c :: s' =>
      if p c
      then match star_exec p s' k with
           | Some r => Some r
           | None => k s
           end
      else k s
  | [] => k s
  end.

(** [exec r s k]: match [r] at the head of [s], then continue with [k] on
    what is left; the first success in backtracking order is returned. *)
Fixpoint exec (r : regex) (s : str) (k : str -> option str) : option str :=
  match r with
  | Lit c =>
      match s with
      | c' :: s' => if char_eqb c c' then k s' else None
      | [] => None
      end
  | Cls p =>
      match s with
      | c' :: s' => if p c' then k s' else None
      | [] => None
      end
  | StarCls p => star_exec p s k
  | Seq a b => exec a s (fun s' => exec b s' k)
  | Opt a =>
      match exec a s k with
      | Some r => Some r
      | None => k s
      end
  | NotAhead a =>
      match exec a s Some with
      | Some _ => None
      | None => k s
      end
  end.

(** Length of the match of [r] at the head of [s], if there is one. *)
Definition match_here (r : regex) (s : str) : option nat :=
  match exec r s Some with
  | Some rest => Some (length s - length rest)%nat
  | None => None
  end.

(** [re.findall(r, s)]: the non-overlapping matches, left to right.
    [skip] counts the characters of the last match still to be passed.
    Both patterns of the program start with [<], so no match is empty. *)
Fixpoint findall_from (r : regex) (s : str) (skip : nat) : list str :=
  match s with
  | [] => []
  | _ :: s' =>
      match skip with
      | S n => findall_from r s' n
      | O =>
          match match_here r s with
          | Some n => take n s :: findall_from r s' (pred n)
          | None => findall_from r s' 0%nat
          end
      end
  end.

Definition findall (r : regex) (s : str) : list str := findall_from r s 0%nat.

Definition in_range (lo hi : N) (c : char) : bool := ((lo <=? c) && (c <=? hi))%N.

(** [[a-zA-Z]] *)
Definition cls_alpha (c : char) : bool := in_range 97 122 c || in_range 65 90 c.
(** [[a-zA-Z0-9-]] *)
Definition cls_name (c : char) : bool :=
  in_range 97 122 c || in_range 65 90 c || in_range 48 57 c
  || char_eqb c 45%N.
(** [[^>]] *)
Definition cls_not_gt (c : char) : bool := negb (char_eqb c 62%N).

Definition seq_of (rs : list regex) (last : regex) : regex := foldr Seq last rs.

(** The open-tag pattern of [parse_user_message] (source line 151): [<],
    a letter, letters, digits or hyphens; optionally one whitespace
    character and then characters other than [>]; then [>]; with a
    negative lookahead for [</]. *)
Definition open_tag_re : regex :=
  seq_of [Lit 60%N; Cls cls_alpha; StarCls cls_name;
          Opt (Seq (Cls is_space) (StarCls cls_not_gt));
          Lit 62%N]
         (NotAhead (Seq (Lit 60%N) (Lit 47%N))).

(** The close-tag pattern (source line 152): [</], a letter, letters,
    digits or hyphens, then [>]. *)
Definition close_tag_re : regex :=
  seq_of [Lit 60%N; Lit 47%N; Cls cls_alpha; StarCls cls_name] (Lit 62%N).

(** ** Python values as [json.loads] produces them *)

(** A float: a dyadic number [m * 2^e], an infinity or a NaN. *)
Inductive pyfloat :=
| FFin (m e : Z)
| FInf (neg : bool)
| FNan.

Inductive pyval :=
| PNone
| PBool (b : bool)
| PInt (z : Z)
| PFloat (f : pyfloat)
| PStr (s : str)
| PList (l : list pyval)
| PDict (d : list (str * pyval)).

(** Truth value of an object, as [not], [if] and [all] test it. *)
Definition truthy (v : pyval) : bool :=
  match v with
  | PNone => false
  | PBool b => b
  | PInt z => negb (z =? 0)
  | PFloat (FFin m _) => negb (m =? 0)
  | PFloat _ => true
  | PStr s => match s with [] => false | _ => true end
  | PList l => match l with [] => false | _ => true end
  | PDict d => match d with [] => false | _ => true end
  end.

(** Exceptions, by the classes the [except] clauses of the program tell
    apart.  [JSONDecodeError] and [UnicodeDecodeError] are subclasses of
    [ValueError]. *)
Inductive exn :=
| JSONDecodeError
| UnicodeDecodeError
| ValueError
| TypeError
| AttributeError
| OverflowError
| OSError
| OtherError.

Definition is_ValueError (e : exn) : bool :=
  match e with
  | JSONDecodeError | UnicodeDecodeError | ValueError => true
  | _ => false
  end.

Definition is_TypeError (e : exn) : bool :=
  match e with
  | TypeError => true
  | _ => false
  end.

Definition is_OSError (e : exn) : bool :=
  match e with
  | OSError => true
  | _ => false
  end.

Inductive outcome (A : Type) :=
| Return (a : A)
| Raise (e : exn).
Arguments Return {A} a.
Arguments Raise {A} e.

Definition obind {A B} (x : outcome A) (f : A -> outcome B) : outcome B :=
  match x with
  | Return a => f a
  | Raise e => Raise e
  end.

Notation "'let!' x ':=' c1 'in' c2" := (obind c1 (fun x => c2))
  (at level 10, x name, c1 at level 100, c2 at level 200).

Fixpoint assoc_get {V} (k : str) (d : list (str * V)) : option V :=
  match d with
  | [] => None
  | (k', v) :: d' => if str_eqb k' k then Some v else assoc_get k d'
  end.

(** [obj.get(key, default)]: only a dict has the method. *)
Definition py_get (obj : pyval) (key : str) (default : pyval) : outcome pyval :=
  match obj with
  | PDict d => Return (match assoc_get key d with Some v => v | None => default end)
  | _ => Raise AttributeError
  end.

Definition is_str (v : pyval) : bool :=
  match v with PStr _ => true | _ => false end.

Definition is_dict (v : pyval) : bool :=
  match v with PDict _ => true | _ => false end.

(** [v != s] for a string literal [s]: only an equal string is equal. *)
Definition ne_str (v : pyval) (s : str) : bool :=
  match v with
  | PStr t => negb (str_eqb t s)
  | _ => true
  end.

(** ** [parse_user_message] *)

Definition skip_tags : list str :=
  [py "<command-name>"; py "<local-command-stdout>"; py "<system-reminder>";
   py "<task-notification>"; py "<task-id>"; py "<output-file>"].

Section PromptFilter.

(** [json.loads]: the decoded value, [JSONDecodeError], or another
    exception of the decoder. *)
Variable json_loads : str -> outcome pyval.
(** The configured cap [MAX_PROMPT_CHARS], an [int] read from the
    environment. *)
Variable MAX_PROMPT_CHARS : Z.

(** Source lines 138-163: the checks on the content of a message. *)
Definition filter_content (content : str) : option str :=
  let content := strip content in
  if bool_decide (content = []) then None
  else if existsb (fun tag => contains tag content) skip_tags then None
  else
    let open_tags := findall open_tag_re content in
    let close_tags := findall close_tag_re content in
    if negb (length open_tags =? length close_tags)%nat then None
    else
      let content := join (py " ") (split content) in
      let content :=
        if len content >? MAX_PROMPT_CHARS
        then slice_to MAX_PROMPT_CHARS content ++ py "..."
        else content in
      Some content.

(** Source lines 114-136: the checks on the decoded record. *)
Definition filter_record (data : pyval) : outcome (option str) :=
  let! type := py_get data (py "type") PNone in
  if ne_str type (py "user") then Return None
  else
    let! is_meta := py_get data (py "isMeta") (PBool false) in
    if truthy is_meta then Return None
    else
      let! message := py_get data (py "message") PNone in
      if negb (truthy message) || negb (is_dict message) then Return None
      else
        let! role := py_get message (py "role") PNone in
        if ne_str role (py "user") then Return None
        else
          let! content := py_get message (py "content") PNone in
          match content with
          | PStr content => Return (filter_content content)
          | _ => Return None
          end.

Definition parse_user_message (line : str) : outcome (option str) :=
  match json_loads line with
  | Raise JSONDecodeError => Return None
  | Raise e => Raise e
  | Return data => filter_record data
  end.

End PromptFilter.

(** ** A reference decoder for [json.loads]

    Used to run the program on concrete lines.  It follows CPython's
    decoder: the JSON grammar, [NaN] and the infinities, pairing of
    escaped surrogates, last-wins duplicate keys, correctly rounded
    floats, and the limit of 4300 digits on an integer literal.  The
    recursion limit of the interpreter is not modelled. *)
Module Json.

Definition is_ws (c : char) : bool :=
  ((c =? 32) || (c =? 9) || (c =? 10) || (c =? 13))%N.

Fixpoint skip_ws (s : str) : str :=
  match s with
  | c :: s' => if is_ws c then skip_ws s' else s
  | [] => []
  end.

Definition is_digit (c : char) : bool := in_range 48 57 c.

Fixpoint span_digits (s : str) : str * str :=
  match s with
  | c :: s' =>
      if is_digit c
      then let '(ds, rest) := span_digits s' in (c :: ds, rest)
      else ([], s)
  | [] => ([], [])
  end.

Definition digits_value (ds : str) : Z :=
  fold_left (fun acc c => 10 * acc + Z.of_N (c - 48)) ds 0.

Definition hex_value (c : char) : option N :=
  if in_range 48 57 c then Some (c - 48)%N
  else if in_range 97 102 c then Some (c - 87)%N
  else if in_range 65 70 c then Some (c - 55)%N
  else None.

(** The float nearest to [n / d] for positive [n] and [d], ties to the
    even mantissa, as [float(str)] computes it. *)
Definition round_ratio (n d : Z) : pyfloat :=
  let e0 := Z.log2 n - Z.log2 d - 52 in
  let quot e := if e <? 0 then (n * 2 ^ (- e)) / d else n / (d * 2 ^ e) in
  let e1 := if quot e0 <? 2 ^ 52 then e0 - 1 else e0 in
  let e := Z.max e1 (-1074) in
  let '(num, den) := if e <? 0 then (n * 2 ^ (- e), d) else (n, d * 2 ^ e) in
  let q := num / den in
  let r := num mod den in
  let q' := if (2 * r >? den) || ((2 * r =? den) && Z.odd q) then q + 1 else q in
  if 2 ^ 1024 <=? q' * 2 ^ e then FInf false else FFin q' e.

Definition fneg (f : pyfloat) : pyfloat :=
  match f with
  | FFin m e => FFin (- m) e
  | FInf b => FInf (negb b)
  | FNan => FNan
  end.

(** The float written [m * 10^k], [m >= 0]. *)
Definition float_of_decimal (m k : Z) : pyfloat :=
  if m =? 0 then FFin 0 0
  else if k <? 0 then round_ratio m (10 ^ (- k))
  else round_ratio (m * 10 ^ k) 1.

(** A number literal at the head of [s]: optional [-], an integer part
    without a leading zero, an optional fraction and exponent. *)
Definition scan_number (s : str) : outcome (pyval * str) :=
  let '(neg, s1) :=
    match s with
    | 45%N :: s' => (true, s')
    | _ => (false, s)
    end in
  let '(ipart, s2) :=
    match s1 with
    | 48%N :: s' => ([48%N], s')
    | _ => span_digits s1
    end in
  match ipart with
  | [] => Raise JSONDecodeError
  | _ =>
      let '(frac, s3) :=
        match s2 with
        | 46%N :: s' =>
            match span_digits s' with
            | ([], _) => (None, s2)
            | (ds, rest) => (Some ds, rest)
            end
        | _ => (None, s2)
        end in
      let '(expo, s4) :=
        match s3 with
        | c :: s' =>
            if (c =? 101)%N || (c =? 69)%N then
              let '(eneg, s'') :=
                match s' with
                | 45%N :: t => (true, t)
                | 43%N :: t => (false, t)
                | _ => (false, s')
                end in
              match span_digits s'' with
              | ([], _) => (None, s3)
              | (ds, rest) =>
                  (Some (if eneg then - digits_value ds else digits_value ds),
                   rest)
              end
            else (None, s3)
        | [] => (None, s3)
        end in
      match frac, expo with
      | None, None =>
          if (4300 <? length ipart)%nat then Raise ValueError
          else
            let z := digits_value ipart in
            Return (PInt (if neg then - z else z), s4)
      | _, _ =>
          let fd := default [] frac in
          let m := digits_value (ipart ++ fd) in
          let k := default 0 expo - Z.of_nat (length fd) in
          let f := float_of_decimal m k in
          Return (PFloat (if neg then fneg f else f), s4)
      end
  end.

(** The body of a string literal after its opening quote: the
    characters, each marked when it comes from a [\u] escape. *)
Fixpoint scan_chars (s : str) : outcome (list (char * bool) * str) :=
  match s with
  | [] => Raise JSONDecodeError
  | 34%N :: rest => Return ([], rest)
  | 92%N :: 117%N :: a :: b :: c :: d :: s' =>
      match hex_value a, hex_value b, hex_value c, hex_value d with
      | Some a, Some b, Some c, Some d =>
          let! r := scan_chars s' in
          Return (((((a * 16 + b) * 16 + c) * 16 + d)%N, true) :: r.1, r.2)
      | _, _, _, _ => Raise JSONDecodeError
      end
  | 92%N :: e :: s' =>
      let esc (c : char) :=
        let! r := scan_chars s' in Return ((c, false) :: r.1, r.2) in
      if (e =? 34)%N then esc 34%N
      else if (e =? 92)%N then esc 92%N
      else if (e =? 47)%N then esc 47%N
      else if (e =? 98)%N then esc 8%N
      else if (e =? 102)%N then esc 12%N
      else if (e =? 110)%N then esc 10%N
      else if (e =? 114)%N then esc 13%N
      else if (e =? 116)%N then esc 9%N
      else Raise JSONDecodeError
  | 92%N :: [] => Raise JSONDecodeError
  | c :: s' =>
      if (c <? 32)%N then Raise JSONDecodeError
      else let! r := scan_chars s' in Return ((c, false) :: r.1, r.2)
  end.

(** An escaped high surrogate directly followed by an escaped low one
    is one character; [pending] is a high surrogate just read. *)
Fixpoint pair_surrogates (pending : option char) (cs : list (char * bool))
  : str :=
  match cs with
  | [] => match pending with Some h => [h] | None => [] end
  | (c, esc) :: rest =>
      let fresh :=
        if esc && in_range 55296 56319 c
        then pair_surrogates (Some c) rest
        else c :: pair_surrogates None rest in
      match pending with
      | Some h =>
          if esc && in_range 56320 57343 c
          then (65536 + (h - 55296) * 1024 + (c - 56320))%N
                 :: pair_surrogates None rest
          else h :: fresh
      | None => fresh
      end
  end.

Definition scan_string (s : str) : outcome (str * str) :=
  let! r := scan_chars s in Return (pair_surrogates None r.1, r.2).

(** [d[k] = v] on a dict kept in insertion order. *)
Fixpoint assoc_set {V} (k : str) (v : V) (d : list (str * V))
  : list (str * V) :=
  match d with
  | [] => [(k, v)]
  | (k', v') :: d' =>
      if str_eqb k' k then (k', v) :: d' else (k', v') :: assoc_set k v d'
  end.

(** Expect [c] at the head of [s]. *)
Definition expect (c : char) (s : str) : outcome str :=
  match s with
  | c' :: s' => if char_eqb c c' then Return s' else Raise JSONDecodeError
  | [] => Raise JSONDecodeError
  end.

(** One value at the head of [s] ([scan_once]), the items of an array
    after its bracket, and the members of an object after its brace. *)
Fixpoint scan_value (fuel : nat) (s : str) : outcome (pyval * str) :=
  match fuel with
  | O => Raise OtherError
  | S fuel =>
      match s with
      | 34%N :: s' =>
          let! r := scan_string s' in Return (PStr r.1, r.2)
      | 123%N :: s' =>
          match skip_ws s' with
          | 125%N :: rest => Return (PDict [], rest)
          | s'' => scan_members fuel s'' []
          end
      | 91%N :: s' =>
          match skip_ws s' with
          | 93%N :: rest => Return (PList [], rest)
          | s'' => scan_items fuel s'' []
          end
      | _ =>
          if is_prefix (py "null") s then Return (PNone, drop 4 s)
          else if is_prefix (py "true") s then Return (PBool true, drop 4 s)
          else if is_prefix (py "false") s then Return (PBool false, drop 5 s)
          else if is_prefix (py "NaN") s then Return (PFloat FNan, drop 3 s)
          else if is_prefix (py "Infinity") s
          then Return (PFloat (FInf false), drop 8 s)
          else if is_prefix (py "-Infinity") s
          then Return (PFloat (FInf true), drop 9 s)
          else scan_number s
      end
  end
with scan_items (fuel : nat) (s : str) (acc : list pyval)
  : outcome (pyval * str) :=
  match fuel with
  | O => Raise OtherError
  | S fuel =>
      let! r := scan_value fuel s in
      let acc := acc ++ [r.1] in
      match skip_ws r.2 with
      | 93%N :: rest => Return (PList acc, rest)
      | 44%N :: rest => scan_items fuel (skip_ws rest) acc
      | _ => Raise JSONDecodeError
      end
  end
with scan_members (fuel : nat) (s : str) (acc : list (str * pyval))
  : outcome (pyval * str) :=
  match fuel with
  | O => Raise OtherError
  | S fuel =>
      let! s1 := expect 34%N s in
      let! k := scan_string s1 in
      let! s2 := expect 58%N (skip_ws k.2) in
      let! r := scan_value fuel (skip_ws s2) in
      let acc := assoc_set k.1 r.1 acc in
      match skip_ws r.2 with
      | 125%N :: rest => Return (PDict acc, rest)
      | 44%N :: rest => scan_members fuel (skip_ws rest) acc
      | _ => Raise JSONDecodeError
      end
  end.

(** [json.loads(s)] for a [str]. *)
Definition loads (s : str) : outcome pyval :=
  match s with
  | 65279%N :: _ => Raise JSONDecodeError
  | _ =>
      let! r := scan_value (2 * length s + 2) (skip_ws s) in
      match skip_ws r.2 with
      | [] => Return r.1
      | _ => Raise JSONDecodeError
      end
  end.

End Json.

(** ** Dates, times and session records *)

(** A naive [datetime]; [date] is its first three fields. *)
Record datetime := {
  year : nat; month : nat; day : nat;
  hour : nat; minute : nat; second : nat; microsecond : nat
}.

Definition date : Type := nat * nat * nat.

(** [dt.date()] *)
Definition date_of (dt : datetime) : date := (year dt, month dt, day dt).

Definition dt_fields (dt : datetime) : list nat :=
  [year dt; month dt; day dt; hour dt; minute dt; second dt; microsecond dt].

Fixpoint lex_ltb (a b : list nat) : bool :=
  match a, b with
  | x :: a', y :: b' => (x <? y)%nat || ((x =? y)%nat && lex_ltb a' b')
  | [], _ :: _ => true
  | _, [] => false
  end.

(** [a < b] on datetimes: field by field, most significant first. *)
Definition dt_ltb (a b : datetime) : bool := lex_ltb (dt_fields a) (dt_fields b).

(** The dataclass [SessionInfo]. *)
Record SessionInfo := {
  session_id : pyval;
  project_path : pyval;
  last_updated : datetime;
  prompts : list str
}.

Definition MAX_PROMPTS_PER_SESSION : Z := 3.
Definition MAX_SESSIONS_PER_PROJECT : nat := 3.

(** ** Dictionaries keyed by Python objects

    A [dict] in insertion order.  Two keys are the same entry when they
    are equal as Python objects: numbers by value across [bool], [int] and
    [float], strings by their characters.  [dict_key] is the common form
    of equal keys; lists and dicts are not hashable. *)

Inductive key :=
| KNone
| KNum (m : Z) (e : Z)
| KInf (neg : bool)
| KNan
| KStr (s : str).

#[global] Instance key_eq_dec : EqDecision key.
Proof. solve_decision. Defined.

(** [p * 2^e] with the factors of two moved into the exponent. *)
Fixpoint odd_part (p : positive) (e : Z) : positive * Z :=
  match p with
  | xO p' => odd_part p' (e + 1)
  | _ => (p, e)
  end.

Definition num_key (m e : Z) : key :=
  match m with
  | Z0 => KNum 0 0
  | Zpos p => let '(q, e') := odd_part p e in KNum (Zpos q) e'
  | Zneg p => let '(q, e') := odd_part p e in KNum (Zneg q) e'
  end.

Definition dict_key (v : pyval) : option key :=
  match v with
  | PNone => Some KNone
  | PBool b => Some (num_key (Z.b2z b) 0)
  | PInt z => Some (num_key z 0)
  | PFloat (FFin m e) => Some (num_key m e)
  | PFloat (FInf b) => Some (KInf b)
  | PFloat FNan => Some KNan
  | PStr s => Some (KStr s)
  | PList _ | PDict _ => None
  end.

Definition pydict (V : Type) : Type := list (pyval * V).

Definition same_key (a b : pyval) : bool := bool_decide (dict_key a = dict_key b).

(** [d.get(k)] *)
Fixpoint pd_get {V} (k : pyval) (d : pydict V) : option V :=
  match d with
  | [] => None
  | (k', v) :: d' => if same_key k' k then Some v else pd_get k d'
  end.

(** [d[k] = v]: an existing entry keeps its place and its key object. *)
Fixpoint pd_set {V} (k : pyval) (v : V) (d : pydict V) : pydict V :=
  match d with
  | [] => [(k, v)]
  | (k', v') :: d' =>
      if same_key k' k then (k', v) :: d' else (k', v') :: pd_set k v d'
  end.

(** [d.values()] *)
Definition pd_values {V} (d : pydict V) : list V := map snd d.

(** ** Sorting

    [list.sort] and [sorted] are stable.  [before y x] says that [y] has
    to come before [x] although [x] was the earlier one in the input. *)

Fixpoint insert_by {A} (before : A -> A -> bool) (x : A) (l : list A) : list A :=
  match l with
  | [] => [x]
  | y :: l' => if before y x then y :: insert_by before x l' else x :: l
  end.

Definition stable_sort {A} (before : A -> A -> bool) (l : list A) : list A :=
  foldr (insert_by before) [] l.

(** [l.sort(key=lambda s: s.last_updated, reverse=True)] *)
Definition sort_newest_first (l : list SessionInfo) : list SessionInfo :=
  stable_sort (fun y x => dt_ltb (last_updated x) (last_updated y)) l.

(** ** Files, the log and the prompt cache *)

(** What iterating over an open text file delivers: lines, then the end
    of the file or an exception raised by the read. *)
Inductive stream :=
| EOF
| Line (l : str) (rest : stream)
| ReadError (e : exn).

Fixpoint stream_of_lines (ls : list str) : stream :=
  match ls with
  | [] => EOF
  | l :: ls' => Line l (stream_of_lines ls')
  end.

(** [pathlib.Path]: the parts of the path; the last one is its name. *)
Definition Path : Type := list str.

Definition path_name (p : Path) : str := default [] (last p).

(** [s.rfind(c)] counted from position [i] of the whole string: the
    highest index of [c], or [-1]. *)
Fixpoint rfind_from (c : char) (s : str) (i : Z) : Z :=
  match s with
  | [] => -1
  | x :: s' =>
      let r := rfind_from c s' (i + 1) in
      if r >=? 0 then r else if char_eqb x c then i else -1
  end.

(** [p.stem], as [pathlib] defines it: the name up to its last dot, when
    that dot is neither the first nor the last character. *)
Definition stem (p : Path) : str :=
  let name := path_name p in
  let i := rfind_from 46%N name 0 in
  if (0 <? i) && (i <? len name - 1) then take (Z.to_nat i) name else name.

(** [a == b] on floats: by value, and a NaN equals nothing. *)
Definition float_eqb (a b : pyfloat) : bool :=
  match a, b with
  | FNan, _ | _, FNan => false
  | _, _ => bool_decide (dict_key (PFloat a) = dict_key (PFloat b))
  end.

(** The file system as one call observes it; [st_mtime] is a float. *)
Record filesystem := {
  fs_exists : Path -> bool;
  fs_stat : Path -> outcome pyfloat;
  fs_open : Path -> outcome stream
}.

Inductive log_message :=
| FailedToRead (p : Path) (e : exn)
| HistoryFileNotFound (p : Path)
| FailedToReadHistory (e : exn).

Inductive log_record :=
| LogWarning (m : log_message)
| LogError (m : log_message).

(** The state the functions act on: [SessionCache._cache], the records
    handed to [logger], and the paths passed to [open], oldest first. *)
Record world := {
  cache : gmap str (pyfloat * list str);
  log : list log_record;
  opened : list Path
}.

Definition M (A : Type) : Type := world -> outcome A * world.

Definition ret {A} (a : A) : M A := fun w => (Return a, w).
Definition raise {A} (e : exn) : M A := fun w => (Raise e, w).
Definition emit (r : log_record) : M unit :=
  fun w => (Return tt, {| cache := cache w; log := log w ++ [r];
                          opened := opened w |}).
Definition note_open (p : Path) : M unit :=
  fun w => (Return tt, {| cache := cache w; log := log w;
                          opened := opened w ++ [p] |}).
Definition cache_store (k : str) (v : pyfloat * list str) : M unit :=
  fun w => (Return tt, {| cache := <[k := v]> (cache w); log := log w;
                          opened := opened w |}).
Definition bind {A B} (m : M A) (f : A -> M B) : M B :=
  fun w =>
    match m w with
    | (Return a, w') => f a w'
    | (Raise e, w') => (Raise e, w')
    end.

Notation "'do' x '<-' m ';' k" := (bind m (fun x => k))
  (at level 10, x name, m at level 100, k at level 200).
Notation "m ';;' k" := (bind m (fun _ => k))
  (at level 100, k at level 200, right associativity).

Section Sessions.

Variable json_loads : str -> outcome pyval.
Variable MAX_PROMPT_CHARS : Z.

(** *** [extract_prompts_from_session] *)

(** The [for] loop of source lines 174-180.  The result is the list
    [prompts] when the loop is left, with the exception that ended it,
    if any. *)
Fixpoint read_prompts (f : stream) (max_prompts : Z) (prompts : list str)
  : list str * option exn :=
  match f with
  | EOF => (prompts, None)
  | ReadError e => (prompts, Some e)
  | Line line rest =>
      if len prompts >=? max_prompts then (prompts, None)
      else
        match parse_user_message json_loads MAX_PROMPT_CHARS (strip line) with
        | Raise e => (prompts, Some e)
        | Return (Some (c :: p)) =>
            read_prompts rest max_prompts (prompts ++ [c :: p])
        | Return _ => read_prompts rest max_prompts prompts
        end
  end.

Definition extract_prompts_from_session (fs : filesystem)
    (session_file : Path) (max_prompts : Z) : M (list str) :=
  note_open session_file;;
  match fs_open fs session_file with
  | Raise e =>
      if is_OSError e
      then emit (LogWarning (FailedToRead session_file e));; ret []
      else raise e
  | Return f =>
      match read_prompts f max_prompts [] with
      | (prompts, None) => ret prompts
      | (prompts, Some e) =>
          if is_OSError e
          then emit (LogWarning (FailedToRead session_file e));; ret prompts
          else raise e
      end
  end.

(** *** [SessionCache.get_prompts] *)

Definition get_prompts (fs : filesystem) (session_file : Path)
    (max_prompts : Z) : M (list str) :=
  let session_id := stem session_file in
  match fs_stat fs session_file with
  | Raise e => if is_OSError e then ret [] else raise e
  | Return current_mtime =>
      fun w =>
        let miss :=
          do prompts <- extract_prompts_from_session fs session_file
                          max_prompts;
          cache_store session_id (current_mtime, prompts);;
          ret prompts in
        match cache w !! session_id with
        | Some (cached_mtime, cached_prompts) =>
            if float_eqb cached_mtime current_mtime
            then (Return cached_prompts, w)
            else miss w
        | None => miss w
        end
  end.

(** *** [get_today_sessions] *)

Variable HISTORY_FILE : Path.
(** [datetime.fromtimestamp(x / 1000)] for a number [x]: the local time,
    or the exception the conversion raises. *)
Variable fromtimestamp_ms : Z + pyfloat -> outcome datetime.

(** [datetime.fromtimestamp(timestamp_ms / 1000)] for any object: the
    division is a [TypeError] unless the object is a number. *)
Definition to_datetime (timestamp_ms : pyval) : outcome datetime :=
  match timestamp_ms with
  | PBool b => fromtimestamp_ms (inl (Z.b2z b))
  | PInt z => fromtimestamp_ms (inl z)
  | PFloat x => fromtimestamp_ms (inr x)
  | _ => Raise TypeError
  end.

(** The body of the loop over the history file, source lines 215-245:
    the mapping [all_sessions] after the line. *)
Definition scan_line (today : date) (all_sessions : pydict SessionInfo)
    (line : str) : outcome (pydict SessionInfo) :=
  match json_loads (strip line) with
  | Raise JSONDecodeError => Return all_sessions
  | Raise e => Raise e
  | Return data =>
      let! timestamp_ms := py_get data (py "timestamp") PNone in
      let! project := py_get data (py "project") PNone in
      let! session_id := py_get data (py "sessionId") PNone in
      if negb (forallb truthy [timestamp_ms; project; session_id])
      then Return all_sessions
      else
        match to_datetime timestamp_ms with
        | Raise e =>
            if is_ValueError e || is_TypeError e
            then Return all_sessions
            else Raise e
        | Return dt =>
            if negb (bool_decide (date_of dt = today)) then Return all_sessions
            else
              match dict_key session_id with
              | None => Raise TypeError
              | Some _ =>
                  let newer :=
                    match pd_get session_id all_sessions with
                    | None => true
                    | Some s => dt_ltb (last_updated s) dt
                    end in
                  if newer
                  then Return (pd_set session_id
                                 {| session_id := session_id;
                                    project_path := project;
                                    last_updated := dt;
                                    prompts := [] |} all_sessions)
                  else Return all_sessions
              end
        end
  end.

Fixpoint scan_history (today : date) (f : stream)
    (all_sessions : pydict SessionInfo)
  : pydict SessionInfo * option exn :=
  match f with
  | EOF => (all_sessions, None)
  | ReadError e => (all_sessions, Some e)
  | Line line rest =>
      match scan_line today all_sessions line with
      | Raise e => (all_sessions, Some e)
      | Return all_sessions' => scan_history today rest all_sessions'
      end
  end.

(** Source lines 250-255: grouping by project. *)
Fixpoint group_by_project (sessions : list SessionInfo)
    (project_sessions : pydict (list SessionInfo))
  : outcome (pydict (list SessionInfo)) :=
  match sessions with
  | [] => Return project_sessions
  | session :: rest =>
      let project := project_path session in
      match dict_key project with
      | None => Raise TypeError
      | Some _ =>
          let group := default [] (pd_get project project_sessions) in
          group_by_project rest
            (pd_set project (group ++ [session]) project_sessions)
      end
  end.

(** Source lines 258-260: each group newest first, cut to three. *)
Definition cap_groups (project_sessions : pydict (list SessionInfo))
  : pydict (list SessionInfo) :=
  map (fun '(project, l) =>
         (project, take MAX_SESSIONS_PER_PROJECT (sort_newest_first l)))
      project_sessions.

(** The first half of [get_today_sessions]: the mapping [all_sessions]
    when the history file has been read. *)
Definition read_history (today : date) (fs : filesystem)
  : M (pydict SessionInfo) :=
  note_open HISTORY_FILE;;
  match fs_open fs HISTORY_FILE with
  | Raise e =>
      if is_OSError e
      then emit (LogError (FailedToReadHistory e));; ret []
      else raise e
  | Return f =>
      match scan_history today f [] with
      | (all_sessions, None) => ret all_sessions
      | (all_sessions, Some e) =>
          if is_OSError e
          then emit (LogError (FailedToReadHistory e));; ret all_sessions
          else raise e
      end
  end.

Definition get_today_sessions (today : date) (fs : filesystem)
  : M (pydict (list SessionInfo)) :=
  if negb (fs_exists fs HISTORY_FILE)
  then emit (LogWarning (HistoryFileNotFound HISTORY_FILE));; ret []
  else
    do all_sessions <- read_history today fs;
    match group_by_project (pd_values all_sessions) [] with
    | Raise e => raise e
    | Return project_sessions => ret (cap_groups project_sessions)
    end.

End Sessions.

(** ** [format_markdown] *)

Fixpoint uint_chars (d : Decimal.uint) : str :=
  match d with
  | Decimal.Nil => []
  | Decimal.D0 d => 48%N :: uint_chars d
  | Decimal.D1 d => 49%N :: uint_chars d
  | Decimal.D2 d => 50%N :: uint_chars d
  | Decimal.D3 d => 51%N :: uint_chars d
  | Decimal.D4 d => 52%N :: uint_chars d
  | Decimal.D5 d => 53%N :: uint_chars d
  | Decimal.D6 d => 54%N :: uint_chars d
  | Decimal.D7 d => 55%N :: uint_chars d
  | Decimal.D8 d => 56%N :: uint_chars d
  | Decimal.D9 d => 57%N :: uint_chars d
  end.

(** [str(n)] *)
Definition str_of_nat (n : nat) : str := uint_chars (Nat.to_uint n).

(** A number in at least [width] digits, as [strftime] pads its fields. *)
Definition zero_pad (width : nat) (n : nat) : str :=
  let s := str_of_nat n in
  replicate (width - length s) 48%N ++ s.

(** [dt.strftime('%Y-%m-%d %H:%M:%S')]; the year is written in four
    digits, which is what every platform does from the year 1000 on. *)
Definition strftime_full (dt : datetime) : str :=
  zero_pad 4 (year dt) ++ py "-" ++ zero_pad 2 (month dt) ++ py "-"
  ++ zero_pad 2 (day dt) ++ py " " ++ zero_pad 2 (hour dt) ++ py ":"
  ++ zero_pad 2 (minute dt) ++ py ":" ++ zero_pad 2 (second dt).

(** [dt.strftime('%H:%M')] *)
Definition strftime_HM (dt : datetime) : str :=
  zero_pad 2 (hour dt) ++ py ":" ++ zero_pad 2 (minute dt).

(** [a < b] on strings: by code points, a proper prefix first. *)
Fixpoint str_ltb (a b : str) : bool :=
  match a, b with
  | x :: a', y :: b' => (x <? y)%N || ((x =? y)%N && str_ltb a' b')
  | [], _ :: _ => true
  | _, [] => false
  end.

Definition newline : str := [10%N].

Section Renderer.

(** [str.lower] *)
Variable str_lower : str -> str.

(** The sort key [item[0].lower()] of each item; only a [str] has the
    method. *)
Fixpoint with_sort_keys (items : pydict (list SessionInfo))
  : outcome (list (str * (str * list SessionInfo))) :=
  match items with
  | [] => Return []
  | (PStr project_path, session_list) :: rest =>
      let! keyed := with_sort_keys rest in
      Return ((str_lower project_path, (project_path, session_list)) :: keyed)
  | _ :: _ => Raise AttributeError
  end.

(** Source lines 321-330: the lines of one session. *)
Definition session_lines (session : SessionInfo) : list str :=
  [py "**最終更新**: " ++ strftime_HM (last_updated session);
   py "**プロンプト履歴**:"]
  ++ match prompts session with
     | [] => [py "1. （なし）"]
     | ps => imap (fun i prompt => str_of_nat (S i) ++ py ". " ++ prompt) ps
     end
  ++ [[]].

(** Source lines 316-330: the lines of one project. *)
Definition project_lines (item : str * list SessionInfo) : list str :=
  [py "---"; []; py "## " ++ item.1]
  ++ concat (map session_lines item.2).

(** Source lines 298-303: the header, with the time of the call. *)
Definition header_lines (now : datetime) : list str :=
  [py "# 🔄 作業状況"; [];
   py "*最終更新: " ++ strftime_full now ++ py "*"; []].

(** Source lines 305-330: what follows the header. *)
Definition body_lines (sessions : pydict (list SessionInfo))
  : outcome (list str) :=
  match sessions with
  | [] => Return [py "アクティブなセッションはありません。"]
  | _ =>
      let! keyed := with_sort_keys sessions in
      let sorted_projects :=
        map snd (stable_sort (fun y x => str_ltb y.1 x.1) keyed) in
      Return (concat (map project_lines sorted_projects))
  end.

(** [now] is the value of [datetime.now()] during the call. *)
Definition format_markdown (now : datetime)
    (sessions : pydict (list SessionInfo)) : outcome str :=
  let! body := body_lines sessions in
  Return (join newline (header_lines now ++ body)).

End Renderer.

Definition ascii_lower (s : str) : str :=
  map (fun c => if in_range 65 90 c then (c + 32)%N else c) s.

(** ** Concrete inputs for the examples *)

(** A JSON text written with single quotes in place of double quotes. *)
Definition jl (s : string) : str :=
  map (fun c => if char_eqb c 39%N then 34%N else c) (py s).

(** The session-log line of a user message with the given content, which
    is written as the inside of a JSON string. *)
Definition user_line (content : string) : str :=
  jl "{'type':'user','message':{'role':'user','content':'"
  ++ py content ++ jl "'}}".

(** A file system holding text files: path, [st_mtime], lines. *)
Definition files_fs (files : list (Path * (pyfloat * list str))) : filesystem :=
  let find p := list_find (fun f => bool_decide (f.1 = p)) files in
  {| fs_exists := fun p => bool_decide (is_Some (find p));
     fs_stat := fun p =>
       match find p with
       | Some (_, (_, (m, _))) => Return m
       | None => Raise OSError
       end;
     fs_open := fun p =>
       match find p with
       | Some (_, (_, (_, ls))) => Return (stream_of_lines ls)
       | None => Raise OSError
       end |}.

Definition empty_world : world := {| cache := ∅; log := []; opened := [] |}.

(** A clock for the examples: integer milliseconds since the epoch read
    as UTC, for the days of January 1970; anything else is refused. *)
Definition utc_fromtimestamp_ms (x : Z + pyfloat) : outcome datetime :=
  match x with
  | inl ms =>
      if (ms <? 0) || (31 * 86400000 <=? ms) then Raise ValueError
      else
        let field (z : Z) := Z.to_nat z in
        Return {| year := 1970; month := 1; day := field (1 + ms / 86400000);
                  hour := field ((ms / 3600000) mod 24);
                  minute := field ((ms / 60000) mod 60);
                  second := field ((ms / 1000) mod 60);
                  microsecond := field ((ms mod 1000) * 1000) |}
  | inr _ => Raise ValueError
  end.

Definition session_a : Path := [py "projects"; py "alpha"; py "s1.jsonl"].
Definition session_b : Path := [py "projects"; py "beta"; py "s1.jsonl"].

(** A session log with five user prompts and an assistant record. *)
Definition five_prompts : list str :=
  [user_line "one"; jl "{'type':'assistant','message':{'role':'assistant'}}";
   user_line "two"; user_line "three"; user_line "four"; user_line "five"].

(** ** The filter's rules in the words of the specification

    Second definitions, written from the specification, to compare the
    program with. *)

(** Each maximal run of whitespace becomes one space; [in_run] says that
    the character before was whitespace. *)
Fixpoint collapse_runs (s : str) (in_run : bool) : str :=
  match s with
  | [] => []
  | c :: s' =>
      if is_space c
      then if in_run then collapse_runs s' true
           else 32%N :: collapse_runs s' true
      else c :: collapse_runs s' false
  end.

(** Trimmed, and every whitespace run collapsed to a single space. *)
Definition normalize_spec (content : str) : str :=
  collapse_runs (strip content) false.

(** The first [cap] characters and an ellipsis when longer than [cap]. *)
Definition truncate_spec (cap : Z) (s : str) : str :=
  if len s >? cap then take (Z.to_nat cap) s ++ py "..." else s.

(** A tag: [<], a tag name, optional attributes, [>]. *)
Definition tag_re : regex :=
  seq_of [Lit 60%N; Cls cls_alpha; StarCls cls_name;
          Opt (Seq (Cls is_space) (StarCls cls_not_gt))]
         (Lit 62%N).

(** The occurrences of a pattern, each with the text that follows it. *)
Fixpoint occurrences_from (r : regex) (s : str) (skip : nat)
  : list (str * str) :=
  match s with
  | [] => []
  | _ :: s' =>
      match skip with
      | S n => occurrences_from r s' n
      | O =>
          match match_here r s with
          | Some n => (take n s, drop n s) :: occurrences_from r s' (pred n)
          | None => occurrences_from r s' 0%nat
          end
      end
  end.

Fixpoint name_prefix (s : str) : str :=
  match s with
  | c :: s' => if cls_name c then c :: name_prefix s' else []
  | [] => []
  end.

Definition tag_name (tag : str) : str := name_prefix (tail tag).

(** The tag ends in [/>]. *)
Definition self_closed (tag : str) : bool :=
  match rev tag with
  | 62%N :: 47%N :: _ => true
  | _ => false
  end.

(** The closing tag of [tag]. *)
Definition closer_of (tag : str) : str := py "</" ++ tag_name tag ++ py ">".

(** Open-tag occurrences: tags that are not self-closed and not
    immediately followed by their own closer. *)
Definition spec_open_tags (content : str) : list str :=
  map fst
    (List.filter
       (fun o => negb (self_closed o.1) && negb (is_prefix (closer_of o.1) o.2))
       (occurrences_from tag_re content 0%nat)).

(** Close-tag occurrences. *)
Definition spec_close_tags (content : str) : list str :=
  findall close_tag_re content.

Definition balanced_spec (content : str) : bool :=
  (length (spec_open_tags content) =? length (spec_close_tags content))%nat.

(** ** Vocabulary of the statements *)

(** The stream that delivers the lines [ls] and then goes on as [f]. *)
Fixpoint prepend (ls : list str) (f : stream) : stream :=
  match ls with
  | [] => f
  | l :: ls' => Line l (prepend ls' f)
  end.

(** The value of a field of a decoded record, [None] when it is absent. *)
Definition field (k : string) (d : list (str * pyval)) : pyval :=
  default PNone (assoc_get (py k) d).

Section Vocabulary.

Variable json_loads : str -> outcome pyval.
Variable cap : Z.

(** The filter returns on the line, with a prompt or with [None]. *)
Definition filter_returns (line : str) : Prop :=
  exists r, parse_user_message json_loads cap (strip line) = Return r.

(** The prompts the filter accepts among [ls], in the order of the
    lines. *)
Fixpoint accepted (ls : list str) : list str :=
  match ls with
  | [] => []
  | line :: ls' =>
      match parse_user_message json_loads cap (strip line) with
      | Return (Some (c :: p)) => (c :: p) :: accepted ls'
      | _ => accepted ls'
      end
  end.

End Vocabulary.

(** The world after [open] was called on [p]. *)
Definition after_open (p : Path) (w : world) : world :=
  {| cache := cache w; log := log w; opened := opened w ++ [p] |}.

(** The world after a failed read of [p] was reported. *)
Definition after_warning (p : Path) (e : exn) (w : world) : world :=
  {| cache := cache w;
     log := log w ++ [LogWarning (FailedToRead p e)];
     opened := opened w ++ [p] |}.

(** The string is empty or ends in a character that is not whitespace. *)
Definition no_trailing_space (s : str) : Prop :=
  match last s with
  | Some c => is_space c = false
  | None => True
  end.

Definition no_leading_space (s : str) : Prop :=
  match s with
  | c :: _ => is_space c = false
  | [] => True
  end.

(** The rejection rules on a decoded record, each with its reason. *)
Inductive rejected (d : list (str * pyval)) : Prop :=
| RejType : field "type" d <> PStr (py "user") -> rejected d
| RejMeta :
    truthy (default (PBool false) (assoc_get (py "isMeta") d)) = true ->
    rejected d
| RejMessage :
    truthy (field "message" d) = false \/ is_dict (field "message" d) = false ->
    rejected d
| RejRole m :
    field "message" d = PDict m -> field "role" m <> PStr (py "user") ->
    rejected d
| RejContent m :
    field "message" d = PDict m -> is_str (field "content" m) = false ->
    rejected d
| RejEmpty m content :
    field "message" d = PDict m -> field "content" m = PStr content ->
    strip content = [] -> rejected d
| RejSentinel m content tag :
    field "message" d = PDict m -> field "content" m = PStr content ->
    tag ∈ skip_tags -> contains tag (strip content) = true -> rejected d.

(** The world with [v] stored in the cache under [k]. *)
Definition with_entry (k : str) (v : pyfloat * list str) (w : world) : world :=
  {| cache := <[k := v]> (cache w); log := log w; opened := opened w |}.

(** Two session logs with the same file name in two project folders. *)
Definition two_projects (mtime : Z) : filesystem :=
  files_fs [(session_a, (FFin mtime 0, [user_line "alpha"]));
            (session_b, (FFin mtime 0, [user_line "beta"]))].

(** What the loop over the history file does with a line: it skips it,
    an exception leaves the loop body, or the line is a record of today
    with its session id, project and time. *)
Inductive line_kind :=
| Skipped
| Failed (e : exn)
| Today (sid project : pyval) (dt : datetime).

(** The [SessionInfo] the loop builds for a record of today. *)
Definition session_of (sid project : pyval) (dt : datetime) : SessionInfo :=
  {| session_id := sid; project_path := project; last_updated := dt;
     prompts := [] |}.

(** Source lines 239-245: the record is stored unless the mapping holds
    one for the session id that is not older. *)
Definition upsert (all_sessions : pydict SessionInfo)
    (r : pyval * pyval * datetime) : pydict SessionInfo :=
  let '(sid, project, dt) := r in
  match pd_get sid all_sessions with
  | Some s =>
      if dt_ltb (last_updated s) dt
      then pd_set sid (session_of sid project dt) all_sessions
      else all_sessions
  | None => pd_set sid (session_of sid project dt) all_sessions
  end.

Section HistoryVocabulary.

Variable json_loads : str -> outcome pyval.
Variable fromtimestamp_ms : Z + pyfloat -> outcome datetime.

Definition classify (today : date) (line : str) : line_kind :=
  match json_loads (strip line) with
  | Raise JSONDecodeError => Skipped
  | Raise e => Failed e
  | Return (PDict d) =>
      let timestamp_ms := field "timestamp" d in
      let project := field "project" d in
      let sid := field "sessionId" d in
      if truthy timestamp_ms && truthy project && truthy sid then
        match to_datetime fromtimestamp_ms timestamp_ms with
        | Raise e =>
            if is_ValueError e || is_TypeError e then Skipped else Failed e
        | Return dt =>
            if bool_decide (date_of dt = today)
            then match dict_key sid with
                 | Some _ => Today sid project dt
                 | None => Failed TypeError
                 end
            else Skipped
        end
      else Skipped
  | Return _ => Failed AttributeError
  end.

(** Today's records among the lines, in the order of the lines. *)
Fixpoint today_records (today : date) (ls : list str)
  : list (pyval * pyval * datetime) :=
  match ls with
  | [] => []
  | line :: ls' =>
      match classify today line with
      | Today sid project dt => (sid, project, dt) :: today_records today ls'
      | _ => today_records today ls'
      end
  end.

(** No exception leaves the loop body on the line. *)
Definition reads_cleanly (today : date) (line : str) : Prop :=
  forall e, classify today line <> Failed e.

End HistoryVocabulary.

(** [a] is not older than [b]. *)
Definition not_older (a b : SessionInfo) : Prop :=
  dt_ltb (last_updated a) (last_updated b) = false.

(** The entries of a mapping stored under the key [k]. *)
Definition entries_of {V} (k : pyval) (d : pydict V) : list (pyval * V) :=
  List.filter (fun e => same_key e.1 k) d.

(** The keys of a mapping, in their common form. *)
Definition keys {V} (d : pydict V) : list (option key) :=
  map (fun e => dict_key e.1) d.

(** A mapping of sessions built from the records [rs]: its keys are
    distinct, each entry is made from one of the records and stored under
    that record's session id, and the entry of each record's session id
    is not older than the record. *)
Record built_from (rs : list (pyval * pyval * datetime))
    (all : pydict SessionInfo) : Prop := {
  built_keys : NoDup (keys all);
  built_entries : forall k s,
    (k, s) ∈ all ->
    dict_key k = dict_key (session_id s)
    /\ (session_id s, project_path s, last_updated s) ∈ rs;
  built_latest : forall sid project dt,
    (sid, project, dt) ∈ rs ->
    exists s, pd_get sid all = Some s /\ dt_ltb (last_updated s) dt = false
}.

(** A history log for the examples: session [s1] at 00:00:01 and at
    00:00:05, session [s2] at 00:00:03, and a line of the next day. *)
Definition history_lines : list str :=
  [jl "{'timestamp': 1000, 'project': '/p', 'sessionId': 's1'}";
   jl "{'timestamp': 5000, 'project': '/p', 'sessionId': 's1'}";
   jl "not json";
   jl "{'timestamp': 3000, 'project': '/p', 'sessionId': 's2'}";
   jl "{'timestamp': 86400000, 'project': '/p', 'sessionId': 's3'}"].

Definition history_path : Path := [py "history.jsonl"].

Definition history_fs : filesystem :=
  files_fs [(history_path, (FFin 1 0, history_lines))].

(** Two times of day for the examples, one second apart. *)
Definition noon : datetime :=
  {| year := 2024; month := 5; day := 7; hour := 12; minute := 0;
     second := 0; microsecond := 0 |}.

Definition noon_and_a_second : datetime :=
  {| year := 2024; month := 5; day := 7; hour := 12; minute := 0;
     second := 1; microsecond := 0 |}.

(** ** [SessionCache.clear], [project_path_to_dir_name] and
    [load_session_prompts] *)

(** [self._cache.clear()] *)
Definition cache_clear : M unit :=
  fun w => (Return tt, {| cache := ∅; log := log w; opened := opened w |}).

(** [s.replace(old, new)] for one-character [old] and [new]. *)
Definition replace_char (old new : char) (s : str) : str :=
  map (fun c => if char_eqb c old then new else c) s.

(** Source line 195, on a [str]: the colon, the backslash, the slash, the
    space and the underscore become hyphens, one [replace] after the
    other. *)
Definition dir_name_of (project_path : str) : str :=
  replace_char 95%N 45%N
    (replace_char 32%N 45%N
       (replace_char 47%N 45%N
          (replace_char 92%N 45%N
             (replace_char 58%N 45%N project_path)))).

(** [project_path_to_dir_name]: only a [str] has [replace]. *)
Definition project_path_to_dir_name (project_path : pyval) : outcome str :=
  match project_path with
  | PStr s => Return (dir_name_of s)
  | _ => Raise AttributeError
  end.

(** What [load_session_prompts] asks of the directories: the entries of
    a directory, or the exception [iterdir] raises, and [is_dir]. *)
Record directories := {
  fs_iterdir : Path -> outcome (list Path);
  fs_is_dir : Path -> bool
}.

(** [session] with its [prompts] attribute set. *)
Definition set_prompts (session : SessionInfo) (ps : list str) : SessionInfo :=
  {| session_id := session_id session;
     project_path := project_path session;
     last_updated := last_updated session;
     prompts := ps |}.

Section Loader.

Variable json_loads : str -> outcome pyval.
Variable MAX_PROMPT_CHARS : Z.
Variable PROJECTS_DIR : Path.
(** [p / name] of [pathlib]. *)
Variable joinpath : Path -> str -> Path.
(** The text an f-string gives for an object; for a [str], itself. *)
Variable format_value : pyval -> str.

(** The file name built at source lines 275 and 283. *)
Definition session_file_name (session : SessionInfo) : str :=
format_value (session_id session) ++ py ".jsonl".

(** Source lines 281-286: the first project directory that holds a file
  with the session's name provides the prompts. *)
Fixpoint scan_project_dirs (fs : filesystem) (ds : directories)
  (dirs : list Path) (session : SessionInfo) : M SessionInfo :=
match dirs with
| [] => ret session
| project_dir :: rest =>
    if fs_is_dir ds project_dir
    then
      let alt_session_file := joinpath project_dir (session_file_name session) in
      if fs_exists fs alt_session_file
      then
        do ps <- get_prompts json_loads MAX_PROMPT_CHARS fs alt_session_file
                   MAX_PROMPTS_PER_SESSION;
        ret (set_prompts session ps)
      else scan_project_dirs fs ds rest session
    else scan_project_dirs fs ds rest session
end.

(** Source lines 271-286: the body of the inner loop. *)
Definition load_session (fs : filesystem) (ds : directories)
  (session : SessionInfo) : M SessionInfo :=
match project_path_to_dir_name (project_path session) with
| Raise e => raise e
| Return dir_name =>
    let session_file :=
      joinpath (joinpath PROJECTS_DIR dir_name) (session_file_name session) in
    if fs_exists fs session_file
    then
      do ps <- get_prompts json_loads MAX_PROMPT_CHARS fs session_file
                 MAX_PROMPTS_PER_SESSION;
      ret (set_prompts session ps)
    else
      match fs_iterdir ds PROJECTS_DIR with
      | Raise e => raise e
      | Return dirs => scan_project_dirs fs ds dirs session
      end
end.

Fixpoint load_session_list (fs : filesystem) (ds : directories)
  (session_list : list SessionInfo) : M (list SessionInfo) :=
match session_list with
| [] => ret []
| session :: rest =>
    do session' <- load_session fs ds session;
    do rest' <- load_session_list fs ds rest;
    ret (session' :: rest')
end.

(** The sessions are updated in place, project after project, and the
  mapping itself is returned.  A session is a record here, not an
  object: the mapping lists each session object once, as
  [get_today_sessions] builds it. *)
Fixpoint load_session_prompts (fs : filesystem) (ds : directories)
  (sessions : pydict (list SessionInfo)) : M (pydict (list SessionInfo)) :=
match sessions with
| [] => ret []
| (project_path, session_list) :: rest =>
    do session_list' <- load_session_list fs ds session_list;
    do rest' <- load_session_prompts fs ds rest;
    ret ((project_path, session_list') :: rest')
end.

End Loader.

(** ** Further vocabulary *)

(** The lines a stream delivers. *)
Fixpoint lines_of (f : stream) : list str :=
  match f with
  | Line l rest => l :: lines_of rest
  | _ => []
  end.

(** Every list of prompts in the cache has at most [N] entries. *)
Definition cache_bounded (N : Z) (w : world) : Prop :=
  forall k m ps, cache w !! k = Some (m, ps) -> len ps <= N.

(** The two records differ at most in their prompts. *)
Definition same_session (s s' : SessionInfo) : Prop :=
  session_id s' = session_id s
  /\ project_path s' = project_path s
  /\ last_updated s' = last_updated s.

(** Every whitespace character of the string is a plain space. *)
Definition single_line (s : str) : Prop :=
  Forall (fun c => is_space c = true -> c = 32%N) s.

(** The world after the failure to read the history file was logged. *)
Definition after_history_error (p : Path) (e : exn) (w : world) : world :=
  {| cache := cache w;
     log := log w ++ [LogError (FailedToReadHistory e)];
     opened := opened w ++ [p] |}.

(** The characters [project_path_to_dir_name] replaces. *)
Definition is_separator (c : char) : bool :=
  (c =? 58)%N || (c =? 92)%N || (c =? 47)%N || (c =? 32)%N || (c =? 95)%N.

(** A file system for the examples in which every file delivers one
    prompt line and then fails with [e]. *)
Definition broken_fs (e : exn) : filesystem :=
  {| fs_exists := fun _ => true;
     fs_stat := fun _ => Return (FFin 5 0);
     fs_open := fun _ => Return (prepend [user_line "one"] (ReadError e)) |}.

(** The file system that holds [five_prompts] as the first session. *)
Definition five_prompts_fs : filesystem :=
  files_fs [(session_a, (FFin 5 0, five_prompts))].

(** A file system in which every file can be stat-ed and none opened. *)
Definition locked_fs : filesystem :=
  {| fs_exists := fun _ => true;
     fs_stat := fun _ => Return (FFin 5 0);
     fs_open := fun _ => Raise OSError |}.

(** File systems for the examples whose history file holds the given
    lines, and then ends or fails with [e]. *)
Definition history_fs_of (lines : list str) : filesystem :=
  files_fs [(history_path, (FFin 1 0, lines))].

Definition failing_history_fs (lines : list str) (e : exn) : filesystem :=
  {| fs_exists := fun _ => true;
     fs_stat := fun _ => Return (FFin 1 0);
     fs_open := fun _ => Return (prepend lines (ReadError e)) |}.

Definition first_history_line : str :=
  jl "{'timestamp': 1000, 'project': '/p', 'sessionId': 's1'}".

(** The groups of a grouping are well formed: their keys are distinct,
    no group is empty, and a session is in the group of its project. *)
Record grouped (groups : pydict (list SessionInfo)) : Prop := {
  grouped_keys : NoDup (keys groups);
  grouped_entries : forall project l,
    (project, l) ∈ groups ->
    l <> [] /\ forall s, s ∈ l -> dict_key (project_path s) = dict_key project
}.

(** All the sessions of a mapping, group after group. *)
Definition all_sessions_of (groups : pydict (list SessionInfo))
  : list SessionInfo :=
  concat (map snd groups).

(** What the history log of the examples gives on 1970-01-01. *)
Definition second_of_day (s : nat) : datetime :=
  {| year := 1970; month := 1; day := 1; hour := 0; minute := 0;
     second := s; microsecond := 0 |}.

Definition history_sessions : pydict SessionInfo :=
  [(PStr (py "s1"),
    session_of (PStr (py "s1")) (PStr (py "/p")) (second_of_day 5));
   (PStr (py "s2"),
    session_of (PStr (py "s2")) (PStr (py "/p")) (second_of_day 3))].

Definition history_groups : pydict (list SessionInfo) :=
  [(PStr (py "/p"),
    [session_of (PStr (py "s1")) (PStr (py "/p")) (second_of_day 5);
     session_of (PStr (py "s2")) (PStr (py "/p")) (second_of_day 3)])].

(** The sort key and the item [format_markdown] sorts for a project whose
    key is a [str]. *)
Definition keyed_item (str_lower : str -> str)
    (item : pyval * list SessionInfo) : str * (str * list SessionInfo) :=
  match item.1 with
  | PStr project_path => (str_lower project_path, (project_path, item.2))
  | _ => ([], ([], item.2))
  end.

(** The line of the document for a mapping without sessions. *)
Definition no_sessions_document (now : datetime) : str :=
  join newline
    (header_lines now ++ [py "アクティブなセッションはありません。"]).

(** One [replace] of [project_path_to_dir_name], on one character. *)
Definition hyphen_for (old c : char) : char :=
  if char_eqb c old then 45%N else c.

(** Two groups of sessions have the same projects and, in each, the same
    sessions up to their prompts. *)
Definition same_groups (g g' : pyval * list SessionInfo) : Prop :=
  g'.1 = g.1 /\ Forall2 same_session g.2 g'.2.

(** Every session of the mapping has at most [N] prompts. *)
Definition prompts_bounded (N : Z) (sessions : pydict (list SessionInfo))
  : Prop :=
  Forall (fun g => Forall (fun s => len (prompts s) <= N) g.2) sessions.

(** A mapping with two projects, and the same with the projects
    swapped. *)
Definition two_project_mapping : pydict (list SessionInfo) :=
  [(PStr (py "beta"),
    [session_of (PStr (py "s2")) (PStr (py "beta")) (second_of_day 3)]);
   (PStr (py "Alpha"),
    [session_of (PStr (py "s1")) (PStr (py "Alpha")) (second_of_day 5)])].

Definition two_project_mapping_swapped : pydict (list SessionInfo) :=
  [(PStr (py "Alpha"),
    [session_of (PStr (py "s1")) (PStr (py "Alpha")) (second_of_day 5)]);
   (PStr (py "beta"),
    [session_of (PStr (py "s2")) (PStr (py "beta")) (second_of_day 3)])].

(** For the examples: paths are joined by appending the name, an object
    is formatted as its text when it is a string, and the project folder
    holds the two project directories of [two_projects]. *)
Definition join_part (p : Path) (name : str) : Path := p ++ [name].

Definition format_text (v : pyval) : str :=
  match v with
  | PStr s => s
  | _ => []
  end.

Definition projects_dir : Path := [py "projects"].

Definition project_dirs : directories :=
  {| fs_iterdir := fun p =>
       if bool_decide (p = projects_dir)
       then Return [[py "projects"; py "alpha"]; [py "projects"; py "beta"]]
       else Raise OSError;
     fs_is_dir := fun _ => true |}.

Definition no_project_dirs : directories :=
  {| fs_iterdir := fun _ => Raise OSError; fs_is_dir := fun _ => false |}.

(** A mapping with the session [s1] of the project [alpha], before and
    after its prompts are loaded from [two_projects]. *)
Definition alpha_mapping : pydict (list SessionInfo) :=
  [(PStr (py "alpha"),
    [session_of (PStr (py "s1")) (PStr (py "alpha")) (second_of_day 5)])].

Definition alpha_loaded : pydict (list SessionInfo) :=
  [(PStr (py "alpha"),
    [set_prompts
       (session_of (PStr (py "s1")) (PStr (py "alpha")) (second_of_day 5))
       [py "alpha"]])].

(** A file system with the history log of the examples and the log of
    its session [s1], holding five prompts, in the folder of the project
    [/p]; and what scanning and loading give from it on 1970-01-01. *)
Definition scanned_fs : filesystem :=
  files_fs [(history_path, (FFin 1 0, history_lines));
            ([py "projects"; py "-p"; py "s1.jsonl"],
             (FFin 5 0, five_prompts))].

Definition scanned_loaded : pydict (list SessionInfo) :=
  [(PStr (py "/p"),
    [set_prompts
       (session_of (PStr (py "s1")) (PStr (py "/p")) (second_of_day 5))
       [py "one"; py "two"; py "three"];
     session_of (PStr (py "s2")) (PStr (py "/p")) (second_of_day 3)])].

(** ** The tag patterns in words

    Second definitions of the two patterns of [parse_user_message],
    written from their description in words and without the pattern
    matcher, to compare [open_tag_re] and [close_tag_re] with. *)

(** [s] without its longest prefix of characters of the class [p]. *)
Fixpoint skip_while (p : char -> bool) (s : str) : str :=
  match s with
  | c :: s' => if p c then skip_while p s' else s
  | [] => []
  end.

(** What follows the next [>] of [s], if [s] has one. *)
Fixpoint after_next_gt (s : str) : option str :=
  match s with
  | c :: s' => if char_eqb c 62%N then Some s' else after_next_gt s'
  | [] => None
  end.

(** [s] starts with [</]. *)
Definition starts_closer (s : str) : bool :=
  match s with
  | a :: b :: _ => char_eqb a 60%N && char_eqb b 47%N
  | _ => false
  end.

(** A letter of the ASCII alphabet, and a character of a tag name after
    its first: a letter, a digit or a hyphen. *)
Definition is_letter (c : char) : bool :=
  ((65 <=? c) && (c <=? 90) || (97 <=? c) && (c <=? 122))%N.

Definition is_name_char (c : char) : bool :=
  is_letter c || ((48 <=? c) && (c <=? 57))%N || char_eqb c 45%N.

(** An open tag at the head of [s], with what follows it: [<], a tag
    name, optionally one whitespace character followed by any characters
    up to the next [>], then [>]; and the tag is not immediately followed
    by [</]. *)
Definition open_tag_words (s : str) : option str :=
  match s with
  | lt :: a :: s1 =>
      if char_eqb lt 60%N && is_letter a
      then
        let tag_end :=
          match skip_while is_name_char s1 with
          | c :: s2 =>
              if char_eqb c 62%N then Some s2
              else if is_space c then after_next_gt s2
              else None
          | [] => None
          end in
        match tag_end with
        | Some after => if starts_closer after then None else Some after
        | None => None
        end
      else None
  | _ => None
  end.

(** A close tag at the head of [s], with what follows it: [</], a tag
    name, [>]. *)
Definition close_tag_words (s : str) : option str :=
  match s with
  | lt :: sl :: a :: s1 =>
      if char_eqb lt 60%N && char_eqb sl 47%N && is_letter a
      then
        match skip_while is_name_char s1 with
        | c :: after => if char_eqb c 62%N then Some after else None
        | [] => None
        end
      else None
  | _ => None
  end.

(** The number of tags found in [s] from left to right, the search going
    on where the last tag found ends; [skip] counts the characters of
    that tag still to be passed. *)
Fixpoint count_tags (tag : str -> option str) (s : str) (skip : nat) : nat :=
  match s with
  | [] => 0
  | _ :: s' =>
      match skip with
      | S n => count_tags tag s' n
      | O =>
          match tag s with
          | Some after =>
              S (count_tags tag s' (pred (length s - length after)))
          | None => count_tags tag s' 0
          end
      end
  end.

Definition open_tags_words (content : str) : nat :=
  count_tags open_tag_words content 0.

Definition close_tags_words (content : str) : nat :=
  count_tags close_tag_words content 0.

(** ** Equal mappings for the renderer *)

(** What [format_markdown] reads of a session: its time and its
    prompts. *)
Definition shown (s : SessionInfo) : SessionInfo :=
  {| session_id := PNone; project_path := PNone;
     last_updated := last_updated s; prompts := prompts s |}.

Definition shown_items (sessions : pydict (list SessionInfo))
  : pydict (list SessionInfo) :=
  map (fun item => (item.1, map shown item.2)) sessions.

(** Two mappings are equal as dictionaries: they hold the same project
    keys, in whatever order these were inserted, and under each key the
    same list of sessions, each session carrying the same prompts and
    the same timestamp. *)
Definition equal_mappings (sessions sessions' : pydict (list SessionInfo))
  : Prop :=
  shown_items sessions ≡ₚ shown_items sessions'.

(** The sort keys of the projects of a mapping. *)
Definition lowered_keys (str_lower : str -> str)
    (sessions : pydict (list SessionInfo)) : list str :=
  map (fun item => (keyed_item str_lower item).1) sessions.

(** Two projects whose names differ in case only, inserted in the two
    orders. *)
Definition case_mapping : pydict (list SessionInfo) :=
  [(PStr (py "Work"),
    [session_of (PStr (py "s1")) (PStr (py "Work")) (second_of_day 5)]);
   (PStr (py "work"),
    [session_of (PStr (py "s2")) (PStr (py "work")) (second_of_day 3)])].

Definition case_mapping_swapped : pydict (list SessionInfo) :=
  [(PStr (py "work"),
    [session_of (PStr (py "s2")) (PStr (py "work")) (second_of_day 3)]);
   (PStr (py "Work"),
    [session_of (PStr (py "s1")) (PStr (py "Work")) (second_of_day 5)])].

(** The mapping [two_project_mapping_swapped] with other session ids:
    what is shown of its sessions is the same. *)
Definition two_project_mapping_renamed : pydict (list SessionInfo) :=
  [(PStr (py "Alpha"),
    [session_of (PStr (py "t1")) (PStr (py "Alpha")) (second_of_day 5)]);
   (PStr (py "beta"),
    [session_of (PStr (py "t2")) (PStr (py "beta")) (second_of_day 3)])].

(** ** The record kept for a session id *)

(** Two records of today with the session id [s1] and the same
    timestamp, in different projects. *)
Definition tie_p : str :=
  jl "{'timestamp': 1000, 'project': '/p', 'sessionId': 's1'}".

Definition tie_q : str :=
  jl "{'timestamp': 1000, 'project': '/q', 'sessionId': 's1'}".

(** The record [r] is, among the records [rs] with the session id [sid],
    the first in the order of [rs] of those with the latest time: the
    records of the id before it are older, and none after it is
    newer. *)
Definition first_latest (rs : list (pyval * pyval * datetime)) (sid : pyval)
    (r : pyval * pyval * datetime) : Prop :=
  exists pre post,
    rs = pre ++ r :: post
    /\ same_key r.1.1 sid = true
    /\ (forall r', r' ∈ pre -> same_key r'.1.1 sid = true ->
                   dt_ltb r'.2 r.2 = true)
    /\ (forall r', r' ∈ post -> same_key r'.1.1 sid = true ->
                   dt_ltb r.2 r'.2 = false).

(** [s] is the record kept for the session id [sid], given today's
    records [rs] of the history log and the mapping [groups] that
    [get_today_sessions] returns: it is made from one of the records with
    that id, none of which has a later time, and from the first of those
    with that time; in [groups] the id occurs at most once, with this
    record; and the record is listed under its project unless the
    project's list is full with three sessions that are not older. *)
Record kept_record (rs : list (pyval * pyval * datetime)) (sid : pyval)
    (groups : pydict (list SessionInfo)) (s : SessionInfo) : Prop := {
  kept_id : same_key (session_id s) sid = true;
  kept_from : (session_id s, project_path s, last_updated s) ∈ rs;
  kept_fresh : prompts s = [];
  kept_latest : forall r,
    r ∈ rs -> same_key r.1.1 sid = true ->
    dt_ltb (last_updated s) r.2 = false;
  kept_first :
    first_latest rs sid (session_id s, project_path s, last_updated s);
  kept_only : forall t,
    t ∈ all_sessions_of groups -> same_key (session_id t) sid = true ->
    t = s;
  kept_once :
    (length (List.filter (fun t => same_key (session_id t) sid)
               (all_sessions_of groups)) <= 1)%nat;
  kept_listed : exists project l,
    (project, l) ∈ groups
    /\ same_key (project_path s) project = true
    /\ (s ∈ l \/ (length l = 3%nat /\ Forall (fun t => not_older t s) l))
}.

(** The records with the session id [sid] that carry the same time are
    the same record. *)
Definition no_ties (rs : list (pyval * pyval * datetime)) (sid : pyval)
  : Prop :=
  forall r r',
    r ∈ rs -> r' ∈ rs ->
    same_key r.1.1 sid = true -> same_key r'.1.1 sid = true ->
    r.2 = r'.2 -> r = r'.

(** * Properties *)

(** ** Strings *)

Lemma str_eqb_eq (a b : str) : str_eqb a b = true <-> a = b.
Proof.
  revert b; induction a as [|x a IH]; intros [|y b]; simpl; try easy.
  unfold char_eqb. rewrite andb_true_iff, N.eqb_eq, IH.
  split; [intros [-> ->]; reflexivity | intros [= -> ->]; auto].
Qed.

Lemma ne_str_false (v : pyval) (s : str) : ne_str v s = false -> v = PStr s.
Proof.
  destruct v; simpl; try discriminate.
  intros H. apply negb_false_iff, str_eqb_eq in H. congruence.
Qed.

(** ** [parse_user_message] *)

Section PromptFilterTheory.

Variable json_loads : str -> outcome pyval.
Variable cap : Z.

(** A decoded value that is not a dict has no [get]. *)
Lemma filter_record_not_dict (data : pyval) :
  is_dict data = false -> filter_record cap data = Raise AttributeError.
Proof. destruct data; intros; try discriminate; reflexivity. Qed.

Lemma parse_user_message_not_dict (line : str) (data : pyval) :
  json_loads line = Return data -> is_dict data = false ->
  parse_user_message json_loads cap line = Raise AttributeError.
Proof.
  intros Hl Hd. unfold parse_user_message. rewrite Hl.
  now apply filter_record_not_dict.
Qed.

(** What an accepted record looks like. *)
Lemma filter_record_accepts (data : pyval) (p : str) :
  filter_record cap data = Return (Some p) ->
  exists d m content,
    data = PDict d
    /\ field "type" d = PStr (py "user")
    /\ truthy (default (PBool false) (assoc_get (py "isMeta") d)) = false
    /\ field "message" d = PDict m
    /\ m <> []
    /\ field "role" m = PStr (py "user")
    /\ field "content" m = PStr content
    /\ filter_content cap content = Some p.
Proof.
  destruct data as [| | | | |l|d]; try discriminate.
  unfold filter_record, py_get, obind, field.
  destruct (assoc_get (py "type") d) as [ty|] eqn:Hty; [|discriminate].
  destruct (ne_str ty (py "user")) eqn:Hne; [discriminate|].
  apply ne_str_false in Hne; subst ty.
  destruct (assoc_get (py "isMeta") d) as [im|] eqn:Him; cbn [default];
    (destruct (truthy _) eqn:Htr; [discriminate|]);
    (destruct (assoc_get (py "message") d) as [msg|] eqn:Hmsg;
       [|discriminate]);
    (destruct msg as [| | | | |l|m];
       try (cbn [is_dict negb]; rewrite orb_true_r; discriminate));
    (destruct m as [|kv m]; [discriminate|]; set (m' := kv :: m) in *;
     cbn [truthy is_dict negb orb]);
    (destruct (assoc_get (py "role") m') as [ro|] eqn:Hro; [|discriminate]);
    (destruct (ne_str ro (py "user")) eqn:Hne; [discriminate|]);
    apply ne_str_false in Hne; subst ro;
    (destruct (assoc_get (py "content") m') as [c|] eqn:Hc; [|discriminate]);
    (destruct c; try discriminate);
    intros [= H]; exists d, m', s;
    rewrite Hty, Him, Hmsg, Hro, Hc; cbn [default]; auto 10.
Qed.

(** On a dict no check raises. *)
Lemma filter_record_dict_returns (d : list (str * pyval)) :
  exists r, filter_record cap (PDict d) = Return r.
Proof.
  unfold filter_record, py_get, obind.
  destruct (ne_str _ _); eauto.
  destruct (truthy _); eauto.
  destruct (match assoc_get (py "message") d with
            | Some v => v | None => PNone end) as [| | | | |l|m];
    try (cbn [is_dict negb]; rewrite orb_true_r; eauto).
  destruct (negb (truthy (PDict m)) || negb (is_dict (PDict m))); eauto.
  destruct (ne_str _ _); eauto.
  destruct (match assoc_get (py "content") m with
            | Some v => v | None => PNone end); eauto.
Qed.

Lemma filter_record_rejects (d : list (str * pyval)) :
  rejected d -> filter_record cap (PDict d) = Return None.
Proof.
  intros Hrej. destruct (filter_record_dict_returns d) as [[p|] Hr]; auto.
  exfalso. apply filter_record_accepts in Hr.
  destruct Hr as (d' & m & c & [= <-] & Hty & Him & Hmsg & Hm0 & Hro & Hc
                  & Hf).
  destruct Hrej as [H|H|[H|H]|m' Hm H|m' Hm H|m' c' Hm Hc' H
                   |m' c' tag Hm Hc' Hin H];
    try congruence.
  - rewrite Hmsg in H. destruct m; [congruence|discriminate].
  - rewrite Hmsg in H. discriminate.
  - assert (m' = m) by congruence; subst. rewrite Hc in H. discriminate.
  - assert (m' = m) by congruence; subst.
    assert (c' = c) by congruence; subst.
    unfold filter_content in Hf.
    rewrite bool_decide_eq_true_2 in Hf by auto. discriminate.
  - assert (m' = m) by congruence; subst.
    assert (c' = c) by congruence; subst.
    unfold filter_content in Hf.
    destruct (bool_decide (strip c = [])); [discriminate|].
    assert (existsb (fun tag => contains tag (strip c)) skip_tags = true)
      as Hex.
    { apply existsb_exists. exists tag. split; auto.
      now apply list_elem_of_In. }
    rewrite Hex in Hf. discriminate.
Qed.

Lemma parse_user_message_accepts (line p : str) :
  parse_user_message json_loads cap line = Return (Some p) ->
  exists d m content,
    json_loads line = Return (PDict d)
    /\ field "type" d = PStr (py "user")
    /\ truthy (default (PBool false) (assoc_get (py "isMeta") d)) = false
    /\ field "message" d = PDict m
    /\ m <> []
    /\ field "role" m = PStr (py "user")
    /\ field "content" m = PStr content
    /\ filter_content cap content = Some p.
Proof.
  unfold parse_user_message.
  destruct (json_loads line) as [data|e]; [|destruct e; discriminate].
  intros H. apply filter_record_accepts in H.
  destruct H as (d & m & c & -> & H). exists d, m, c. auto.
Qed.

(** A line that is not JSON, or whose record meets a rejection rule,
    gives [None]. *)
Lemma parse_user_message_rejects (line : str) :
  json_loads line = Raise JSONDecodeError
  \/ (exists d, json_loads line = Return (PDict d) /\ rejected d) ->
  parse_user_message json_loads cap line = Return None.
Proof.
  unfold parse_user_message. intros [->|(d & -> & H)]; auto.
  now apply filter_record_rejects.
Qed.

End PromptFilterTheory.

(** ** [extract_prompts_from_session] *)

Lemma stream_of_lines_prepend (ls : list str) :
  stream_of_lines ls = prepend ls EOF.
Proof. induction ls; simpl; congruence. Qed.

Section ExtractorTheory.

Variable json_loads : str -> outcome pyval.
Variable cap : Z.

Lemma read_prompts_bound (f : stream) (N : Z) (ps : list str) :
  len ps <= N -> len (read_prompts json_loads cap f N ps).1 <= N.
Proof.
  revert ps; induction f as [|line rest IH|e]; intros ps Hps; simpl; auto.
  destruct (len ps >=? N) eqn:Hge; [exact Hps|].
  destruct (parse_user_message json_loads cap (strip line))
    as [[[|c p]|]|e]; simpl; auto.
  apply IH. unfold len in *. rewrite length_app. simpl. lia.
Qed.

Lemma take_all_len {A} (N : Z) (l : list A) :
  len l <= N -> take (Z.to_nat N) l = l.
Proof. intros H. apply take_ge. unfold len in H. lia. Qed.

(** The loop on lines the filter returns on: the first [N] accepted
    prompts, whether the file ends after the lines or the [N]-th prompt
    has been found before another line is delivered. *)
Lemma read_prompts_lines (ls : list str) (f : stream) (N : Z)
    (ps : list str) :
  Forall (filter_returns json_loads cap) ls ->
  len ps <= N ->
  f = EOF \/ (N <= len (ps ++ accepted json_loads cap ls) /\ exists l r, f = Line l r) ->
  read_prompts json_loads cap (prepend ls f) N ps
  = (take (Z.to_nat N) (ps ++ accepted json_loads cap ls), None).
Proof.
  intros Hls; revert ps.
  induction Hls as [|line ls [r Hr] Hls IH]; intros ps Hps Hf.
  - simpl. rewrite app_nil_r in *.
    destruct Hf as [->|[Hn (l & r & ->)]]; simpl.
    + now rewrite take_all_len.
    + replace (len ps >=? N) with true by lia.
      now rewrite take_all_len.
  - simpl. simpl in Hf. rewrite Hr in *.
    destruct (len ps >=? N) eqn:Hge.
    + rewrite take_app_le by (unfold len in *; lia).
      now rewrite take_all_len by lia.
    + destruct r as [[|c p]|].
      * apply IH; auto.
      * rewrite IH.
        -- now rewrite <- app_assoc.
        -- unfold len in *. rewrite length_app. simpl. lia.
        -- rewrite <- app_assoc. exact Hf.
      * apply IH; auto.
Qed.

(** C5: for every session log and limit [N >= 0] the extractor returns
    at most [N] prompts; on a log whose lines the filter returns on they
    are the first [N] prompts the filter accepts, in the order of the
    lines; and once [N] prompts are collected the lines that follow are
    not scanned: whatever they are, the result is the same. *)
Theorem extract_first_prompts (N : Z) (fs : filesystem) (p : Path)
    (w : world) :
  0 <= N ->
  (forall ps w',
      extract_prompts_from_session json_loads cap fs p N w = (Return ps, w') ->
      len ps <= N)
  /\ (forall ls,
         fs_open fs p = Return (stream_of_lines ls) ->
         Forall (filter_returns json_loads cap) ls ->
         extract_prompts_from_session json_loads cap fs p N w
         = (Return (take (Z.to_nat N) (accepted json_loads cap ls)), after_open p w))
  /\ (forall pre l rest,
         fs_open fs p = Return (prepend pre (Line l rest)) ->
         Forall (filter_returns json_loads cap) pre ->
         N <= len (accepted json_loads cap pre) ->
         extract_prompts_from_session json_loads cap fs p N w
         = (Return (take (Z.to_nat N) (accepted json_loads cap pre)), after_open p w)).
Proof.
  intros HN. unfold extract_prompts_from_session, bind, note_open.
  split; [|split].
  - intros ps w'.
    destruct (fs_open fs p) as [f|e].
    + pose proof (read_prompts_bound f N [] HN) as Hb.
      destruct (read_prompts json_loads cap f N []) as [ps' [e|]];
        simpl in Hb.
      * destruct (is_OSError e); cbv [emit ret raise bind];
          intros [= <- _]; auto.
      * cbv [ret]. intros [= <- _]; auto.
    + destruct (is_OSError e); cbv [emit ret raise bind];
        intros [= <- _]; auto.
  - intros ls Ho Hls. rewrite Ho, stream_of_lines_prepend.
    rewrite read_prompts_lines by auto. reflexivity.
  - intros pre l rest Ho Hpre Hlen. rewrite Ho.
    rewrite read_prompts_lines by eauto. reflexivity.
Qed.

End ExtractorTheory.

Lemma extract_first_prompts_witness :
  0 <= 3
  /\ extract_prompts_from_session Json.loads 300
       (files_fs [(session_a, (FFin 5 0, five_prompts))]) session_a 3
       empty_world
     = (Return [py "one"; py "two"; py "three"],
        after_open session_a empty_world).
Proof.
  split; [lia|].
  destruct (extract_first_prompts Json.loads 300 3
              (files_fs [(session_a, (FFin 5 0, five_prompts))]) session_a
              empty_world) as (_ & H & _); [lia|].
  rewrite (H five_prompts).
  - vm_compute. reflexivity.
  - vm_compute. reflexivity.
  - repeat constructor; eexists; vm_compute; reflexivity.
Defined.

(** ** Whitespace normalization *)

Lemma lstrip_no_leading (s : str) : no_leading_space (lstrip s).
Proof.
  induction s as [|c s IH]; simpl; auto.
  destruct (is_space c) eqn:Hc; simpl; auto.
Qed.

Lemma rstrip_head (s : str) :
  no_leading_space s -> no_leading_space (rstrip s).
Proof.
  destruct s as [|c s]; simpl; auto. intros Hc.
  destruct (rstrip s); [rewrite Hc|]; simpl; auto.
Qed.

Lemma rstrip_no_trailing (s : str) : no_trailing_space (rstrip s).
Proof.
  unfold no_trailing_space.
  induction s as [|c s IH]; simpl; auto.
  destruct (rstrip s) as [|x r] eqn:Hr.
  - destruct (is_space c) eqn:Hc; simpl; auto.
  - rewrite last_cons. destruct (last (x :: r)) eqn:Hl; [exact IH|].
    now apply last_None in Hl.
Qed.

Lemma strip_trimmed (s : str) :
  no_leading_space (strip s) /\ no_trailing_space (strip s).
Proof.
  split; [apply rstrip_head, lstrip_no_leading | apply rstrip_no_trailing].
Qed.

Lemma no_trailing_space_tail (c : char) (s : str) :
  no_trailing_space (c :: s) -> s <> [] -> no_trailing_space s.
Proof.
  unfold no_trailing_space. rewrite last_cons.
  destruct (last s) eqn:Hl; auto.
Qed.

Lemma split_from_nonempty (s cur : str) :
  no_trailing_space s -> s <> [] -> split_from s cur <> [].
Proof.
  revert cur; induction s as [|c s IH]; intros cur Hs Hne; [easy|].
  simpl. destruct s as [|c' s'].
  - unfold no_trailing_space in Hs. simpl in Hs. rewrite Hs. simpl. easy.
  - assert (no_trailing_space (c' :: s'))
      by (eapply no_trailing_space_tail; eauto; easy).
    destruct (is_space c); [destruct cur|]; try easy; apply IH; easy.
Qed.

Lemma join_cons (sep w : str) (ws : list str) :
  ws <> [] -> join sep (w :: ws) = w ++ sep ++ join sep ws.
Proof. destruct ws; easy. Qed.

(** On a string without trailing whitespace, splitting at whitespace and
    joining with single spaces collapses the runs. *)
Lemma join_split_from (s : str) :
  no_trailing_space s ->
  (forall cur, cur <> [] ->
     join (py " ") (split_from s cur) = rev cur ++ collapse_runs s false)
  /\ join (py " ") (split_from s []) = collapse_runs s true.
Proof.
  induction s as [|c s IH]; intros Hs.
  - split; [|reflexivity]. intros [|x cur] Hcur; [easy|].
    simpl. now rewrite app_nil_r.
  - assert (Htail : s <> [] -> no_trailing_space s)
      by (intros; eapply no_trailing_space_tail; eauto).
    simpl. destruct (is_space c) eqn:Hc.
    + assert (Hne : s <> []).
      { intros ->. unfold no_trailing_space in Hs. simpl in Hs. congruence. }
      destruct (IH (Htail Hne)) as [_ IH2].
      split; [|exact IH2].
      intros [|x cur] Hcur; [easy|].
      rewrite join_cons by (apply split_from_nonempty; auto).
      rewrite IH2. reflexivity.
    + assert (IH' : forall cur, cur <> [] ->
                join (py " ") (split_from s cur)
                = rev cur ++ collapse_runs s false).
      { destruct s as [|c' s'].
        - intros [|x cur] Hcur; [easy|]. simpl. now rewrite app_nil_r.
        - apply IH, Htail. easy. }
      split.
      * intros cur Hcur. rewrite IH' by easy. simpl.
        now rewrite <- app_assoc.
      * rewrite IH' by easy. reflexivity.
Qed.

Lemma collapse_runs_no_leading (s : str) :
  no_leading_space s -> collapse_runs s true = collapse_runs s false.
Proof. destruct s as [|c s]; simpl; auto. now intros ->. Qed.

(** The program's normalization is the specification's. *)
Lemma join_split_strip (content : str) :
  join (py " ") (split (strip content)) = normalize_spec content.
Proof.
  destruct (strip_trimmed content) as [Hl Ht].
  unfold split, normalize_spec.
  destruct (join_split_from _ Ht) as [_ ->].
  now apply collapse_runs_no_leading.
Qed.

Lemma slice_to_nonneg (cap : Z) (s : str) :
  0 <= cap -> slice_to cap s = take (Z.to_nat cap) s.
Proof. intros H. unfold slice_to. now replace (cap <? 0) with false by lia. Qed.

(** ** The checks on the content *)

Section ContentTheory.

Variable cap : Z.

Lemma filter_content_accepts (content p : str) :
  filter_content cap content = Some p ->
  strip content <> []
  /\ existsb (fun tag => contains tag (strip content)) skip_tags = false
  /\ length (findall open_tag_re (strip content))
     = length (findall close_tag_re (strip content))
  /\ p = let n := join (py " ") (split (strip content)) in
         if len n >? cap then slice_to cap n ++ py "..." else n.
Proof.
  unfold filter_content.
  destruct (bool_decide (strip content = [])) eqn:He; [discriminate|].
  apply bool_decide_eq_false in He.
  destruct (existsb _ skip_tags); [discriminate|].
  destruct (length _ =? length _)%nat eqn:Hn; [|discriminate].
  apply Nat.eqb_eq in Hn. simpl. intros [= <-]. auto.
Qed.

Lemma filter_content_unbalanced (content : str) :
  length (findall open_tag_re (strip content))
  <> length (findall close_tag_re (strip content)) ->
  filter_content cap content = None.
Proof.
  intros Hn. destruct (filter_content cap content) as [p|] eqn:H; auto.
  apply filter_content_accepts in H. tauto.
Qed.

Lemma filter_content_empty (content : str) :
  strip content = [] -> filter_content cap content = None.
Proof.
  intros H. destruct (filter_content cap content) as [p|] eqn:Hf; auto.
  apply filter_content_accepts in Hf. tauto.
Qed.

Lemma filter_content_sentinel (content tag : str) :
  tag ∈ skip_tags -> contains tag (strip content) = true ->
  filter_content cap content = None.
Proof.
  intros Hin Hc. destruct (filter_content cap content) as [p|] eqn:Hf; auto.
  apply filter_content_accepts in Hf. destruct Hf as (_ & Hex & _).
  assert (existsb (fun tag => contains tag (strip content)) skip_tags = true).
  { apply existsb_exists. exists tag. split; auto.
    now apply list_elem_of_In. }
  congruence.
Qed.

End ContentTheory.

(** ** The claims on the prompt filter *)

(** C3, as the claim states it, fails: the filter accepts contents whose
    open and close tags, counted as the specification words them, differ.
    In the first content [<br />] is self-closed, which leaves one open
    tag for two closing ones; in the second [<a>] is followed by the
    closer of another tag, which leaves two open tags for one closing
    one. *)
Lemma accepted_unbalanced_spec :
  (parse_user_message Json.loads 300 (user_line "<b>x</b><br />y</b>")
   = Return (Some (py "<b>x</b><br />y</b>"))
   /\ length (spec_open_tags (py "<b>x</b><br />y</b>")) = 1%nat
   /\ length (spec_close_tags (py "<b>x</b><br />y</b>")) = 2%nat)
  /\ (parse_user_message Json.loads 300 (user_line "<a></b><c>x")
      = Return (Some (py "<a></b><c>x"))
      /\ length (spec_open_tags (py "<a></b><c>x")) = 2%nat
      /\ length (spec_close_tags (py "<a></b><c>x")) = 1%nat).
Proof. vm_compute. auto 10. Qed.

(** C7: with a cap that is not negative, the prompt of an accepted line
    is its message content trimmed and with every whitespace run,
    newlines included, collapsed to one space; when that is longer than
    the cap, its first [cap] characters followed by the ellipsis [...].
    The content [line1\nline2   line3] gives [line1 line2 line3], and with
    the cap 10 twenty [a] give ten [a] and the ellipsis. *)
Theorem accepted_prompt_normalized :
  (forall json_loads cap line p,
      0 <= cap ->
      parse_user_message json_loads cap line = Return (Some p) ->
      exists d m content,
        json_loads line = Return (PDict d)
        /\ field "message" d = PDict m
        /\ field "content" m = PStr content
        /\ p = truncate_spec cap (normalize_spec content))
  /\ parse_user_message Json.loads 300 (user_line "line1\nline2   line3")
     = Return (Some (py "line1 line2 line3"))
  /\ parse_user_message Json.loads 10 (user_line "aaaaaaaaaaaaaaaaaaaa")
     = Return (Some (py "aaaaaaaaaa" ++ py "...")).
Proof.
  split.
  - intros json_loads cap line p Hcap H.
    apply parse_user_message_accepts in H.
    destruct H as (d & m & c & Hl & _ & _ & Hm & _ & _ & Hc & Hf).
    apply filter_content_accepts in Hf.
    destruct Hf as (_ & _ & _ & ->).
    exists d, m, c. repeat split; auto.
    cbv zeta. rewrite join_split_strip, slice_to_nonneg by auto.
    reflexivity.
  - vm_compute. auto.
Qed.

Lemma accepted_prompt_normalized_witness :
  0 <= 10
  /\ exists d m content,
       Json.loads (user_line "  aaaa   bbbb cccc  ") = Return (PDict d)
       /\ field "message" d = PDict m
       /\ field "content" m = PStr content
       /\ py "aaaa bbbb ..." = truncate_spec 10 (normalize_spec content).
Proof.
  split; [lia|].
  apply (proj1 accepted_prompt_normalized Json.loads 10
           (user_line "  aaaa   bbbb cccc  ") (py "aaaa bbbb ...")).
  - lia.
  - vm_compute. reflexivity.
Defined.

(** C8: the line [42] is not a structured record, and on it the filter
    does not return [None]: the decoded number has no [get], and the
    [AttributeError] leaves the function. *)
Theorem parse_user_message_scalar_line :
  parse_user_message Json.loads 300 (py "42") = Raise AttributeError
  /\ Json.loads (py "42") = Return (PInt 42).
Proof. vm_compute. auto. Qed.

(** ** [SessionCache.get_prompts] *)

Section CacheTheory.

Variable json_loads : str -> outcome pyval.
Variable cap : Z.

Lemma get_prompts_stat_fails (fs : filesystem) (p : Path) (N : Z)
    (w : world) (e : exn) :
  fs_stat fs p = Raise e -> is_OSError e = true ->
  get_prompts json_loads cap fs p N w = (Return [], w).
Proof. intros Hs He. unfold get_prompts. now rewrite Hs, He. Qed.

Lemma get_prompts_hit (fs : filesystem) (p : Path) (N : Z) (w : world)
    (m m' : pyfloat) (ps : list str) :
  fs_stat fs p = Return m ->
  cache w !! stem p = Some (m', ps) -> float_eqb m' m = true ->
  get_prompts json_loads cap fs p N w = (Return ps, w).
Proof. intros Hs Hc He. unfold get_prompts. now rewrite Hs, Hc, He. Qed.

Lemma get_prompts_miss (fs : filesystem) (p : Path) (N : Z) (w : world)
    (m : pyfloat) :
  fs_stat fs p = Return m ->
  (cache w !! stem p = None
   \/ exists m' ps, cache w !! stem p = Some (m', ps)
                    /\ float_eqb m' m = false) ->
  get_prompts json_loads cap fs p N w
  = match extract_prompts_from_session json_loads cap fs p N w with
    | (Return ps, w') => (Return ps, with_entry (stem p) (m, ps) w')
    | (Raise e, w') => (Raise e, w')
    end.
Proof.
  intros Hs Hc. unfold get_prompts. rewrite Hs.
  assert (forall w0,
    bind (extract_prompts_from_session json_loads cap fs p N)
      (fun prompts => bind (cache_store (stem p) (m, prompts))
                        (fun _ => ret prompts)) w0
    = match extract_prompts_from_session json_loads cap fs p N w0 with
      | (Return ps, w') => (Return ps, with_entry (stem p) (m, ps) w')
      | (Raise e, w') => (Raise e, w')
      end) as Hmiss.
  { intros w0. unfold bind.
    destruct (extract_prompts_from_session json_loads cap fs p N w0)
      as [[ps|e] w']; reflexivity. }
  destruct Hc as [->|(m' & ps & -> & ->)]; apply Hmiss.
Qed.

(** C1, amended: a call whose [stat] fails with an [OSError] returns the
    empty list and changes nothing.  The entry of a file is the one
    stored under the stem of its name, so files with the same stem share
    it.  When that entry holds the file's current mtime the stored
    prompts are returned and no file is opened; otherwise the file is
    extracted and the result stored under the stem with the current
    mtime, after which a call for any file with this stem and this
    mtime is answered from the cache. *)
Theorem get_prompts_by_stem (fs : filesystem) (p : Path) (N : Z)
    (w : world) :
  (forall e,
      fs_stat fs p = Raise e -> is_OSError e = true ->
      get_prompts json_loads cap fs p N w = (Return [], w))
  /\ (forall m m' ps,
         fs_stat fs p = Return m ->
         cache w !! stem p = Some (m', ps) -> float_eqb m' m = true ->
         get_prompts json_loads cap fs p N w = (Return ps, w))
  /\ (forall m,
         fs_stat fs p = Return m ->
         (cache w !! stem p = None
          \/ exists m' ps, cache w !! stem p = Some (m', ps)
                           /\ float_eqb m' m = false) ->
         get_prompts json_loads cap fs p N w
         = match extract_prompts_from_session json_loads cap fs p N w with
           | (Return ps, w') => (Return ps, with_entry (stem p) (m, ps) w')
           | (Raise e, w') => (Raise e, w')
           end)
  /\ (forall m ps w1 fs' p',
         fs_stat fs p = Return m -> float_eqb m m = true ->
         (cache w !! stem p = None
          \/ exists m' ps, cache w !! stem p = Some (m', ps)
                           /\ float_eqb m' m = false) ->
         get_prompts json_loads cap fs p N w = (Return ps, w1) ->
         stem p' = stem p -> fs_stat fs' p' = Return m ->
         get_prompts json_loads cap fs' p' N w1 = (Return ps, w1)).
Proof.
  split; [|split; [|split]].
  - intros e. apply get_prompts_stat_fails.
  - intros m m' ps. apply get_prompts_hit.
  - intros m. apply get_prompts_miss.
  - intros m ps w1 fs' p' Hs Hm Hc Hg Hst Hs'.
    rewrite (get_prompts_miss fs p N w m) in Hg by auto.
    destruct (extract_prompts_from_session json_loads cap fs p N w)
      as [[ps'|e] w']; [|discriminate].
    injection Hg as <- <-.
    apply (get_prompts_hit fs' p' N _ m m ps'); auto.
    rewrite Hst. unfold with_entry. simpl. apply lookup_insert_eq.
Qed.

End CacheTheory.

(** C1, as the claim states it, fails.  Two different files with the same
    name in two folders share one cache entry: after a call for the first,
    the call for the second returns the prompts of the first and opens
    nothing.  And a file whose mtime goes from 5 to 6 and back to 5 is
    extracted at each of the three calls, twice for the mtime 5. *)
Lemma cache_entry_shared_and_reextracted :
  (let call1 :=
     get_prompts Json.loads 300 (two_projects 5) session_a 3 empty_world in
   let call2 :=
     get_prompts Json.loads 300 (two_projects 5) session_b 3 call1.2 in
   session_a <> session_b
   /\ call1.1 = Return [py "alpha"]
   /\ call2.1 = Return [py "alpha"]
   /\ opened call2.2 = [session_a]
   /\ size (cache call2.2) = 1%nat
   /\ extract_prompts_from_session Json.loads 300 (two_projects 5)
        session_b 3 call1.2
      = (Return [py "beta"], after_open session_b call1.2))
  /\ (let call1 :=
        get_prompts Json.loads 300 (two_projects 5) session_a 3 empty_world in
      let call2 :=
        get_prompts Json.loads 300 (two_projects 6) session_a 3 call1.2 in
      let call3 :=
        get_prompts Json.loads 300 (two_projects 5) session_a 3 call2.2 in
      opened call3.2 = [session_a; session_a; session_a]).
Proof. vm_compute. split; [split; [discriminate|]|]; auto 10. Qed.

Lemma get_prompts_by_stem_witness :
  get_prompts Json.loads 300 (two_projects 5) session_b 3
    (with_entry (stem session_a) (FFin 5 0, [py "alpha"]) empty_world)
  = (Return [py "alpha"],
     with_entry (stem session_a) (FFin 5 0, [py "alpha"]) empty_world).
Proof.
  apply (proj1 (proj2 (get_prompts_by_stem Json.loads 300 (two_projects 5)
                         session_b 3 _)) (FFin 5 0) (FFin 5 0)).
  - reflexivity.
  - vm_compute. reflexivity.
  - reflexivity.
Defined.

(** ** The order on datetimes *)

Lemma lex_ltb_irrefl (a : list nat) : lex_ltb a a = false.
Proof.
  induction a as [|x a IH]; simpl; auto.
  rewrite Nat.ltb_irrefl, Nat.eqb_refl, IH. reflexivity.
Qed.

Lemma lex_ltb_trans (a b c : list nat) :
  lex_ltb a b = true -> lex_ltb b c = true -> lex_ltb a c = true.
Proof.
  revert b c; induction a as [|x a IH]; intros [|y b] [|z c]; simpl;
    try easy.
  rewrite !orb_true_iff, !andb_true_iff, !Nat.ltb_lt, !Nat.eqb_eq.
  intros [H1|[H1 H1']] [H2|[H2 H2']]; try (left; lia).
  right. split; [lia|]. eapply IH; eauto.
Qed.

Lemma lex_ltb_total (a b : list nat) :
  length a = length b ->
  lex_ltb a b = false -> lex_ltb b a = false -> a = b.
Proof.
  revert b; induction a as [|x a IH]; intros [|y b]; simpl; try easy.
  rewrite !orb_false_iff, !andb_false_iff, !Nat.ltb_ge, !Nat.eqb_neq.
  intros [= Hlen] [H1 H1'] [H2 H2'].
  assert (x = y) by lia; subst y.
  f_equal. apply IH; auto.
  - destruct H1'; [congruence|auto].
  - destruct H2'; [congruence|auto].
Qed.

Lemma dt_fields_inj (a b : datetime) : dt_fields a = dt_fields b -> a = b.
Proof. destruct a, b; unfold dt_fields; simpl. intros [=]; subst; auto. Qed.

Lemma dt_ltb_irrefl (a : datetime) : dt_ltb a a = false.
Proof. apply lex_ltb_irrefl. Qed.

Lemma dt_ltb_trans (a b c : datetime) :
  dt_ltb a b = true -> dt_ltb b c = true -> dt_ltb a c = true.
Proof. apply lex_ltb_trans. Qed.

Lemma dt_ltb_total (a b : datetime) :
  dt_ltb a b = false -> dt_ltb b a = false -> a = b.
Proof.
  intros H1 H2. apply dt_fields_inj, lex_ltb_total; auto.
Qed.

(** [a >= b] and [b >= c] give [a >= c]. *)
Lemma dt_geb_trans (a b c : datetime) :
  dt_ltb a b = false -> dt_ltb b c = false -> dt_ltb a c = false.
Proof.
  intros Hab Hbc. destruct (dt_ltb a c) eqn:Hac; auto.
  destruct (dt_ltb b a) eqn:Hba.
  - rewrite (dt_ltb_trans b a c) in Hbc; auto.
  - assert (a = b) by (apply dt_ltb_total; auto). congruence.
Qed.

(** ** Sorting *)

Lemma insert_newest_first_perm (x : SessionInfo) (l : list SessionInfo) :
  insert_by (fun y x => dt_ltb (last_updated x) (last_updated y)) x l
  ≡ₚ x :: l.
Proof.
  induction l as [|y l IH]; simpl; auto.
  destruct (dt_ltb (last_updated x) (last_updated y)); auto.
  rewrite IH. apply Permutation_swap.
Qed.

Lemma sort_newest_first_perm (l : list SessionInfo) :
  sort_newest_first l ≡ₚ l.
Proof.
  induction l as [|x l IH]; simpl; auto.
  unfold sort_newest_first, stable_sort in *. simpl.
  rewrite insert_newest_first_perm. now rewrite IH.
Qed.

Lemma insert_newest_first_sorted (x : SessionInfo) (l : list SessionInfo) :
  StronglySorted not_older l ->
  StronglySorted not_older
    (insert_by (fun y x => dt_ltb (last_updated x) (last_updated y)) x l).
Proof.
  induction 1 as [|y l Hl IH Hy]; simpl.
  - repeat constructor.
  - destruct (dt_ltb (last_updated x) (last_updated y)) eqn:Hyx.
    + constructor; auto.
      rewrite insert_newest_first_perm. constructor; auto.
      unfold not_older.
      destruct (dt_ltb (last_updated y) (last_updated x)) eqn:Hc; auto.
      pose proof (dt_ltb_trans _ _ _ Hyx Hc) as Hxx.
      now rewrite dt_ltb_irrefl in Hxx.
    + constructor; [constructor; auto|].
      constructor; [exact Hyx|].
      eapply Forall_impl; [exact Hy|].
      intros z Hz. unfold not_older in *. eapply dt_geb_trans; eauto.
Qed.

Lemma sort_newest_first_sorted (l : list SessionInfo) :
  StronglySorted not_older (sort_newest_first l).
Proof.
  induction l as [|x l IH]; [constructor|].
  unfold sort_newest_first, stable_sort in *. simpl.
  now apply insert_newest_first_sorted.
Qed.

(** ** Dictionaries *)

Section DictTheory.

Context {V : Type}.
Implicit Types (d : pydict V) (k : pyval) (v : V).

Lemma same_key_eq k k' : same_key k k' = true <-> dict_key k = dict_key k'.
Proof. apply bool_decide_eq_true. Qed.

Lemma same_key_neq k k' : same_key k k' = false <-> dict_key k <> dict_key k'.
Proof. apply bool_decide_eq_false. Qed.

Lemma pd_get_same_key k k' d :
  dict_key k = dict_key k' -> pd_get k d = pd_get k' d.
Proof.
  intros Hk. induction d as [|[k0 v0] d IH]; simpl; auto.
  unfold same_key. rewrite Hk, IH. reflexivity.
Qed.

Lemma pd_get_set k k' v d :
  pd_get k (pd_set k' v d) = if same_key k' k then Some v else pd_get k d.
Proof.
  induction d as [|[k0 v0] d IH]; simpl; auto.
  destruct (same_key k0 k') eqn:H0; simpl.
  - apply same_key_eq in H0. unfold same_key. rewrite H0.
    destruct (bool_decide _); reflexivity.
  - rewrite IH. destruct (same_key k0 k) eqn:H1; auto.
    apply same_key_eq in H1. apply same_key_neq in H0.
    rewrite (proj2 (same_key_neq k' k)); congruence.
Qed.

Lemma pd_get_Some k v d :
  pd_get k d = Some v -> exists k0, (k0, v) ∈ d /\ dict_key k0 = dict_key k.
Proof.
  induction d as [|[k0 v0] d IH]; simpl; [easy|].
  destruct (same_key k0 k) eqn:H0.
  - intros [= <-]. exists k0. split; [left|now apply same_key_eq].
  - intros H. destruct (IH H) as (k1 & Hin & Hk). exists k1.
    split; [now right|auto].
Qed.

Lemma pd_get_None k d :
  pd_get k d = None -> dict_key k ∉ keys d.
Proof.
  induction d as [|[k0 v0] d IH]; simpl; [intros; apply not_elem_of_nil|].
  destruct (same_key k0 k) eqn:H0; [easy|].
  intros H. apply not_elem_of_cons. split; [|auto].
  apply same_key_neq in H0. simpl. congruence.
Qed.

Lemma pd_set_elem k v k1 v1 d :
  (k1, v1) ∈ pd_set k v d ->
  (k1, v1) ∈ d \/ (v1 = v /\ dict_key k1 = dict_key k).
Proof.
  induction d as [|[k0 v0] d IH]; simpl.
  - intros H. apply list_elem_of_singleton in H. injection H as -> ->. auto.
  - destruct (same_key k0 k) eqn:H0.
    + intros H. apply elem_of_cons in H. destruct H as [[= -> ->]|H].
      * right. split; auto. now apply same_key_eq.
      * left. now right.
    + intros H. apply elem_of_cons in H. destruct H as [[= -> ->]|H].
      * left. left.
      * destruct (IH H) as [?|?]; auto. left. now right.
Qed.

Lemma keys_pd_set k v d :
  keys (pd_set k v d)
  = if bool_decide (dict_key k ∈ keys d) then keys d
    else keys d ++ [dict_key k].
Proof.
  induction d as [|[k0 v0] d IH].
  - case_bool_decide as H; [now apply elem_of_nil in H|reflexivity].
  - cbn [pd_set]. destruct (same_key k0 k) eqn:H0.
    + apply same_key_eq in H0. rewrite bool_decide_eq_true_2; auto.
      cbn. rewrite H0. left.
    + apply same_key_neq in H0.
      change (keys ((k0, v0) :: pd_set k v d))
        with (dict_key k0 :: keys (pd_set k v d)).
      change (keys ((k0, v0) :: d)) with (dict_key k0 :: keys d).
      rewrite IH. repeat case_bool_decide; auto.
      * exfalso. apply H1. now right.
      * exfalso. apply elem_of_cons in H1. destruct H1; auto.
Qed.

Lemma NoDup_keys_pd_set k v d : NoDup (keys d) -> NoDup (keys (pd_set k v d)).
Proof.
  intros H. rewrite keys_pd_set. case_bool_decide; auto.
  apply NoDup_app. repeat split; auto.
  - intros x Hx Hx'. apply list_elem_of_singleton in Hx'. congruence.
  - apply NoDup_singleton.
Qed.

Lemma entries_of_absent k d : dict_key k ∉ keys d -> entries_of k d = [].
Proof.
  induction d as [|[k0 v0] d IH]; [reflexivity|].
  intros H. apply not_elem_of_cons in H. destruct H as [Hne H].
  unfold entries_of in *. cbn.
  rewrite (proj2 (same_key_neq k0 k)) by (cbn in Hne; congruence).
  now apply IH.
Qed.

(** Where the keys are distinct, the entry a lookup finds is the only
    one under the key. *)
Lemma entries_of_unique k v d :
  NoDup (keys d) -> pd_get k d = Some v ->
  exists k0, entries_of k d = [(k0, v)].
Proof.
  induction d as [|[k0 v0] d IH]; [easy|].
  intros Hnd. apply NoDup_cons in Hnd. destruct Hnd as [Hk0 Hnd].
  unfold entries_of in *. cbn.
  destruct (same_key k0 k) eqn:H0.
  - intros [= <-]. exists k0. f_equal.
    apply same_key_eq in H0. apply entries_of_absent.
    cbn in Hk0. now rewrite <- H0.
  - intros H. apply IH; auto.
Qed.

End DictTheory.

(** ** [get_today_sessions] *)

Section HistoryTheory.

Variable json_loads : str -> outcome pyval.
Variable HISTORY_FILE : Path.
Variable fromtimestamp_ms : Z + pyfloat -> outcome datetime.

(** The loop body, by the kind of the line. *)
Lemma scan_line_classify (today : date) (all : pydict SessionInfo)
    (line : str) :
  scan_line json_loads fromtimestamp_ms today all line
  = match classify json_loads fromtimestamp_ms today line with
    | Skipped => Return all
    | Failed e => Raise e
    | Today sid project dt => Return (upsert all (sid, project, dt))
    end.
Proof.
  unfold scan_line, classify.
  destruct (json_loads (strip line)) as [data|e]; [|destruct e; reflexivity].
  destruct data as [| | | | | |d]; try reflexivity.
  cbn [py_get obind forallb].
  change (match assoc_get (py "timestamp") d with
          | Some v => v | None => PNone end) with (field "timestamp" d).
  change (match assoc_get (py "project") d with
          | Some v => v | None => PNone end) with (field "project" d).
  change (match assoc_get (py "sessionId") d with
          | Some v => v | None => PNone end) with (field "sessionId" d).
  rewrite andb_true_r, andb_assoc.
  destruct (truthy (field "timestamp" d) && truthy (field "project" d)
            && truthy (field "sessionId" d)); [|reflexivity].
  cbn [negb].
  destruct (to_datetime fromtimestamp_ms (field "timestamp" d)) as [dt|e].
  - destruct (bool_decide (date_of dt = today)); [|reflexivity].
    cbn [negb]. destruct (dict_key (field "sessionId" d)); [|reflexivity].
    unfold upsert, session_of.
    destruct (pd_get (field "sessionId" d) all) as [s|]; [|reflexivity].
    destruct (dt_ltb (last_updated s) dt); reflexivity.
  - destruct (is_ValueError e || is_TypeError e); reflexivity.
Qed.

Lemma classify_today (today : date) (line : str) sid project dt :
  classify json_loads fromtimestamp_ms today line = Today sid project dt -> date_of dt = today.
Proof.
  unfold classify.
  destruct (json_loads (strip line)) as [data|e]; [|destruct e; discriminate].
  destruct data as [| | | | | |d]; try discriminate.
  destruct (_ && _); [|discriminate].
  destruct (to_datetime _ _) as [dt'|e];
    [|destruct (_ || _); discriminate].
  case_bool_decide as Hd; [|discriminate].
  destruct (dict_key _); [|discriminate].
  intros [= _ _ <-]. exact Hd.
Qed.

(** C10: a history record in which the timestamp, the project or the
    session id is absent or has a falsy value, such as the timestamp 0
    or an empty string, is skipped: the mapping of sessions stays as it
    is, and the scan goes on as if the line were not there. *)
Theorem falsy_field_skipped (today : date) (all : pydict SessionInfo)
    (line : str) (d : list (str * pyval)) :
  json_loads (strip line) = Return (PDict d) ->
  truthy (field "timestamp" d) = false
  \/ truthy (field "project" d) = false
  \/ truthy (field "sessionId" d) = false ->
  scan_line json_loads fromtimestamp_ms today all line = Return all
  /\ (forall rest,
         scan_history json_loads fromtimestamp_ms today (Line line rest) all
         = scan_history json_loads fromtimestamp_ms today rest all)
  /\ truthy (PInt 0) = false /\ truthy (PStr []) = false
  /\ truthy PNone = false.
Proof.
  intros Hl Hf.
  assert (Hs : scan_line json_loads fromtimestamp_ms today all line = Return all).
  { rewrite scan_line_classify. unfold classify. rewrite Hl.
    destruct Hf as [-> | [-> | ->]]; rewrite ?andb_false_r; reflexivity. }
  split; [exact Hs|]. split; [|auto].
  intros rest. cbn [scan_history]. now rewrite Hs.
Qed.

End HistoryTheory.

Lemma falsy_field_skipped_witness :
  scan_line Json.loads utc_fromtimestamp_ms (1970, 1, 1)%nat []
    (jl "{'timestamp': 0, 'project': '/p', 'sessionId': 's1'}")
  = Return [].
Proof.
  eapply (fun H1 H2 =>
            proj1 (falsy_field_skipped Json.loads utc_fromtimestamp_ms
                     (1970, 1, 1)%nat [] _ _ H1 H2)).
  - vm_compute. reflexivity.
  - left. vm_compute. reflexivity.
Defined.

(** ** The mapping of sessions *)

Lemma built_from_nil : built_from [] [].
Proof.
  split.
  - constructor.
  - intros k s H. now apply elem_of_nil in H.
  - intros sid project dt H. now apply elem_of_nil in H.
Qed.

Lemma built_from_upsert rs all r :
  built_from rs all -> built_from (rs ++ [r]) (upsert all r).
Proof.
  intros [Hk He Hl]. destruct r as [[sid project] dt].
  set (new := session_of sid project dt).
  assert (Hset : built_from (rs ++ [(sid, project, dt)]) (pd_set sid new all)
                 \/ exists s, pd_get sid all = Some s
                              /\ dt_ltb (last_updated s) dt = false).
  { destruct (pd_get sid all) as [s|] eqn:Hg.
    - destruct (dt_ltb (last_updated s) dt) eqn:Hlt; [left|right; eauto].
      split.
      + now apply NoDup_keys_pd_set.
      + intros k0 s0 Hin. apply pd_set_elem in Hin.
        destruct Hin as [Hin|[-> Hk0]].
        * destruct (He _ _ Hin). split; auto. apply elem_of_app. auto.
        * split; auto. apply elem_of_app. right. left.
      + intros sid' project' dt' Hin. rewrite pd_get_set.
        apply elem_of_app in Hin. destruct Hin as [Hin|Hin].
        * destruct (Hl _ _ _ Hin) as (s' & Hs' & Hge).
          destruct (same_key sid sid') eqn:Hsame; [|eauto].
          exists new. split; auto. cbn.
          apply same_key_eq in Hsame.
          rewrite (pd_get_same_key _ _ _ Hsame) in Hg.
          assert (s' = s) by congruence; subst s'.
          destruct (dt_ltb dt dt') eqn:Hc; auto.
          rewrite (dt_ltb_trans _ _ _ Hlt Hc) in Hge. discriminate.
        * apply list_elem_of_singleton in Hin. injection Hin as -> -> ->.
          rewrite (proj2 (same_key_eq sid sid)) by auto.
          exists new. split; auto. apply dt_ltb_irrefl.
    - left. split.
      + now apply NoDup_keys_pd_set.
      + intros k0 s0 Hin. apply pd_set_elem in Hin.
        destruct Hin as [Hin|[-> Hk0]].
        * destruct (He _ _ Hin). split; auto. apply elem_of_app. auto.
        * split; auto. apply elem_of_app. right. left.
      + intros sid' project' dt' Hin. rewrite pd_get_set.
        apply elem_of_app in Hin. destruct Hin as [Hin|Hin].
        * destruct (Hl _ _ _ Hin) as (s' & Hs' & Hge).
          destruct (same_key sid sid') eqn:Hsame; [|eauto].
          apply same_key_eq in Hsame.
          rewrite (pd_get_same_key _ _ _ Hsame) in Hg. congruence.
        * apply list_elem_of_singleton in Hin. injection Hin as -> -> ->.
          rewrite (proj2 (same_key_eq sid sid)) by auto.
          exists new. split; auto. apply dt_ltb_irrefl. }
  unfold upsert. fold new.
  destruct Hset as [Hb|(s & Hs & Hge)].
  - destruct (pd_get sid all) as [s|] eqn:Hg; auto.
    destruct (dt_ltb (last_updated s) dt) eqn:Hlt; auto.
    split; auto.
    + intros k0 s0 Hin. destruct (He _ _ Hin). split; auto.
      apply elem_of_app. auto.
    + intros sid' project' dt' Hin.
      apply elem_of_app in Hin. destruct Hin as [Hin|Hin]; eauto.
      apply list_elem_of_singleton in Hin. injection Hin as -> -> ->. eauto.
  - rewrite Hs, Hge. split; auto.
    + intros k0 s0 Hin. destruct (He _ _ Hin). split; auto.
      apply elem_of_app. auto.
    + intros sid' project' dt' Hin.
      apply elem_of_app in Hin. destruct Hin as [Hin|Hin]; eauto.
      apply list_elem_of_singleton in Hin. injection Hin as -> -> ->. eauto.
Qed.

Lemma built_from_foldl rs0 all0 rs :
  built_from rs0 all0 -> built_from (rs0 ++ rs) (foldl upsert all0 rs).
Proof.
  revert rs0 all0; induction rs as [|r rs IH]; intros rs0 all0 H; simpl.
  - now rewrite app_nil_r.
  - replace (rs0 ++ r :: rs) with ((rs0 ++ [r]) ++ rs)
      by now rewrite <- app_assoc.
    apply IH. now apply built_from_upsert.
Qed.

(** In a mapping built from records, the session id of a record has
    exactly one entry, made from a record with that id, and no record
    with that id is newer. *)
Lemma built_from_latest rs all sid :
  built_from rs all ->
  (exists r, r ∈ rs /\ same_key r.1.1 sid = true) ->
  exists k s,
    entries_of sid all = [(k, s)]
    /\ same_key (session_id s) sid = true
    /\ (session_id s, project_path s, last_updated s) ∈ rs
    /\ forall r, r ∈ rs -> same_key r.1.1 sid = true ->
                 dt_ltb (last_updated s) r.2 = false.
Proof.
  intros [Hk He Hl] ([[sid0 project0] dt0] & Hin & Hsame).
  cbn [fst snd] in Hsame. apply same_key_eq in Hsame.
  destruct (Hl _ _ _ Hin) as (s & Hs & _).
  rewrite (pd_get_same_key _ _ _ Hsame) in Hs.
  destruct (entries_of_unique _ _ _ Hk Hs) as [k Hent].
  exists k, s. split; [exact Hent|].
  destruct (pd_get_Some _ _ _ Hs) as (k1 & Hin1 & Hk1).
  destruct (He _ _ Hin1) as [Hks Hrec].
  split; [apply same_key_eq; congruence|].
  split; [exact Hrec|].
  intros [[sid' project'] dt'] Hin' Hsame'. cbn [fst snd] in Hsame' |- *.
  apply same_key_eq in Hsame'.
  destruct (Hl _ _ _ Hin') as (s' & Hs' & Hge).
  rewrite (pd_get_same_key _ _ _ Hsame') in Hs'.
  assert (s' = s) by congruence. subst s'. exact Hge.
Qed.

Lemma built_from_perm rs rs' all :
  rs ≡ₚ rs' -> built_from rs all -> built_from rs' all.
Proof.
  intros Hp [Hk He Hl]. split; auto.
  - intros k s Hin. destruct (He _ _ Hin). split; auto. now rewrite <- Hp.
  - intros sid project dt Hin. apply (Hl sid project dt). now rewrite Hp.
Qed.

Lemma upsert_elem all r k s :
  (k, s) ∈ upsert all r ->
  (k, s) ∈ all \/ s = session_of r.1.1 r.1.2 r.2.
Proof.
  destruct r as [[sid project] dt]. unfold upsert. cbn [fst snd].
  destruct (pd_get sid all) as [s0|];
    [destruct (dt_ltb (last_updated s0) dt); auto|];
    intros H; apply pd_set_elem in H; tauto.
Qed.

Section ScannerTheory.

Variable json_loads : str -> outcome pyval.
Variable HISTORY_FILE : Path.
Variable fromtimestamp_ms : Z + pyfloat -> outcome datetime.

Lemma scan_history_lines (today : date) (ls : list str)
    (all : pydict SessionInfo) :
  Forall (reads_cleanly json_loads fromtimestamp_ms today) ls ->
  scan_history json_loads fromtimestamp_ms today (stream_of_lines ls) all
  = (foldl upsert all (today_records json_loads fromtimestamp_ms today ls),
     None).
Proof.
  intros Hls; revert all.
  induction Hls as [|line ls Hline Hls IH]; intros all; [reflexivity|].
  cbn [stream_of_lines scan_history today_records].
  rewrite scan_line_classify.
  destruct (classify json_loads fromtimestamp_ms today line) as [|e|s p dt]
    eqn:Hc.
  - apply IH.
  - now destruct (Hline e).
  - apply IH.
Qed.

Lemma today_records_perm (today : date) (ls ls' : list str) :
  ls ≡ₚ ls' ->
  today_records json_loads fromtimestamp_ms today ls
  ≡ₚ today_records json_loads fromtimestamp_ms today ls'.
Proof.
  induction 1 as [|x l l' _ IH|x y l|l l' l'' _ IH1 _ IH2];
    cbn [today_records].
  - reflexivity.
  - destruct (classify _ _ _ x); auto.
  - destruct (classify _ _ _ x), (classify _ _ _ y); auto.
    apply Permutation_swap.
  - etransitivity; eauto.
Qed.

End ScannerTheory.

(** ** The groups of [get_today_sessions] *)

Lemma group_by_project_elem (sessions : list SessionInfo)
    (groups0 groups : pydict (list SessionInfo)) :
  group_by_project sessions groups0 = Return groups ->
  forall project l s,
    (project, l) ∈ groups -> s ∈ l ->
    s ∈ sessions \/ exists project0 l0, (project0, l0) ∈ groups0 /\ s ∈ l0.
Proof.
  revert groups0; induction sessions as [|session rest IH];
    intros groups0 Hg project l s Hin Hs; cbn [group_by_project] in Hg.
  - injection Hg as <-. eauto.
  - destruct (dict_key (project_path session)); [|discriminate].
    destruct (IH _ Hg _ _ _ Hin Hs) as [H|(p0 & l0 & Hin0 & Hs0)].
    + left. now right.
    + apply pd_set_elem in Hin0. destruct Hin0 as [Hin0|[-> _]]; [eauto|].
      apply elem_of_app in Hs0. destruct Hs0 as [Hs0|Hs0].
      * destruct (pd_get (project_path session) groups0) as [g|] eqn:Hget;
          [|now apply elem_of_nil in Hs0].
        apply pd_get_Some in Hget. destruct Hget as (k0 & Hk0 & _).
        right. eauto.
      * apply list_elem_of_singleton in Hs0. subst. left. left.
Qed.

Lemma cap_groups_elem (groups : pydict (list SessionInfo)) project l :
  (project, l) ∈ cap_groups groups ->
  exists l0, (project, l0) ∈ groups
             /\ l = take MAX_SESSIONS_PER_PROJECT (sort_newest_first l0).
Proof.
  unfold cap_groups. intros H. apply list_elem_of_fmap in H.
  destruct H as ([p0 l0] & [= -> ->] & Hin). eauto.
Qed.

Lemma StronglySorted_take {A} (R : A -> A -> Prop) (n : nat) (l : list A) :
  StronglySorted R l -> StronglySorted R (take n l).
Proof.
  intros H. rewrite <- (take_drop n l) in H.
  now apply StronglySorted_app_1_l in H.
Qed.

Section GroupsTheory.

Variable json_loads : str -> outcome pyval.
Variable HISTORY_FILE : Path.
Variable fromtimestamp_ms : Z + pyfloat -> outcome datetime.

(** Every record the loop stores is of today. *)
Lemma scan_history_dates (today : date) (f : stream)
    (all : pydict SessionInfo) :
  (forall k s, (k, s) ∈ all -> date_of (last_updated s) = today) ->
  forall k s,
    (k, s) ∈ (scan_history json_loads fromtimestamp_ms today f all).1 ->
    date_of (last_updated s) = today.
Proof.
  revert all; induction f as [|line rest IH|e]; intros all Hall; auto.
  cbn [scan_history]. rewrite scan_line_classify.
  destruct (classify json_loads fromtimestamp_ms today line)
    as [|e|sid project dt] eqn:Hc.
  - now apply IH.
  - exact Hall.
  - apply IH. intros k s Hin. apply upsert_elem in Hin.
    destruct Hin as [Hin| ->]; eauto.
    cbn. eapply classify_today; eauto.
Qed.

Lemma read_history_dates (today : date) (fs : filesystem) (w w' : world)
    (all : pydict SessionInfo) :
  read_history json_loads HISTORY_FILE fromtimestamp_ms today fs w
  = (Return all, w') ->
  forall k s, (k, s) ∈ all -> date_of (last_updated s) = today.
Proof.
  unfold read_history, bind, note_open.
  destruct (fs_open fs HISTORY_FILE) as [f|e].
  - pose proof (scan_history_dates today f []) as Hd.
    destruct (scan_history json_loads fromtimestamp_ms today f [])
      as [all' [e|]]; cbn [fst] in Hd.
    + destruct (is_OSError e); cbv [emit ret raise bind];
        intros [= <- _]; apply Hd; intros ? ? H; now apply elem_of_nil in H.
    + cbv [ret]. intros [= <- _]. apply Hd.
      intros ? ? H; now apply elem_of_nil in H.
  - destruct (is_OSError e); cbv [emit ret raise bind];
      intros [= <- _] k s H; now apply elem_of_nil in H.
Qed.

(** C6: in the mapping [get_today_sessions] returns, the list of every
    project holds only records whose timestamp is on the date read at
    the start of the scan, has at most three records, and is in
    descending order of timestamp. *)
Theorem groups_today_capped_sorted (today : date) (fs : filesystem)
    (w w' : world) (groups : pydict (list SessionInfo)) :
  get_today_sessions json_loads HISTORY_FILE fromtimestamp_ms today fs w
  = (Return groups, w') ->
  forall project l,
    (project, l) ∈ groups ->
    Forall (fun s => date_of (last_updated s) = today) l
    /\ (length l <= 3)%nat
    /\ StronglySorted not_older l.
Proof.
  unfold get_today_sessions.
  destruct (negb (fs_exists fs HISTORY_FILE)).
  { cbv [emit ret bind]. intros [= <- _] project l H.
    now apply elem_of_nil in H. }
  unfold bind at 1.
  destruct (read_history json_loads HISTORY_FILE fromtimestamp_ms today fs w)
    as [[all|e] w1] eqn:Hr; [|discriminate].
  pose proof (read_history_dates _ _ _ _ _ Hr) as Hdates.
  destruct (group_by_project (pd_values all) []) as [groups0|e] eqn:Hg;
    [|discriminate].
  cbv [ret]. intros [= <- _] project l Hin.
  apply cap_groups_elem in Hin. destruct Hin as (l0 & Hin0 & ->).
  split; [|split].
  - apply Forall_forall. intros s Hs.
    apply elem_of_take in Hs. destruct Hs as (i & Hs & _).
    apply list_elem_of_lookup_2 in Hs.
    rewrite sort_newest_first_perm in Hs.
    destruct (group_by_project_elem _ _ _ Hg _ _ _ Hin0 Hs)
      as [Hv|(p0 & l1 & Hnil & _)]; [|now apply elem_of_nil in Hnil].
    unfold pd_values in Hv. apply list_elem_of_fmap in Hv.
    destruct Hv as ([k s0] & -> & Hks). eapply Hdates; eauto.
  - rewrite length_take. unfold MAX_SESSIONS_PER_PROJECT. lia.
  - apply StronglySorted_take, sort_newest_first_sorted.
Qed.

End GroupsTheory.

Lemma groups_today_capped_sorted_witness :
  let groups :=
    [(PStr (py "/p"),
      [session_of (PStr (py "s1")) (PStr (py "/p"))
         {| year := 1970; month := 1; day := 1; hour := 0; minute := 0;
            second := 5; microsecond := 0 |};
       session_of (PStr (py "s2")) (PStr (py "/p"))
         {| year := 1970; month := 1; day := 1; hour := 0; minute := 0;
            second := 3; microsecond := 0 |}])] in
  get_today_sessions Json.loads history_path utc_fromtimestamp_ms
    (1970, 1, 1)%nat history_fs empty_world
  = (Return groups, after_open history_path empty_world)
  /\ forall project l,
       (project, l) ∈ groups ->
       Forall (fun s => date_of (last_updated s) = (1970, 1, 1)%nat) l
       /\ (length l <= 3)%nat
       /\ StronglySorted not_older l.
Proof.
  intros groups.
  assert (H : get_today_sessions Json.loads history_path utc_fromtimestamp_ms
                (1970, 1, 1)%nat history_fs empty_world
              = (Return groups, after_open history_path empty_world))
    by (vm_compute; reflexivity).
  split; [exact H|].
  exact (groups_today_capped_sorted Json.loads history_path
           utc_fromtimestamp_ms (1970, 1, 1)%nat history_fs empty_world
           (after_open history_path empty_world) groups H).
Defined.

(** ** [format_markdown] *)

(** C2, as the claim states it, fails: for the same (empty) mapping the
    documents rendered at noon and one second later differ. *)
Lemma render_differs_with_clock :
  format_markdown ascii_lower noon []
  <> format_markdown ascii_lower noon_and_a_second [].
Proof. vm_compute. discriminate. Qed.

Lemma join_header (a c : str) (body : list str) :
  join newline ([a; []; c; []] ++ body)
  = a ++ newline ++ newline ++ c ++ newline
    ++ match body with
       | [] => []
       | _ => newline ++ join newline body
       end.
Proof.
  destruct body as [|b body].
  - cbn [app join]. now rewrite !app_nil_r.
  - cbn [app join]. reflexivity.
Qed.

(** * Further properties *)

(** ** The prompt filter *)

Lemma collapse_runs_single_line (s : str) (in_run : bool) :
  single_line (collapse_runs s in_run).
Proof.
  unfold single_line. revert in_run.
  induction s as [|c s IH]; intros in_run; simpl; [constructor|].
  destruct (is_space c) eqn:Hc.
  - destruct in_run; [apply IH|]. constructor; [auto|apply IH].
  - constructor; [congruence|apply IH].
Qed.

Lemma collapse_runs_nonempty (s : str) :
  s <> [] -> no_leading_space s -> collapse_runs s false <> [].
Proof. destruct s as [|c s]; [easy|]. simpl. intros _ ->. easy. Qed.

Lemma slice_to_take (cap : Z) (s : str) : exists n, slice_to cap s = take n s.
Proof. unfold slice_to. destruct (cap <? 0); eauto. Qed.

Lemma ellipsis_chars : py "..." = [46%N; 46%N; 46%N].
Proof. reflexivity. Qed.

Section PromptShape.

Variable json_loads : str -> outcome pyval.
Variable cap : Z.

(** X1: an accepted prompt is never the empty string, whatever the cap;
  the extractor's test [if prompt] therefore drops no accepted
  prompt. *)
Theorem accepted_prompt_nonempty (line p : str) :
parse_user_message json_loads cap line = Return (Some p) -> p <> [].
Proof.
intros H. apply parse_user_message_accepts in H.
destruct H as (d & m & c & _ & _ & _ & _ & _ & _ & _ & Hf).
apply filter_content_accepts in Hf. destruct Hf as (Hne & _ & _ & ->).
cbv zeta. rewrite join_split_strip.
destruct (len (normalize_spec c) >? cap).
- rewrite ellipsis_chars. intros H. apply app_eq_nil in H. now destruct H.
- apply collapse_runs_nonempty; [exact Hne|apply strip_trimmed].
Qed.

(** X2: with a cap that is not negative, an accepted prompt has at most
  [cap + 3] characters. *)
Theorem accepted_prompt_length (line p : str) :
0 <= cap ->
parse_user_message json_loads cap line = Return (Some p) ->
len p <= cap + 3.
Proof.
intros Hcap H. apply parse_user_message_accepts in H.
destruct H as (d & m & c & _ & _ & _ & _ & _ & _ & _ & Hf).
apply filter_content_accepts in Hf. destruct Hf as (_ & _ & _ & ->).
cbv zeta. destruct (len _ >? cap) eqn:Hlen.
- rewrite slice_to_nonneg, ellipsis_chars by auto.
  unfold len. rewrite length_app, length_take. simpl. lia.
- unfold len in *. lia.
Qed.

(** X3: an accepted prompt is a single line: it holds no newline, tab or
  other whitespace character except the plain space. *)
Theorem accepted_prompt_single_line (line p : str) :
parse_user_message json_loads cap line = Return (Some p) -> single_line p.
Proof.
intros H. apply parse_user_message_accepts in H.
destruct H as (d & m & c & _ & _ & _ & _ & _ & _ & _ & Hf).
apply filter_content_accepts in Hf. destruct Hf as (_ & _ & _ & ->).
cbv zeta. rewrite join_split_strip.
pose proof (collapse_runs_single_line (strip c) false) as Hs.
fold (normalize_spec c) in Hs.
destruct (len (normalize_spec c) >? cap); [|exact Hs].
destruct (slice_to_take cap (normalize_spec c)) as [n ->].
unfold single_line. apply Forall_app. split.
- now apply Forall_take.
- rewrite ellipsis_chars. repeat constructor; discriminate.
Qed.

(** X5: the filter raises in two cases only: the decoder raised
  something other than [JSONDecodeError], which is passed on, or the
  decoded value is not an object, which gives [AttributeError]. *)
Theorem parse_user_message_raises (line : str) (e : exn) :
parse_user_message json_loads cap line = Raise e ->
(json_loads line = Raise e /\ e <> JSONDecodeError)
\/ (exists data, json_loads line = Return data /\ is_dict data = false
                 /\ e = AttributeError).
Proof.
unfold parse_user_message.
destruct (json_loads line) as [data|e0] eqn:Hl.
- intros H. right. exists data. split; auto.
  destruct data as [| | | | | |d]; try (injection H as <-; auto).
  destruct (filter_record_dict_returns cap d) as [r Hr]. congruence.
- destruct e0; try discriminate; intros [= <-]; left; split; congruence.
Qed.

End PromptShape.

Lemma accepted_prompt_length_witness :
  0 <= 10
  /\ parse_user_message Json.loads 10 (user_line "aaaaaaaaaaaaaaaaaaaa")
     = Return (Some (py "aaaaaaaaaa..."))
  /\ len (py "aaaaaaaaaa...") <= 10 + 3.
Proof.
  assert (H : parse_user_message Json.loads 10 (user_line "aaaaaaaaaaaaaaaaaaaa")
              = Return (Some (py "aaaaaaaaaa...")))
    by (vm_compute; reflexivity).
  split; [lia|]. split; [exact H|].
  apply (accepted_prompt_length Json.loads 10 _ _ ltac:(lia) H).
Defined.

Lemma accepted_prompt_nonempty_witness :
  parse_user_message Json.loads 0 (user_line "x") = Return (Some (py "..."))
  /\ py "..." <> [].
Proof.
  assert (H : parse_user_message Json.loads 0 (user_line "x")
              = Return (Some (py "...")))
    by (vm_compute; reflexivity).
  split; [exact H|]. exact (accepted_prompt_nonempty Json.loads 0 _ _ H).
Defined.

Lemma accepted_prompt_single_line_witness :
  parse_user_message Json.loads 300 (user_line "a\n\tb")
  = Return (Some (py "a b"))
  /\ single_line (py "a b").
Proof.
  assert (H : parse_user_message Json.loads 300 (user_line "a\n\tb")
              = Return (Some (py "a b")))
    by (vm_compute; reflexivity).
  split; [exact H|]. exact (accepted_prompt_single_line Json.loads 300 _ _ H).
Defined.

Lemma parse_user_message_raises_witness :
  parse_user_message Json.loads 300 (py "[1, 2]") = Raise AttributeError
  /\ ((Json.loads (py "[1, 2]") = Raise AttributeError
       /\ AttributeError <> JSONDecodeError)
      \/ exists data, Json.loads (py "[1, 2]") = Return data
                      /\ is_dict data = false
                      /\ AttributeError = AttributeError).
Proof.
  assert (H : parse_user_message Json.loads 300 (py "[1, 2]")
              = Raise AttributeError)
    by (vm_compute; reflexivity).
  split; [exact H|]. exact (parse_user_message_raises Json.loads 300 _ _ H).
Defined.

(** ** Content without tags *)

Lemma open_tag_needs_lt (c : char) (s : str) :
  c <> 60%N -> match_here open_tag_re (c :: s) = None.
Proof.
  intros Hc. unfold match_here, open_tag_re, seq_of. cbn [foldr exec].
  unfold char_eqb. now rewrite (proj2 (N.eqb_neq 60 c)) by congruence.
Qed.

Lemma close_tag_needs_lt (c : char) (s : str) :
  c <> 60%N -> match_here close_tag_re (c :: s) = None.
Proof.
  intros Hc. unfold match_here, close_tag_re, seq_of. cbn [foldr exec].
  unfold char_eqb. now rewrite (proj2 (N.eqb_neq 60 c)) by congruence.
Qed.

Lemma findall_no_lt (r : regex) (s : str) :
  (forall c t, c <> 60%N -> match_here r (c :: t) = None) ->
  60%N ∉ s -> forall skip, findall_from r s skip = [].
Proof.
  intros Hr. induction s as [|c s IH]; intros Hs skip; [reflexivity|].
  apply not_elem_of_cons in Hs. destruct Hs as [Hc Hs].
  cbn [findall_from]. destruct skip; [|now apply IH].
  rewrite Hr by congruence. now apply IH.
Qed.

Lemma contains_needs_head (tag s : str) (c : char) :
  head tag = Some c -> c ∉ s -> contains tag s = false.
Proof.
  destruct tag as [|c0 tag]; [discriminate|]. intros [= ->].
  induction s as [|x s IH]; intros Hs; [reflexivity|].
  apply not_elem_of_cons in Hs. destruct Hs as [Hx Hs].
  cbn [contains is_prefix]. unfold char_eqb at 1.
  rewrite (proj2 (N.eqb_neq c x)) by congruence.
  cbn [andb orb]. now apply IH.
Qed.

Lemma skip_tags_start_with_lt : Forall (fun tag => head tag = Some 60%N) skip_tags.
Proof. repeat constructor. Qed.

Lemma no_sentinel_without_lt (s : str) :
  60%N ∉ s -> existsb (fun tag => contains tag s) skip_tags = false.
Proof.
  intros Hs. pose proof skip_tags_start_with_lt as Ht.
  induction Ht as [|tag tags Htag _ IH]; [reflexivity|].
  cbn [existsb]. rewrite (contains_needs_head tag s 60%N) by auto.
  exact IH.
Qed.

Lemma lstrip_elem (c : char) (s : str) : c ∈ lstrip s -> c ∈ s.
Proof.
  induction s as [|x s IH]; simpl; auto.
  destruct (is_space x); [|auto]. intros H. right. auto.
Qed.

Lemma rstrip_elem (c : char) (s : str) : c ∈ rstrip s -> c ∈ s.
Proof.
  induction s as [|x s IH]; simpl; auto.
  destruct (rstrip s) as [|y r].
  - destruct (is_space x); intros H; [now apply elem_of_nil in H|].
    apply list_elem_of_singleton in H. subst. left.
  - intros H. apply elem_of_cons in H. destruct H as [->|H]; [left|].
    right. auto.
Qed.

Lemma strip_elem (c : char) (s : str) : c ∈ strip s -> c ∈ s.
Proof. intros H. now apply lstrip_elem, rstrip_elem. Qed.

Section PlainText.

Variable json_loads : str -> outcome pyval.
Variable cap : Z.

(** X4: a user record that is not flagged as metadata and whose message
  has the role [user] and a content that is not blank and holds no [<]
  is always accepted: neither the sentinel check nor the tag check can
  reject it, and the prompt is the normalized content, cut at the
  cap. *)
Theorem plain_text_accepted (line content : str) (d m : list (str * pyval)) :
json_loads line = Return (PDict d) ->
field "type" d = PStr (py "user") ->
truthy (default (PBool false) (assoc_get (py "isMeta") d)) = false ->
field "message" d = PDict m ->
field "role" m = PStr (py "user") ->
field "content" m = PStr content ->
strip content <> [] ->
60%N ∉ content ->
parse_user_message json_loads cap line
= Return (Some (let n := normalize_spec content in
                if len n >? cap then slice_to cap n ++ py "..." else n)).
Proof.
intros Hl Hty Him Hm Hro Hc Hne Hlt.
assert (Hlt' : 60%N ∉ strip content)
  by (intros H; apply Hlt; now apply strip_elem).
assert (Hf : filter_content cap content
             = Some (let n := normalize_spec content in
                     if len n >? cap then slice_to cap n ++ py "..."
                     else n)).
{ unfold filter_content.
  rewrite bool_decide_eq_false_2 by exact Hne.
  rewrite no_sentinel_without_lt by exact Hlt'.
  unfold findall.
  rewrite (findall_no_lt open_tag_re) by (auto using open_tag_needs_lt).
  rewrite (findall_no_lt close_tag_re) by (auto using close_tag_needs_lt).
  cbn [length Nat.eqb negb]. now rewrite join_split_strip. }
assert (Hm0 : m <> []).
{ intros ->. unfold field in Hro. cbn in Hro. discriminate. }
unfold parse_user_message. rewrite Hl.
unfold filter_record, py_get, obind.
change (match assoc_get (py "type") d with
        | Some v => v | None => PNone end) with (field "type" d).
rewrite Hty.
assert (Hu : ne_str (PStr (py "user")) (py "user") = false).
{ cbn [ne_str]. now rewrite (proj2 (str_eqb_eq _ _) eq_refl). }
rewrite Hu.
change (match assoc_get (py "isMeta") d with
        | Some v => v | None => PBool false end)
  with (default (PBool false) (assoc_get (py "isMeta") d)).
rewrite Him.
change (match assoc_get (py "message") d with
        | Some v => v | None => PNone end) with (field "message" d).
rewrite Hm. destruct m as [|kv m]; [congruence|].
cbn [truthy is_dict negb orb].
change (match assoc_get (py "role") (kv :: m) with
        | Some v => v | None => PNone end) with (field "role" (kv :: m)).
rewrite Hro, Hu.
change (match assoc_get (py "content") (kv :: m) with
        | Some v => v | None => PNone end) with (field "content" (kv :: m)).
rewrite Hc, Hf. reflexivity.
Qed.

End PlainText.

Lemma plain_text_accepted_witness :
  parse_user_message Json.loads 300 (user_line "  fix the   parser ")
  = Return (Some (py "fix the parser")).
Proof.
  eapply eq_trans.
  - eapply (plain_text_accepted Json.loads 300 _ (py "  fix the   parser ")).
    + vm_compute. reflexivity.
    + vm_compute. reflexivity.
    + vm_compute. reflexivity.
    + vm_compute. reflexivity.
    + vm_compute. reflexivity.
    + vm_compute. reflexivity.
    + vm_compute. discriminate.
    + vm_compute. intros H. repeat (apply elem_of_cons in H; destruct H as [H|H]; [discriminate|]). now apply elem_of_nil in H.
  - vm_compute. reflexivity.
Defined.

(** ** The extractor *)

Section ExtractorMore.

Variable json_loads : str -> outcome pyval.
Variable cap : Z.

Lemma accepted_length_app (ps : list str) (ls : list str) :
len (ps ++ accepted json_loads cap ls)
= len ps + len (accepted json_loads cap ls).
Proof. unfold len. rewrite length_app. lia. Qed.

(** While fewer than [N] prompts are collected, the loop goes through
  the lines the filter returns on. *)
Lemma read_prompts_prefix (pre : list str) (f : stream) (N : Z)
  (ps : list str) :
Forall (filter_returns json_loads cap) pre ->
len (ps ++ accepted json_loads cap pre) < N ->
read_prompts json_loads cap (prepend pre f) N ps
= read_prompts json_loads cap f N (ps ++ accepted json_loads cap pre).
Proof.
intros Hpre; revert ps.
induction Hpre as [|line pre [r Hr] Hpre IH]; intros ps Hlen.
- simpl. now rewrite app_nil_r.
- simpl in *. rewrite Hr in *.
  assert (len ps < N).
  { destruct r as [[|c p]|]; unfold len in *;
      rewrite length_app in Hlen; simpl in Hlen; lia. }
  replace (len ps >=? N) with false by lia.
  destruct r as [[|c p]|]; try (apply IH; exact Hlen).
  rewrite IH by (rewrite <- app_assoc; exact Hlen).
  now rewrite <- app_assoc.
Qed.

Lemma read_prompts_elem (f : stream) (N : Z) (ps : list str) (q : str) :
q ∈ (read_prompts json_loads cap f N ps).1 ->
q ∈ ps
\/ (q <> []
    /\ exists line, line ∈ lines_of f
                    /\ parse_user_message json_loads cap (strip line)
                       = Return (Some q)).
Proof.
revert ps; induction f as [|line rest IH|e]; intros ps; simpl; auto.
destruct (len ps >=? N); [auto|].
destruct (parse_user_message json_loads cap (strip line))
  as [[[|c p]|]|e] eqn:Hp; simpl; auto.
- intros H. destruct (IH _ H) as [?|(? & l & ? & ?)]; auto.
  right. split; auto. exists l. split; auto. now right.
- intros H. destruct (IH _ H) as [Hin|(? & l & ? & ?)].
  + apply elem_of_app in Hin. destruct Hin as [?|Hin]; auto.
    apply list_elem_of_singleton in Hin. subst q.
    right. split; [easy|]. exists line. split; [left|auto].
  + right. split; auto. exists l. split; auto. now right.
- intros H. destruct (IH _ H) as [?|(? & l & ? & ?)]; auto.
  right. split; auto. exists l. split; auto. now right.
Qed.

(** What a call leaves behind, whatever its outcome. *)
Lemma extract_frame (fs : filesystem) (p : Path) (N : Z) (w w' : world)
  (r : outcome (list str)) :
extract_prompts_from_session json_loads cap fs p N w = (r, w') ->
cache w' = cache w
/\ opened w' = opened w ++ [p]
/\ (log w' = log w
    \/ exists e, is_OSError e = true
                 /\ log w' = log w ++ [LogWarning (FailedToRead p e)]).
Proof.
unfold extract_prompts_from_session, bind, note_open.
destruct (fs_open fs p) as [f|e].
- destruct (read_prompts json_loads cap f N []) as [ps [e|]].
  + destruct (is_OSError e) eqn:He; cbv [emit ret raise bind];
      intros [= <- <-]; simpl; eauto 6.
  + cbv [ret]. intros [= <- <-]; simpl; auto.
- destruct (is_OSError e) eqn:He; cbv [emit ret raise bind];
    intros [= <- <-]; simpl; eauto 6.
Qed.

Lemma extract_bound (fs : filesystem) (p : Path) (N : Z) (w w' : world)
  (ps : list str) :
0 <= N ->
extract_prompts_from_session json_loads cap fs p N w = (Return ps, w') ->
len ps <= N.
Proof.
intros HN. unfold extract_prompts_from_session, bind, note_open.
destruct (fs_open fs p) as [f|e].
- pose proof (read_prompts_bound json_loads cap f N [] HN) as Hb.
  destruct (read_prompts json_loads cap f N []) as [ps' [e|]];
    simpl in Hb.
  + destruct (is_OSError e); cbv [emit ret raise bind];
      intros [= <- _]; auto.
  + cbv [ret]. intros [= <- _]; auto.
- destruct (is_OSError e); cbv [emit ret raise bind];
    intros [= <- _]; auto.
Qed.

(** X6: every prompt the extractor returns is not empty and is what the
  filter returns on one of the lines of the file. *)
Theorem extracted_prompts_come_from_lines (fs : filesystem) (p : Path)
  (N : Z) (w w' : world) (ps : list str) (q : str) :
extract_prompts_from_session json_loads cap fs p N w = (Return ps, w') ->
q ∈ ps ->
q <> []
/\ exists f line,
     fs_open fs p = Return f
     /\ line ∈ lines_of f
     /\ parse_user_message json_loads cap (strip line) = Return (Some q).
Proof.
unfold extract_prompts_from_session, bind, note_open.
destruct (fs_open fs p) as [f|e].
- pose proof (read_prompts_elem f N [] q) as He.
  destruct (read_prompts json_loads cap f N []) as [ps' [e|]];
    cbn [fst] in He.
  + destruct (is_OSError e); cbv [emit ret raise bind];
      intros [= <- _] Hq; destruct (He Hq) as [Hn|(? & l & ? & ?)];
      try (now apply elem_of_nil in Hn); eauto 6.
  + cbv [ret]. intros [= <- _] Hq.
    destruct (He Hq) as [Hn|(? & l & ? & ?)];
      try (now apply elem_of_nil in Hn); eauto 6.
- destruct (is_OSError e); cbv [emit ret raise bind];
    intros [= <- _] Hq; now apply elem_of_nil in Hq.
Qed.

(** X7: when reading fails with an [OSError] after some lines, before
  [N] prompts are collected, the extractor returns the prompts accepted
  so far and logs one warning. *)
Theorem extract_partial_on_read_error (fs : filesystem) (p : Path) (N : Z)
  (w : world) (pre : list str) (e : exn) :
fs_open fs p = Return (prepend pre (ReadError e)) ->
is_OSError e = true ->
Forall (filter_returns json_loads cap) pre ->
len (accepted json_loads cap pre) < N ->
extract_prompts_from_session json_loads cap fs p N w
= (Return (accepted json_loads cap pre), after_warning p e w).
Proof.
intros Ho He Hpre Hlen.
unfold extract_prompts_from_session, bind, note_open.
rewrite Ho, read_prompts_prefix by auto. simpl. rewrite He. reflexivity.
Qed.

(** X8: an exception that is not an [OSError] is not caught: when the
  read raises it, or the filter raises it on a line, before [N] prompts
  are collected, it leaves the extractor, and no warning is logged. *)
Theorem extract_passes_other_exceptions (fs : filesystem) (p : Path) (N : Z)
  (w : world) (pre : list str) (e : exn) :
fs_open fs p = Return (prepend pre (ReadError e))
\/ (exists line rest,
       fs_open fs p = Return (prepend pre (Line line rest))
       /\ parse_user_message json_loads cap (strip line) = Raise e) ->
is_OSError e = false ->
Forall (filter_returns json_loads cap) pre ->
len (accepted json_loads cap pre) < N ->
extract_prompts_from_session json_loads cap fs p N w
= (Raise e, after_open p w).
Proof.
intros Ho He Hpre Hlen.
unfold extract_prompts_from_session, bind, note_open.
destruct Ho as [Ho|(line & rest & Ho & Hp)];
  rewrite Ho, read_prompts_prefix by auto; simpl.
- rewrite He. reflexivity.
- replace (len (accepted json_loads cap pre) >=? N) with false by lia.
  rewrite Hp, He. reflexivity.
Qed.

(** X9: with a limit that is zero or negative nothing is scanned: if the
  file opens and its first read does not fail, the result is empty,
  whatever the file holds. *)
Theorem extract_nothing_for_zero_limit (fs : filesystem) (p : Path) (N : Z)
  (w : world) (f : stream) :
N <= 0 ->
fs_open fs p = Return f ->
(forall e, f <> ReadError e) ->
extract_prompts_from_session json_loads cap fs p N w
= (Return [], after_open p w).
Proof.
intros HN Ho Hf. unfold extract_prompts_from_session, bind, note_open.
rewrite Ho. destruct f as [|line rest|e]; simpl.
- reflexivity.
- change (len (@nil str)) with 0.
  replace (0 >=? N) with true by lia.
  reflexivity.
- now destruct (Hf e).
Qed.

(** X10: whatever its outcome, a call of the extractor leaves the cache
  as it was, passes exactly one path to [open], and logs nothing or one
  warning about an [OSError]. *)
Theorem extract_effects (fs : filesystem) (p : Path) (N : Z) (w w' : world)
  (r : outcome (list str)) :
extract_prompts_from_session json_loads cap fs p N w = (r, w') ->
cache w' = cache w
/\ opened w' = opened w ++ [p]
/\ (log w' = log w
    \/ exists e, is_OSError e = true
                 /\ log w' = log w ++ [LogWarning (FailedToRead p e)]).
Proof. apply extract_frame. Qed.

End ExtractorMore.

Lemma extracted_prompts_come_from_lines_witness :
  extract_prompts_from_session Json.loads 300 five_prompts_fs session_a 3
    empty_world
  = (Return [py "one"; py "two"; py "three"], after_open session_a empty_world)
  /\ py "two" ∈ [py "one"; py "two"; py "three"]
  /\ py "two" <> []
  /\ exists f line,
       fs_open five_prompts_fs session_a = Return f
       /\ line ∈ lines_of f
       /\ parse_user_message Json.loads 300 (strip line)
          = Return (Some (py "two")).
Proof.
  assert (H : extract_prompts_from_session Json.loads 300 five_prompts_fs
                session_a 3 empty_world
              = (Return [py "one"; py "two"; py "three"],
                 after_open session_a empty_world))
    by (vm_compute; reflexivity).
  assert (Hin : py "two" ∈ [py "one"; py "two"; py "three"])
    by (right; left).
  split; [exact H|]. split; [exact Hin|].
  exact (extracted_prompts_come_from_lines Json.loads 300 _ _ _ _ _ _ _ H Hin).
Defined.

Lemma extract_partial_on_read_error_witness :
  extract_prompts_from_session Json.loads 300 (broken_fs OSError) session_a 3
    empty_world
  = (Return (accepted Json.loads 300 [user_line "one"]),
     after_warning session_a OSError empty_world)
  /\ accepted Json.loads 300 [user_line "one"] = [py "one"].
Proof.
  split.
  - apply extract_partial_on_read_error.
    + reflexivity.
    + reflexivity.
    + repeat constructor. eexists. vm_compute. reflexivity.
    + vm_compute. reflexivity.
  - vm_compute. reflexivity.
Defined.

Lemma extract_passes_other_exceptions_witness :
  extract_prompts_from_session Json.loads 300 (broken_fs UnicodeDecodeError)
    session_a 3 empty_world
  = (Raise UnicodeDecodeError, after_open session_a empty_world).
Proof.
  apply (extract_passes_other_exceptions Json.loads 300 _ _ _ _
           [user_line "one"]).
  - left. reflexivity.
  - reflexivity.
  - repeat constructor. eexists. vm_compute. reflexivity.
  - vm_compute. reflexivity.
Defined.

Lemma extract_nothing_for_zero_limit_witness :
  extract_prompts_from_session Json.loads 300 five_prompts_fs session_a 0
    empty_world
  = (Return [], after_open session_a empty_world).
Proof.
  apply (extract_nothing_for_zero_limit Json.loads 300 _ _ _ _
           (stream_of_lines five_prompts)).
  - lia.
  - reflexivity.
  - intros e. discriminate.
Defined.

Lemma extract_effects_witness :
  let w' := after_warning session_a OSError empty_world in
  extract_prompts_from_session Json.loads 300 (files_fs []) session_a 3
    empty_world
  = (Return [], w')
  /\ cache w' = cache empty_world
  /\ opened w' = opened empty_world ++ [session_a]
  /\ (log w' = log empty_world
      \/ exists e, is_OSError e = true
                   /\ log w' = log empty_world
                               ++ [LogWarning (FailedToRead session_a e)]).
Proof.
  intros w'.
  assert (H : extract_prompts_from_session Json.loads 300 (files_fs [])
                session_a 3 empty_world = (Return [], w'))
    by reflexivity.
  split; [exact H|].
  exact (extract_effects Json.loads 300 _ _ _ _ _ _ H).
Defined.

(** ** The cache *)

Section CacheMore.

Variable json_loads : str -> outcome pyval.
Variable cap : Z.

(** The three ways a call can go. *)
Lemma get_prompts_cases (fs : filesystem) (p : Path) (N : Z) (w w' : world)
  (r : outcome (list str)) :
get_prompts json_loads cap fs p N w = (r, w') ->
(w' = w /\ ((exists e, fs_stat fs p = Raise e
                        /\ r = if is_OSError e then Return [] else Raise e)
            \/ exists m m' ps, fs_stat fs p = Return m
                               /\ cache w !! stem p = Some (m', ps)
                               /\ float_eqb m' m = true /\ r = Return ps))
\/ (exists m w1,
       fs_stat fs p = Return m
       /\ ((exists ps,
               extract_prompts_from_session json_loads cap fs p N w
               = (Return ps, w1)
               /\ r = Return ps /\ w' = with_entry (stem p) (m, ps) w1)
           \/ (exists e,
                  extract_prompts_from_session json_loads cap fs p N w
                  = (Raise e, w1)
                  /\ r = Raise e /\ w' = w1))).
Proof.
unfold get_prompts.
destruct (fs_stat fs p) as [m|e] eqn:Hs.
- assert (Hmiss : forall w0 r0 w0',
    bind (extract_prompts_from_session json_loads cap fs p N)
      (fun prompts => bind (cache_store (stem p) (m, prompts))
                        (fun _ => ret prompts)) w0 = (r0, w0') ->
    (exists ps,
        extract_prompts_from_session json_loads cap fs p N w0
        = (Return ps, snd (extract_prompts_from_session json_loads cap fs p
                             N w0))
        /\ r0 = Return ps
        /\ w0' = with_entry (stem p) (m, ps)
                   (snd (extract_prompts_from_session json_loads cap fs p
                           N w0)))
    \/ (exists e,
           extract_prompts_from_session json_loads cap fs p N w0
           = (Raise e, w0') /\ r0 = Raise e)).
  { intros w0 r0 w0'. unfold bind.
    destruct (extract_prompts_from_session json_loads cap fs p N w0)
      as [[ps|e] w1]; intros [= <- <-]; [left|right]; eauto. }
  destruct (cache w !! stem p) as [[m' ps]|] eqn:Hc.
  + destruct (float_eqb m' m) eqn:He.
    * intros [= <- <-]. left. split; auto. right. eauto 10.
    * intros H. right. exists m.
      destruct (Hmiss _ _ _ H) as [(ps' & H1 & -> & ->)|(e & H1 & ->)];
        eauto 10.
  + intros H. right. exists m.
    destruct (Hmiss _ _ _ H) as [(ps' & H1 & -> & ->)|(e & H1 & ->)];
      eauto 10.
- destruct (is_OSError e) eqn:He; cbv [ret raise]; intros [= <- <-];
    left; split; auto; left; exists e; rewrite He; auto.
Qed.

(** X11: a call changes at most the cache entry stored under the stem of
  the file; it passes at most one path, the file, to [open]; and when it
  raises, the cache is as before. *)
Theorem get_prompts_effects (fs : filesystem) (p : Path) (N : Z)
  (w w' : world) (r : outcome (list str)) :
get_prompts json_loads cap fs p N w = (r, w') ->
(forall k, k <> stem p -> cache w' !! k = cache w !! k)
/\ (opened w' = opened w \/ opened w' = opened w ++ [p])
/\ (forall e, r = Raise e -> cache w' = cache w).
Proof.
intros H. apply get_prompts_cases in H.
destruct H as [[-> _]|(m & w1 & _ & [(ps & He & -> & ->)|(e & He & -> & ->)])];
  try (apply extract_frame in He; destruct He as (Hc & Ho & _)).
- auto.
- split; [|split; [auto|discriminate]].
  intros k Hk. cbn. rewrite lookup_insert_ne by congruence. now rewrite Hc.
- split; [intros; now rewrite Hc|]. split; [auto|]. intros; exact Hc.
Qed.

Lemma get_prompts_bounded_aux (fs : filesystem) (p : Path) (N : Z)
  (w w' : world) (ps : list str) :
0 <= N ->
cache_bounded N w ->
get_prompts json_loads cap fs p N w = (Return ps, w') ->
len ps <= N /\ cache_bounded N w'.
Proof.
intros HN Hb H. apply get_prompts_cases in H.
destruct H as [[-> [[e Hs]|(m & m' & ps' & Hs & Hc & _ & Hr)]]
              |(m & w1 & _ & [(ps' & He & Hr & ->)|(e & _ & Hr & _)])];
  try discriminate.
- destruct Hs as [_ Hr]. split; [|exact Hb].
  destruct (is_OSError e); [|discriminate].
  injection Hr as ->. unfold len. simpl. lia.
- injection Hr as <-. split; [eapply Hb; eauto|exact Hb].
- injection Hr as <-.
  pose proof (extract_bound _ _ _ _ _ _ _ _ HN He) as Hlen.
  apply extract_frame in He. destruct He as (Hc & _ & _).
  split; [exact Hlen|].
  intros k m0 ps0. cbn. rewrite lookup_insert.
  case_decide as Hk.
  + intros [= <- <-]. exact Hlen.
  + rewrite Hc. apply Hb.
Qed.

(** X12: if every list in the cache has at most [N] entries, a call with
  the limit [N >= 0] returns at most [N] prompts and the cache keeps
  that property. *)
Theorem get_prompts_bounded (fs : filesystem) (p : Path) (N : Z)
  (w w' : world) (ps : list str) :
0 <= N ->
cache_bounded N w ->
get_prompts json_loads cap fs p N w = (Return ps, w') ->
len ps <= N /\ cache_bounded N w'.
Proof. apply get_prompts_bounded_aux. Qed.

(** X13: a failure to open is cached.  When the file can be stat-ed but
  opening it raises an [OSError], the call returns the empty list and
  stores it under the file's mtime; as long as the mtime stays the
  same, later calls return the empty list without opening the file,
  whatever the file system then holds. *)
Theorem open_failure_is_cached (fs : filesystem) (p : Path) (N : Z)
  (w : world) (m : pyfloat) (e : exn) :
fs_stat fs p = Return m ->
float_eqb m m = true ->
(cache w !! stem p = None
 \/ exists m' ps, cache w !! stem p = Some (m', ps)
                  /\ float_eqb m' m = false) ->
fs_open fs p = Raise e ->
is_OSError e = true ->
get_prompts json_loads cap fs p N w
= (Return [], with_entry (stem p) (m, []) (after_warning p e w))
/\ forall fs',
     fs_stat fs' p = Return m ->
     get_prompts json_loads cap fs' p N
       (with_entry (stem p) (m, []) (after_warning p e w))
     = (Return [], with_entry (stem p) (m, []) (after_warning p e w)).
Proof.
intros Hs Hm Hc Ho He. split.
- rewrite (get_prompts_miss json_loads cap fs p N w m) by auto.
  unfold extract_prompts_from_session, bind, note_open.
  rewrite Ho, He. reflexivity.
- intros fs' Hs'.
  apply (get_prompts_hit json_loads cap fs' p N _ m m []); auto.
  cbn. apply lookup_insert_eq.
Qed.

(** X14: after [clear] the cache is empty, and the next call for a file
  that can be stat-ed opens the file again. *)
Theorem clear_forces_extraction (fs : filesystem) (p : Path) (N : Z)
  (w w' : world) (m : pyfloat) (r : outcome (list str)) :
fs_stat fs p = Return m ->
get_prompts json_loads cap fs p N (cache_clear w).2 = (r, w') ->
cache (cache_clear w).2 = ∅ /\ opened w' = opened w ++ [p].
Proof.
intros Hs H. split; [reflexivity|].
rewrite (get_prompts_miss json_loads cap fs p N _ m) in H
  by (auto; left; apply lookup_empty).
destruct (extract_prompts_from_session json_loads cap fs p N
            (cache_clear w).2) as [[ps|e] w1] eqn:He;
  apply extract_frame in He; destruct He as (_ & Ho & _);
  injection H as <- <-; exact Ho.
Qed.

End CacheMore.

Lemma get_prompts_effects_witness :
  let call := get_prompts Json.loads 300 five_prompts_fs session_a 3
                empty_world in
  call.1 = Return [py "one"; py "two"; py "three"]
  /\ (forall k, k <> stem session_a ->
                cache call.2 !! k = cache empty_world !! k)
  /\ (opened call.2 = opened empty_world
      \/ opened call.2 = opened empty_world ++ [session_a])
  /\ (forall e, call.1 = Raise e -> cache call.2 = cache empty_world).
Proof.
  intros call. split; [vm_compute; reflexivity|].
  apply (get_prompts_effects Json.loads 300 five_prompts_fs session_a 3).
  apply surjective_pairing.
Defined.

Lemma get_prompts_bounded_witness :
  0 <= 3
  /\ cache_bounded 3 empty_world
  /\ len [py "one"; py "two"; py "three"] <= 3
  /\ cache_bounded 3
       (get_prompts Json.loads 300 five_prompts_fs session_a 3 empty_world).2.
Proof.
  assert (H0 : cache_bounded 3 empty_world).
  { intros k m ps H. cbn in H. now rewrite lookup_empty in H. }
  split; [lia|]. split; [exact H0|].
  apply (get_prompts_bounded Json.loads 300 five_prompts_fs session_a 3
           empty_world); [lia|exact H0|].
  rewrite (surjective_pairing (get_prompts _ _ _ _ _ _)).
  f_equal; vm_compute; reflexivity.
Defined.

Lemma open_failure_is_cached_witness :
  get_prompts Json.loads 300 locked_fs session_a 3 empty_world
  = (Return [],
     with_entry (stem session_a) (FFin 5 0, [])
       (after_warning session_a OSError empty_world))
  /\ forall fs',
       fs_stat fs' session_a = Return (FFin 5 0) ->
       get_prompts Json.loads 300 fs' session_a 3
         (with_entry (stem session_a) (FFin 5 0, [])
            (after_warning session_a OSError empty_world))
       = (Return [],
          with_entry (stem session_a) (FFin 5 0, [])
            (after_warning session_a OSError empty_world)).
Proof.
  apply open_failure_is_cached.
  - reflexivity.
  - reflexivity.
  - left. apply lookup_empty.
  - reflexivity.
  - reflexivity.
Defined.

Lemma clear_forces_extraction_witness :
  let w := (get_prompts Json.loads 300 five_prompts_fs session_a 3
              empty_world).2 in
  let call := get_prompts Json.loads 300 five_prompts_fs session_a 3
                (cache_clear w).2 in
  cache (cache_clear w).2 = ∅ /\ opened call.2 = opened w ++ [session_a].
Proof.
  intros w call.
  apply (clear_forces_extraction Json.loads 300 five_prompts_fs session_a 3
           w call.2 (FFin 5 0) call.1).
  - reflexivity.
  - symmetry. apply surjective_pairing.
Defined.

(** ** The history scanner: exceptions and skipped records *)

Section ScannerMore.

Variable json_loads : str -> outcome pyval.
Variable HISTORY_FILE : Path.
Variable fromtimestamp_ms : Z + pyfloat -> outcome datetime.

Lemma scan_history_prefix (today : date) (pre : list str) (f : stream)
  (all : pydict SessionInfo) :
Forall (reads_cleanly json_loads fromtimestamp_ms today) pre ->
scan_history json_loads fromtimestamp_ms today (prepend pre f) all
= scan_history json_loads fromtimestamp_ms today f
    (foldl upsert all (today_records json_loads fromtimestamp_ms today pre)).
Proof.
intros Hpre; revert all.
induction Hpre as [|line pre Hline Hpre IH]; intros all; [reflexivity|].
cbn [prepend scan_history today_records].
rewrite scan_line_classify.
destruct (classify json_loads fromtimestamp_ms today line) as [|e|s p dt]
  eqn:Hc.
- apply IH.
- now destruct (Hline e).
- apply IH.
Qed.

(** An exception other than [OSError] in the loop body leaves
  [get_today_sessions]. *)
Lemma get_today_sessions_failed_line (today : date) (fs : filesystem)
  (w : world) (pre : list str) (line : str) (rest : stream) (e : exn) :
fs_exists fs HISTORY_FILE = true ->
fs_open fs HISTORY_FILE = Return (prepend pre (Line line rest)) ->
Forall (reads_cleanly json_loads fromtimestamp_ms today) pre ->
classify json_loads fromtimestamp_ms today line = Failed e ->
is_OSError e = false ->
get_today_sessions json_loads HISTORY_FILE fromtimestamp_ms today fs w
= (Raise e, after_open HISTORY_FILE w).
Proof.
intros Hex Ho Hpre Hc He.
unfold get_today_sessions, read_history. rewrite Hex. cbn [negb].
unfold bind at 1. unfold bind at 1. unfold note_open.
rewrite Ho, scan_history_prefix by auto.
cbn [scan_history]. rewrite scan_line_classify, Hc, He. reflexivity.
Qed.

(** X15: a line of the history log that is valid JSON but not an object
  stops the scan with an [AttributeError]: if the lines before it are
  read without an exception, [get_today_sessions] raises it and returns
  no mapping. *)
Theorem history_scalar_line_raises (today : date) (fs : filesystem)
  (w : world) (pre : list str) (line : str) (rest : stream)
  (data : pyval) :
fs_exists fs HISTORY_FILE = true ->
fs_open fs HISTORY_FILE = Return (prepend pre (Line line rest)) ->
Forall (reads_cleanly json_loads fromtimestamp_ms today) pre ->
json_loads (strip line) = Return data ->
is_dict data = false ->
get_today_sessions json_loads HISTORY_FILE fromtimestamp_ms today fs w
= (Raise AttributeError, after_open HISTORY_FILE w).
Proof.
intros Hex Ho Hpre Hl Hd.
apply (get_today_sessions_failed_line today fs w pre line rest); auto.
unfold classify. rewrite Hl. destruct data; try reflexivity; discriminate.
Qed.

(** X16: a record of today whose session id is a list or an object
  cannot be a dictionary key: the [TypeError] of the lookup is not
  caught and leaves [get_today_sessions]. *)
Theorem history_unhashable_id_raises (today : date) (fs : filesystem)
  (w : world) (pre : list str) (line : str) (rest : stream)
  (d : list (str * pyval)) (dt : datetime) :
fs_exists fs HISTORY_FILE = true ->
fs_open fs HISTORY_FILE = Return (prepend pre (Line line rest)) ->
Forall (reads_cleanly json_loads fromtimestamp_ms today) pre ->
json_loads (strip line) = Return (PDict d) ->
truthy (field "timestamp" d) = true ->
truthy (field "project" d) = true ->
truthy (field "sessionId" d) = true ->
to_datetime fromtimestamp_ms (field "timestamp" d) = Return dt ->
date_of dt = today ->
dict_key (field "sessionId" d) = None ->
get_today_sessions json_loads HISTORY_FILE fromtimestamp_ms today fs w
= (Raise TypeError, after_open HISTORY_FILE w).
Proof.
intros Hex Ho Hpre Hl Ht Hp Hs Hdt Hd Hk.
apply (get_today_sessions_failed_line today fs w pre line rest); auto.
unfold classify. rewrite Hl, Ht, Hp, Hs, Hdt, Hk.
now rewrite bool_decide_eq_true_2.
Qed.

(** X17: an [OSError] while the history file is read is caught: the
  result is the one the lines read before it give, as if the file had
  ended there, and one error is logged. *)
Theorem history_read_error_keeps_sessions (today : date)
  (fs fs' : filesystem) (w : world) (pre : list str) (e : exn) :
fs_exists fs HISTORY_FILE = true ->
fs_open fs HISTORY_FILE = Return (prepend pre (ReadError e)) ->
is_OSError e = true ->
Forall (reads_cleanly json_loads fromtimestamp_ms today) pre ->
fs_exists fs' HISTORY_FILE = true ->
fs_open fs' HISTORY_FILE = Return (stream_of_lines pre) ->
exists r,
  get_today_sessions json_loads HISTORY_FILE fromtimestamp_ms today fs' w
  = (r, after_open HISTORY_FILE w)
  /\ get_today_sessions json_loads HISTORY_FILE fromtimestamp_ms today fs w
     = (r, after_history_error HISTORY_FILE e w).
Proof.
intros Hex Ho He Hpre Hex' Ho'.
unfold get_today_sessions, read_history. rewrite Hex, Hex'. cbn [negb].
unfold bind at 1. unfold bind at 1. unfold bind at 2. unfold bind at 2.
unfold note_open.
rewrite Ho, Ho', stream_of_lines_prepend, !scan_history_prefix by auto.
cbn [scan_history]. rewrite He.
cbv [emit ret raise bind].
destruct (group_by_project _ []) as [g|e']; eexists; split; reflexivity.
Qed.

(** X18: a record is skipped, and the mapping of sessions left as it is,
  when its timestamp is a string, a list or an object (the division
  raises a [TypeError]), when the conversion to a time raises a
  [ValueError], or when the time is not on today's date. *)
Theorem history_record_skipped (today : date) (all : pydict SessionInfo)
  (line : str) (d : list (str * pyval)) :
json_loads (strip line) = Return (PDict d) ->
(is_str (field "timestamp" d) = true
 \/ (exists l, field "timestamp" d = PList l)
 \/ (exists o, field "timestamp" d = PDict o))
\/ (exists e, to_datetime fromtimestamp_ms (field "timestamp" d) = Raise e
              /\ is_ValueError e = true)
\/ (exists dt, to_datetime fromtimestamp_ms (field "timestamp" d) = Return dt
               /\ date_of dt <> today) ->
scan_line json_loads fromtimestamp_ms today all line = Return all.
Proof.
intros Hl H. rewrite scan_line_classify. unfold classify. rewrite Hl.
destruct (truthy (field "timestamp" d) && truthy (field "project" d)
          && truthy (field "sessionId" d)); [|reflexivity].
destruct H as [H|[(e & -> & He)|(dt & -> & Hd)]].
- assert (to_datetime fromtimestamp_ms (field "timestamp" d)
          = Raise TypeError) as ->; [|reflexivity].
  destruct H as [H|[[l ->]|[o ->]]]; [|reflexivity|reflexivity].
  destruct (field "timestamp" d); try discriminate; reflexivity.
- now rewrite He.
- now rewrite bool_decide_eq_false_2.
Qed.

End ScannerMore.

Lemma history_scalar_line_raises_witness :
  get_today_sessions Json.loads history_path utc_fromtimestamp_ms
    (1970, 1, 1)%nat (history_fs_of [first_history_line; py "42"]) empty_world
  = (Raise AttributeError, after_open history_path empty_world).
Proof.
  apply (history_scalar_line_raises Json.loads history_path
           utc_fromtimestamp_ms _ _ _ [first_history_line] (py "42") EOF
           (PInt 42)).
  - reflexivity.
  - reflexivity.
  - repeat constructor. intros e. vm_compute. discriminate.
  - vm_compute. reflexivity.
  - reflexivity.
Defined.

Lemma history_unhashable_id_raises_witness :
  get_today_sessions Json.loads history_path utc_fromtimestamp_ms
    (1970, 1, 1)%nat
    (history_fs_of
       [jl "{'timestamp': 1000, 'project': '/p', 'sessionId': [1]}"])
    empty_world
  = (Raise TypeError, after_open history_path empty_world).
Proof.
  eapply (history_unhashable_id_raises Json.loads history_path
            utc_fromtimestamp_ms _ _ _ [] _ EOF).
  - reflexivity.
  - reflexivity.
  - constructor.
  - vm_compute. reflexivity.
  - vm_compute. reflexivity.
  - vm_compute. reflexivity.
  - vm_compute. reflexivity.
  - vm_compute. reflexivity.
  - vm_compute. reflexivity.
  - vm_compute. reflexivity.
Defined.

Lemma history_read_error_keeps_sessions_witness :
  exists r,
    get_today_sessions Json.loads history_path utc_fromtimestamp_ms
      (1970, 1, 1)%nat (history_fs_of [first_history_line]) empty_world
    = (r, after_open history_path empty_world)
    /\ get_today_sessions Json.loads history_path utc_fromtimestamp_ms
         (1970, 1, 1)%nat (failing_history_fs [first_history_line] OSError)
         empty_world
       = (r, after_history_error history_path OSError empty_world).
Proof.
  apply (history_read_error_keeps_sessions Json.loads history_path
           utc_fromtimestamp_ms _ _ _ _ [first_history_line]).
  - reflexivity.
  - reflexivity.
  - reflexivity.
  - repeat constructor. intros e. vm_compute. discriminate.
  - reflexivity.
  - reflexivity.
Defined.

Lemma history_record_skipped_witness :
  scan_line Json.loads utc_fromtimestamp_ms (1970, 1, 1)%nat []
    (jl "{'timestamp': '1000', 'project': '/p', 'sessionId': 's1'}")
  = Return [].
Proof.
  eapply (history_record_skipped Json.loads utc_fromtimestamp_ms).
  - vm_compute. reflexivity.
  - left. left. vm_compute. reflexivity.
Defined.

(** ** The history scanner: the shape of the result *)

Lemma grouped_nil : grouped [].
Proof.
  split; [constructor|]. intros project l H. now apply elem_of_nil in H.
Qed.

Lemma grouped_add (groups : pydict (list SessionInfo)) (session : SessionInfo) :
  grouped groups ->
  grouped (pd_set (project_path session)
             (default [] (pd_get (project_path session) groups) ++ [session])
             groups).
Proof.
  intros [Hk He]. split; [now apply NoDup_keys_pd_set|].
  intros project l Hin. apply pd_set_elem in Hin.
  destruct Hin as [Hin|[-> Hkey]]; [now apply He|].
  split; [now destruct (default [] _)|].
  intros s Hs. apply elem_of_app in Hs. destruct Hs as [Hs|Hs].
  - destruct (pd_get (project_path session) groups) as [g|] eqn:Hg;
      [|now apply elem_of_nil in Hs].
    apply pd_get_Some in Hg. destruct Hg as (k0 & Hin0 & Hk0).
    destruct (He _ _ Hin0) as [_ Hp]. rewrite (Hp _ Hs). congruence.
  - apply list_elem_of_singleton in Hs. subst. congruence.
Qed.

Lemma pd_set_sessions (groups : pydict (list SessionInfo)) (k : pyval)
    (session : SessionInfo) :
  all_sessions_of (pd_set k (default [] (pd_get k groups) ++ [session]) groups)
  ≡ₚ all_sessions_of groups ++ [session].
Proof.
  unfold all_sessions_of.
  induction groups as [|[k0 l0] groups IH]; [reflexivity|].
  cbn [pd_get pd_set]. destruct (same_key k0 k).
  - cbn. rewrite <- !app_assoc. apply Permutation_app_head, Permutation_app_comm.
  - cbn. rewrite IH. now rewrite app_assoc.
Qed.

Lemma group_by_project_grouped (sessions : list SessionInfo)
    (groups0 groups : pydict (list SessionInfo)) :
  group_by_project sessions groups0 = Return groups ->
  grouped groups0 ->
  grouped groups
  /\ all_sessions_of groups ≡ₚ all_sessions_of groups0 ++ sessions.
Proof.
  revert groups0; induction sessions as [|session rest IH];
    intros groups0 Hg H0; cbn [group_by_project] in Hg.
  - injection Hg as <-. split; [auto|]. now rewrite app_nil_r.
  - destruct (dict_key (project_path session)); [|discriminate].
    destruct (IH _ Hg (grouped_add _ _ H0)) as [Hgr Hp].
    split; [exact Hgr|]. rewrite Hp, pd_set_sessions.
    now rewrite <- app_assoc.
Qed.

Lemma keys_cap_groups (groups : pydict (list SessionInfo)) :
  keys (cap_groups groups) = keys groups.
Proof.
  unfold keys, cap_groups. rewrite map_map. apply map_ext.
  now intros [k l].
Qed.

Lemma take_sort_nonempty (l : list SessionInfo) :
  l <> [] -> take MAX_SESSIONS_PER_PROJECT (sort_newest_first l) <> [].
Proof.
  intros Hl. pose proof (sort_newest_first_perm l) as Hp.
  destruct (sort_newest_first l) as [|x s]; [|easy].
  apply Permutation_nil_l in Hp. congruence.
Qed.

Lemma cap_groups_sessions (groups : pydict (list SessionInfo)) :
  all_sessions_of (cap_groups groups) ⊆+ all_sessions_of groups.
Proof.
  unfold all_sessions_of.
  induction groups as [|[k l] groups IH]; [reflexivity|].
  cbn. apply submseteq_app; [|exact IH].
  rewrite <- (sort_newest_first_perm l) at 2.
  apply sublist_submseteq, sublist_take.
Qed.

Lemma NoDup_submseteq_inv {A} (l k : list A) : l ⊆+ k -> NoDup k -> NoDup l.
Proof.
  intros Hs Hk. apply submseteq_Permutation in Hs. destruct Hs as [k' Hp].
  rewrite Hp in Hk. now apply NoDup_app in Hk.
Qed.

Lemma elem_of_concat {A} (x : A) (ls : list (list A)) :
  x ∈ concat ls -> exists l, l ∈ ls /\ x ∈ l.
Proof.
  induction ls as [|l ls IH]; cbn; [intros H; now apply elem_of_nil in H|].
  intros H. apply elem_of_app in H. destruct H as [H|H].
  - exists l. split; [left|auto].
  - destruct (IH H) as (l' & ? & ?). exists l'. split; [now right|auto].
Qed.

Lemma built_session_keys (rs : list (pyval * pyval * datetime))
    (all : pydict SessionInfo) :
  built_from rs all ->
  map (fun s => dict_key (session_id s)) (pd_values all) = keys all.
Proof.
  intros [_ He _]. unfold pd_values, keys. rewrite map_map.
  apply map_ext_in. intros [k s] Hin. apply list_elem_of_In in Hin.
  destruct (He _ _ Hin) as [Hk _]. cbn. now rewrite Hk.
Qed.

Section ShapeTheory.

Variable json_loads : str -> outcome pyval.
Variable HISTORY_FILE : Path.
Variable fromtimestamp_ms : Z + pyfloat -> outcome datetime.

Lemma scan_history_built (today : date) (f : stream)
  (rs0 : list (pyval * pyval * datetime)) (all0 : pydict SessionInfo) :
built_from rs0 all0 ->
exists rs,
  built_from rs (scan_history json_loads fromtimestamp_ms today f all0).1.
Proof.
revert rs0 all0; induction f as [|line rest IH|e]; intros rs0 all0 H0;
  [exists rs0; exact H0| |exists rs0; exact H0].
cbn [scan_history]. rewrite scan_line_classify.
destruct (classify json_loads fromtimestamp_ms today line)
  as [|e|sid project dt];
  [eapply IH; exact H0|exists rs0; exact H0|].
eapply IH. apply built_from_upsert. exact H0.
Qed.

Lemma scan_history_fresh (today : date) (f : stream)
  (all0 : pydict SessionInfo) :
(forall k s, (k, s) ∈ all0 -> prompts s = []) ->
forall k s,
  (k, s) ∈ (scan_history json_loads fromtimestamp_ms today f all0).1 ->
  prompts s = [].
Proof.
revert all0; induction f as [|line rest IH|e]; intros all0 H0; auto.
cbn [scan_history]. rewrite scan_line_classify.
destruct (classify json_loads fromtimestamp_ms today line)
  as [|e|sid project dt].
- now apply IH.
- exact H0.
- apply IH. intros k s Hin. apply upsert_elem in Hin.
  destruct Hin as [Hin| ->]; eauto.
Qed.

(** What [read_history] returns is built from records and fresh. *)
Lemma read_history_built (today : date) (fs : filesystem) (w w' : world)
  (all : pydict SessionInfo) :
read_history json_loads HISTORY_FILE fromtimestamp_ms today fs w
= (Return all, w') ->
(exists rs, built_from rs all)
/\ forall k s, (k, s) ∈ all -> prompts s = [].
Proof.
unfold read_history, bind, note_open.
assert (Hnil : forall (k : pyval) (s : SessionInfo),
           (k, s) ∈ (@nil (pyval * SessionInfo)) -> prompts s = [])
  by (intros ? ? H; now apply elem_of_nil in H).
destruct (fs_open fs HISTORY_FILE) as [f|e].
- pose proof (scan_history_built today f [] [] built_from_nil) as Hb.
  pose proof (scan_history_fresh today f [] Hnil) as Hf.
  destruct (scan_history json_loads fromtimestamp_ms today f [])
    as [all' [e|]]; cbn [fst] in Hb, Hf.
  + destruct (is_OSError e); cbv [emit ret raise bind];
      intros [= <- _]; auto.
  + cbv [ret]. intros [= <- _]. auto.
- destruct (is_OSError e); cbv [emit ret raise bind];
    intros [= <- _]; split; [exists []; apply built_from_nil|exact Hnil].
Qed.

(** The steps of [get_today_sessions] when it returns. *)
Lemma get_today_sessions_returns (today : date) (fs : filesystem)
  (w w' : world) (groups : pydict (list SessionInfo)) :
get_today_sessions json_loads HISTORY_FILE fromtimestamp_ms today fs w
= (Return groups, w') ->
(fs_exists fs HISTORY_FILE = false /\ groups = [])
\/ exists all groups0,
     read_history json_loads HISTORY_FILE fromtimestamp_ms today fs w
     = (Return all, w')
     /\ group_by_project (pd_values all) [] = Return groups0
     /\ groups = cap_groups groups0.
Proof.
unfold get_today_sessions.
destruct (fs_exists fs HISTORY_FILE); cbn [negb].
2: { cbv [emit ret bind]. intros [= <- _]. auto. }
unfold bind at 1.
destruct (read_history json_loads HISTORY_FILE fromtimestamp_ms today fs w)
  as [[all|e] w1] eqn:Hr; [|discriminate].
destruct (group_by_project (pd_values all) []) as [groups0|e] eqn:Hg;
  [|discriminate].
cbv [ret]. intros [= <- <-]. right. eauto.
Qed.

(** X19: the mapping [get_today_sessions] returns is well formed: its
  projects are distinct dictionary keys, no project has an empty list,
  every session is listed under its own project, and no session has
  prompts yet. *)
Theorem groups_well_formed (today : date) (fs : filesystem) (w w' : world)
  (groups : pydict (list SessionInfo)) :
get_today_sessions json_loads HISTORY_FILE fromtimestamp_ms today fs w
= (Return groups, w') ->
NoDup (keys groups)
/\ forall project l,
     (project, l) ∈ groups ->
     l <> []
     /\ forall s, s ∈ l ->
                  same_key (project_path s) project = true
                  /\ prompts s = [].
Proof.
intros H. apply get_today_sessions_returns in H.
destruct H as [[_ ->]|(all & groups0 & Hr & Hg & ->)].
{ split; [constructor|]. intros ? ? H. now apply elem_of_nil in H. }
apply read_history_built in Hr. destruct Hr as [_ Hfresh].
pose proof (group_by_project_elem _ _ _ Hg) as Helem.
apply group_by_project_grouped in Hg; [|apply grouped_nil].
destruct Hg as [[Hk He] _].
split; [now rewrite keys_cap_groups|].
intros project l Hin. apply cap_groups_elem in Hin.
destruct Hin as (l0 & Hin0 & ->).
destruct (He _ _ Hin0) as [Hne Hp].
split; [now apply take_sort_nonempty|].
intros s Hs. apply elem_of_take in Hs. destruct Hs as (i & Hs & _).
apply list_elem_of_lookup_2 in Hs. rewrite sort_newest_first_perm in Hs.
split; [apply same_key_eq; auto|].
destruct (Helem _ _ _ Hin0 Hs) as [Hv|(p0 & l1 & Hnil & _)];
  [|now apply elem_of_nil in Hnil].
unfold pd_values in Hv. apply list_elem_of_fmap in Hv.
destruct Hv as ([k s0] & -> & Hks). eapply Hfresh; eauto.
Qed.

(** X20: no session id occurs twice in the mapping [get_today_sessions]
  returns, neither within a project nor in two projects. *)
Theorem groups_distinct_sessions (today : date) (fs : filesystem)
  (w w' : world) (groups : pydict (list SessionInfo)) :
get_today_sessions json_loads HISTORY_FILE fromtimestamp_ms today fs w
= (Return groups, w') ->
NoDup (map (fun s => dict_key (session_id s)) (all_sessions_of groups)).
Proof.
intros H. apply get_today_sessions_returns in H.
destruct H as [[_ ->]|(all & groups0 & Hr & Hg & ->)]; [constructor|].
apply read_history_built in Hr. destruct Hr as [[rs Hb] _].
apply group_by_project_grouped in Hg; [|apply grouped_nil].
destruct Hg as [_ Hp]. cbn [app] in Hp.
eapply NoDup_submseteq_inv.
- apply (fmap_submseteq (fun s => dict_key (session_id s))).
  apply cap_groups_sessions.
- change (NoDup ((fun s => dict_key (session_id s)) <$>
                   all_sessions_of groups0)).
  rewrite Hp.
  change (NoDup (map (fun s => dict_key (session_id s)) (pd_values all))).
  rewrite (built_session_keys rs) by exact Hb. apply Hb.
Qed.

(** X21: the cap loses only sessions that three others outrank: every
  record of the mapping of sessions is listed under its project, unless
  that project's list is full with three sessions none of which is
  older. *)
Theorem groups_keep_newest (today : date) (fs : filesystem) (w w' w1 : world)
  (groups : pydict (list SessionInfo)) (all : pydict SessionInfo)
  (k : pyval) (s : SessionInfo) :
get_today_sessions json_loads HISTORY_FILE fromtimestamp_ms today fs w
= (Return groups, w') ->
fs_exists fs HISTORY_FILE = true ->
read_history json_loads HISTORY_FILE fromtimestamp_ms today fs w
= (Return all, w1) ->
(k, s) ∈ all ->
exists project l,
  (project, l) ∈ groups
  /\ same_key (project_path s) project = true
  /\ (s ∈ l \/ (length l = 3%nat /\ Forall (fun t => not_older t s) l)).
Proof.
intros H Hex Hr Hin. apply get_today_sessions_returns in H.
destruct H as [[? _]|(all' & groups0 & Hr' & Hg & ->)]; [congruence|].
assert (all' = all) by congruence. subst all'.
apply group_by_project_grouped in Hg; [|apply grouped_nil].
destruct Hg as [[_ He] Hp]. cbn [app] in Hp.
assert (Hs : s ∈ all_sessions_of groups0).
{ rewrite Hp. unfold pd_values. apply list_elem_of_fmap.
  exists (k, s). auto. }
unfold all_sessions_of in Hs. apply elem_of_concat in Hs.
destruct Hs as (l0 & Hl0 & Hs). apply list_elem_of_fmap in Hl0.
destruct Hl0 as ([project l0'] & -> & Hin0). cbn [snd] in Hs.
destruct (He _ _ Hin0) as [_ Hkey].
exists project, (take MAX_SESSIONS_PER_PROJECT (sort_newest_first l0')).
split.
{ unfold cap_groups. apply list_elem_of_fmap. exists (project, l0'). auto. }
split; [apply same_key_eq; auto|].
rewrite <- (sort_newest_first_perm l0') in Hs.
rewrite <- (take_drop MAX_SESSIONS_PER_PROJECT (sort_newest_first l0')) in Hs.
apply elem_of_app in Hs. destruct Hs as [Hs|Hs]; [auto|right].
pose proof (sort_newest_first_sorted l0') as Hsorted.
rewrite <- (take_drop MAX_SESSIONS_PER_PROJECT (sort_newest_first l0'))
  in Hsorted.
split.
- rewrite length_take.
  destruct (decide (length (sort_newest_first l0')
                    <= MAX_SESSIONS_PER_PROJECT)%nat) as [Hle|Hgt].
  + rewrite drop_ge in Hs by exact Hle. now apply elem_of_nil in Hs.
  + unfold MAX_SESSIONS_PER_PROJECT in *. lia.
- apply Forall_forall. intros t Ht.
  eapply StronglySorted_app_1_elem_of; eauto.
Qed.

End ShapeTheory.

Lemma history_groups_returned :
  get_today_sessions Json.loads history_path utc_fromtimestamp_ms
    (1970, 1, 1)%nat history_fs empty_world
  = (Return history_groups, after_open history_path empty_world).
Proof. vm_compute. reflexivity. Qed.

Lemma groups_well_formed_witness :
  NoDup (keys history_groups)
  /\ forall project l,
       (project, l) ∈ history_groups ->
       l <> []
       /\ forall s, s ∈ l ->
                    same_key (project_path s) project = true
                    /\ prompts s = [].
Proof.
  exact (groups_well_formed Json.loads history_path utc_fromtimestamp_ms
           _ _ _ _ _ history_groups_returned).
Defined.

Lemma groups_distinct_sessions_witness :
  NoDup (map (fun s => dict_key (session_id s))
           (all_sessions_of history_groups)).
Proof.
  exact (groups_distinct_sessions Json.loads history_path utc_fromtimestamp_ms
           _ _ _ _ _ history_groups_returned).
Defined.

Lemma groups_keep_newest_witness :
  exists project l,
    (project, l) ∈ history_groups
    /\ same_key (PStr (py "/p")) project = true
    /\ (session_of (PStr (py "s2")) (PStr (py "/p")) (second_of_day 3) ∈ l
        \/ (length l = 3%nat
            /\ Forall (fun t =>
                         not_older t
                           (session_of (PStr (py "s2")) (PStr (py "/p"))
                              (second_of_day 3))) l)).
Proof.
  apply (groups_keep_newest Json.loads history_path utc_fromtimestamp_ms
           (1970, 1, 1)%nat history_fs empty_world
           (after_open history_path empty_world)
           (after_open history_path empty_world)
           history_groups history_sessions (PStr (py "s2"))
           (session_of (PStr (py "s2")) (PStr (py "/p")) (second_of_day 3))).
  - exact history_groups_returned.
  - reflexivity.
  - vm_compute. reflexivity.
  - right. left.
Defined.

(** ** [project_path_to_dir_name] *)

Lemma hyphen_chain (c : char) :
  hyphen_for 95%N (hyphen_for 32%N (hyphen_for 47%N
    (hyphen_for 92%N (hyphen_for 58%N c))))
  = if is_separator c then 45%N else c.
Proof.
  unfold hyphen_for, is_separator, char_eqb.
  destruct (c =? 58)%N eqn:H1; [reflexivity|].
  destruct (c =? 92)%N eqn:H2; [reflexivity|].
  destruct (c =? 47)%N eqn:H3; [reflexivity|].
  destruct (c =? 32)%N eqn:H4; [reflexivity|].
  destruct (c =? 95)%N eqn:H5; reflexivity.
Qed.

Lemma dir_name_of_map (s : str) :
  dir_name_of s = map (fun c => if is_separator c then 45%N else c) s.
Proof.
  unfold dir_name_of, replace_char. rewrite !map_map.
  apply map_ext. intros c. apply hyphen_chain.
Qed.

Lemma lookup_map {A B} (f : A -> B) (l : list A) (i : nat) (x : A) :
  l !! i = Some x -> map f l !! i = Some (f x).
Proof.
  revert i; induction l as [|y l IH]; intros [|i]; cbn; try easy.
  - now intros [= ->].
  - apply IH.
Qed.

(** X22: the directory name has the length of the project path; each of
    the characters colon, backslash, slash, space and underscore is
    replaced by a hyphen and every other character is kept in place; so
    the name holds none of the five characters, and converting a name
    again changes nothing. *)
Theorem dir_name_characters (s : str) :
  length (dir_name_of s) = length s
  /\ (forall i c,
         s !! i = Some c ->
         dir_name_of s !! i = Some (if is_separator c then 45%N else c))
  /\ Forall (fun c => is_separator c = false) (dir_name_of s)
  /\ dir_name_of (dir_name_of s) = dir_name_of s.
Proof.
  rewrite !dir_name_of_map. split; [apply length_map|]. split; [|split].
  - intros i c Hi.
    now apply (lookup_map (fun c => if is_separator c then 45%N else c)).
  - apply Forall_forall. intros c Hc.
    apply list_elem_of_In, in_map_iff in Hc. destruct Hc as (c0 & <- & _).
    destruct (is_separator c0) eqn:H0; [reflexivity|exact H0].
  - rewrite map_map. apply map_ext. intros c.
    destruct (is_separator c) eqn:H0; [reflexivity|now rewrite H0].
Qed.

(** ** The order on strings *)

Lemma str_ltb_irrefl (a : str) : str_ltb a a = false.
Proof.
  induction a as [|x a IH]; simpl; auto.
  rewrite N.ltb_irrefl, N.eqb_refl, IH. reflexivity.
Qed.

Lemma str_ltb_trans (a b c : str) :
  str_ltb a b = true -> str_ltb b c = true -> str_ltb a c = true.
Proof.
  revert b c; induction a as [|x a IH]; intros [|y b] [|z c]; simpl;
    try easy.
  rewrite !orb_true_iff, !andb_true_iff, !N.ltb_lt, !N.eqb_eq.
  intros [H1|[H1 H1']] [H2|[H2 H2']]; try (left; lia).
  right. split; [lia|]. eapply IH; eauto.
Qed.

Lemma str_ltb_total (a b : str) :
  str_ltb a b = false -> str_ltb b a = false -> a = b.
Proof.
  revert b; induction a as [|x a IH]; intros [|y b]; simpl; try easy.
  rewrite !orb_false_iff, !andb_false_iff, !N.ltb_ge, !N.eqb_neq.
  intros [H1 H1'] [H2 H2'].
  assert (x = y) by lia; subst y.
  f_equal. apply IH.
  - destruct H1'; [congruence|auto].
  - destruct H2'; [congruence|auto].
Qed.

Lemma str_geb_trans (a b c : str) :
  str_ltb b a = false -> str_ltb c b = false -> str_ltb c a = false.
Proof.
  intros Hab Hbc. destruct (str_ltb c a) eqn:Hca; auto.
  destruct (str_ltb a b) eqn:H.
  - rewrite (str_ltb_trans c a b) in Hbc; auto.
  - assert (b = a) by (apply str_ltb_total; auto). congruence.
Qed.

(** ** Sorting the projects *)

Section KeyedSort.

Context {V : Type}.
Implicit Types (l : list (str * V)) (x y : str * V).

Lemma insert_by_key_perm x l :
insert_by (fun y x => str_ltb y.1 x.1) x l ≡ₚ x :: l.
Proof.
induction l as [|y l IH]; simpl; auto.
destruct (str_ltb y.1 x.1); auto.
rewrite IH. apply Permutation_swap.
Qed.

Lemma stable_sort_key_perm l :
stable_sort (fun y x => str_ltb y.1 x.1) l ≡ₚ l.
Proof.
induction l as [|x l IH]; simpl; auto.
unfold stable_sort in *. simpl. rewrite insert_by_key_perm. now rewrite IH.
Qed.

Lemma insert_by_key_sorted x l :
StronglySorted (fun a b => str_ltb b.1 a.1 = false) l ->
StronglySorted (fun a b => str_ltb b.1 a.1 = false)
  (insert_by (fun y x => str_ltb y.1 x.1) x l).
Proof.
induction 1 as [|y l Hl IH Hy]; simpl.
- repeat constructor.
- destruct (str_ltb y.1 x.1) eqn:Hyx.
  + constructor; auto.
    rewrite insert_by_key_perm. constructor; auto.
    destruct (str_ltb x.1 y.1) eqn:Hc; auto.
    pose proof (str_ltb_trans _ _ _ Hyx Hc) as Hyy.
    now rewrite str_ltb_irrefl in Hyy.
  + constructor; [constructor; auto|].
    constructor; [exact Hyx|].
    eapply Forall_impl; [exact Hy|].
    intros z Hz. cbn in Hz. eapply str_geb_trans; eauto.
Qed.

Lemma stable_sort_key_sorted l :
StronglySorted (fun a b => str_ltb b.1 a.1 = false)
  (stable_sort (fun y x => str_ltb y.1 x.1) l).
Proof.
induction l as [|x l IH]; [constructor|].
unfold stable_sort in *. simpl. now apply insert_by_key_sorted.
Qed.

Lemma NoDup_fst_inj l x y :
NoDup (map fst l) -> x ∈ l -> y ∈ l -> x.1 = y.1 -> x = y.
Proof.
induction l as [|z l IH]; cbn; intros Hnd Hx Hy Hk.
- now apply elem_of_nil in Hx.
- apply NoDup_cons in Hnd. destruct Hnd as [Hz Hnd].
  apply elem_of_cons in Hx. apply elem_of_cons in Hy.
  destruct Hx as [->|Hx], Hy as [->|Hy]; auto.
  + exfalso. apply Hz. rewrite Hk. apply list_elem_of_fmap. eauto.
  + exfalso. apply Hz. rewrite <- Hk. apply list_elem_of_fmap. eauto.
Qed.

(** With distinct keys the sorted list does not depend on the order of
  the input. *)
Lemma stable_sort_key_unique l l' :
NoDup (map fst l) -> l ≡ₚ l' ->
stable_sort (fun y x => str_ltb y.1 x.1) l
= stable_sort (fun y x => str_ltb y.1 x.1) l'.
Proof.
intros Hnd Hp.
apply (StronglySorted_unique_strong (fun a b => str_ltb b.1 a.1 = false));
  try apply stable_sort_key_sorted.
- intros x1 x2 H1 H2 Hab Hba.
  rewrite stable_sort_key_perm in H1.
  rewrite stable_sort_key_perm, <- Hp in H2.
  apply (NoDup_fst_inj l); auto. now apply str_ltb_total.
- now rewrite !stable_sort_key_perm.
Qed.

End KeyedSort.

(** ** [format_markdown]: keys and order *)

Section RenderMore.

Variable str_lower : str -> str.

Lemma with_sort_keys_str (sessions : pydict (list SessionInfo)) :
Forall (fun item => is_str item.1 = true) sessions ->
with_sort_keys str_lower sessions
= Return (map (keyed_item str_lower) sessions).
Proof.
induction 1 as [|[k l] sessions Hk _ IH]; [reflexivity|].
destruct k; try discriminate. cbn [with_sort_keys]. rewrite IH.
reflexivity.
Qed.

Lemma with_sort_keys_not_str (sessions : pydict (list SessionInfo)) :
Exists (fun item => is_str item.1 = false) sessions ->
with_sort_keys str_lower sessions = Raise AttributeError.
Proof.
induction 1 as [[k l] sessions Hk|[k l] sessions _ IH].
- destruct k; try discriminate; reflexivity.
- destruct k; try reflexivity. cbn [with_sort_keys]. now rewrite IH.
Qed.

Lemma with_sort_keys_inv (sessions : pydict (list SessionInfo)) keyed :
with_sort_keys str_lower sessions = Return keyed ->
Forall (fun item => is_str item.1 = true) sessions.
Proof.
intros H. apply Forall_forall. intros item Hin.
destruct (is_str item.1) eqn:Hs; auto.
rewrite with_sort_keys_not_str in H; [discriminate|].
apply Exists_exists. eauto.
Qed.

(** X23: rendering returns a document exactly when the mapping is empty
  or all its project keys are strings; a non-empty mapping with a key
  that is not a string makes it raise an [AttributeError]; and the
  document of the empty mapping is the header followed by the line that
  says there is no active session. *)
Theorem render_needs_string_keys (now : datetime)
  (sessions : pydict (list SessionInfo)) :
(Forall (fun item => is_str item.1 = true) sessions ->
 exists doc, format_markdown str_lower now sessions = Return doc)
/\ (Exists (fun item => is_str item.1 = false) sessions ->
    format_markdown str_lower now sessions = Raise AttributeError)
/\ format_markdown str_lower now [] = Return (no_sessions_document now).
Proof.
unfold format_markdown, body_lines. split; [|split].
- intros H. destruct sessions as [|item sessions];
    [cbn [obind]; eauto|].
  rewrite with_sort_keys_str by exact H. cbn [obind]. eauto.
- intros H. destruct sessions as [|item sessions].
  + now apply Exists_nil in H.
  + now rewrite with_sort_keys_not_str.
- unfold no_sessions_document, header_lines. cbn [obind]. reflexivity.
Qed.

(** X24: when the lower-cased project names are distinct, the document
  does not depend on the order of the projects in the mapping. *)
Theorem render_order_independent (now : datetime)
  (sessions sessions' : pydict (list SessionInfo))
  (keyed : list (str * (str * list SessionInfo))) :
with_sort_keys str_lower sessions = Return keyed ->
NoDup (map fst keyed) ->
sessions ≡ₚ sessions' ->
format_markdown str_lower now sessions'
= format_markdown str_lower now sessions.
Proof.
intros Hk Hnd Hp.
pose proof (with_sort_keys_inv _ _ Hk) as Hs.
assert (Hs' : Forall (fun item => is_str item.1 = true) sessions')
  by now rewrite <- Hp.
rewrite with_sort_keys_str in Hk by exact Hs. injection Hk as <-.
unfold format_markdown, body_lines.
destruct sessions as [|i s], sessions' as [|i' s'].
- reflexivity.
- now apply Permutation_nil_l in Hp.
- now apply Permutation_nil_r in Hp.
- rewrite !with_sort_keys_str by assumption. cbn [obind].
  rewrite (stable_sort_key_unique (map (keyed_item str_lower) (i :: s))
             (map (keyed_item str_lower) (i' :: s'))); auto.
  now apply Permutation_map.
Qed.

End RenderMore.

Lemma render_order_independent_witness :
  format_markdown ascii_lower noon two_project_mapping_swapped
  = format_markdown ascii_lower noon two_project_mapping.
Proof.
  eapply (render_order_independent ascii_lower noon two_project_mapping).
  - vm_compute. reflexivity.
  - apply (bool_decide_unpack _). vm_compute. exact I.
  - apply Permutation_swap.
Defined.

(** ** [load_session_prompts] *)

Section LoaderTheory.

Variable json_loads : str -> outcome pyval.
Variable cap : Z.
Variable PROJECTS_DIR : Path.
Variable joinpath : Path -> str -> Path.
Variable format_value : pyval -> str.

(** A session either keeps its prompts, and nothing happens, or gets
  what [get_prompts] returns for one file. *)
Lemma scan_project_dirs_cases (fs : filesystem) (ds : directories)
  (dirs : list Path) (s s' : SessionInfo) (w w' : world) :
scan_project_dirs json_loads cap joinpath format_value fs ds dirs s w
= (Return s', w') ->
(s' = s /\ w' = w)
\/ exists file ps,
     get_prompts json_loads cap fs file MAX_PROMPTS_PER_SESSION w
     = (Return ps, w')
     /\ s' = set_prompts s ps.
Proof.
induction dirs as [|dir dirs IH]; cbn [scan_project_dirs].
- cbv [ret]. intros [= <- <-]. auto.
- destruct (fs_is_dir ds dir); [|exact IH].
  destruct (fs_exists fs _); [|exact IH].
  unfold bind.
  destruct (get_prompts json_loads cap fs _ MAX_PROMPTS_PER_SESSION w)
    as [[ps|e] w1] eqn:Hg; [|discriminate].
  cbv [ret]. intros [= <- <-]. right. eauto.
Qed.

Lemma load_session_cases (fs : filesystem) (ds : directories)
  (s s' : SessionInfo) (w w' : world) :
load_session json_loads cap PROJECTS_DIR joinpath format_value fs ds s w
= (Return s', w') ->
(s' = s /\ w' = w)
\/ exists file ps,
     get_prompts json_loads cap fs file MAX_PROMPTS_PER_SESSION w
     = (Return ps, w')
     /\ s' = set_prompts s ps.
Proof.
unfold load_session.
destruct (project_path_to_dir_name (project_path s)) as [dir_name|e];
  [|discriminate].
destruct (fs_exists fs _).
- unfold bind.
  destruct (get_prompts json_loads cap fs _ MAX_PROMPTS_PER_SESSION w)
    as [[ps|e] w1] eqn:Hg; [|discriminate].
  cbv [ret]. intros [= <- <-]. right. eauto.
- destruct (fs_iterdir ds PROJECTS_DIR) as [dirs|e]; [|discriminate].
  apply scan_project_dirs_cases.
Qed.

Lemma load_session_shape (fs : filesystem) (ds : directories)
  (s s' : SessionInfo) (w w' : world) :
load_session json_loads cap PROJECTS_DIR joinpath format_value fs ds s w
= (Return s', w') ->
same_session s s'.
Proof.
intros H. apply load_session_cases in H.
destruct H as [[-> _]|(file & ps & _ & ->)]; repeat split.
Qed.

Lemma load_session_bound (fs : filesystem) (ds : directories)
  (s s' : SessionInfo) (w w' : world) :
cache_bounded MAX_PROMPTS_PER_SESSION w ->
len (prompts s) <= MAX_PROMPTS_PER_SESSION ->
load_session json_loads cap PROJECTS_DIR joinpath format_value fs ds s w
= (Return s', w') ->
len (prompts s') <= MAX_PROMPTS_PER_SESSION
/\ cache_bounded MAX_PROMPTS_PER_SESSION w'.
Proof.
intros Hb Hs H. apply load_session_cases in H.
destruct H as [[-> ->]|(file & ps & Hg & ->)]; [auto|].
cbn [prompts set_prompts].
eapply get_prompts_bounded_aux; eauto. unfold MAX_PROMPTS_PER_SESSION. lia.
Qed.

Lemma load_session_list_props (fs : filesystem) (ds : directories)
  (l l' : list SessionInfo) (w w' : world) :
load_session_list json_loads cap PROJECTS_DIR joinpath format_value fs ds
  l w
= (Return l', w') ->
Forall2 same_session l l'
/\ (cache_bounded MAX_PROMPTS_PER_SESSION w ->
    Forall (fun s => len (prompts s) <= MAX_PROMPTS_PER_SESSION) l ->
    Forall (fun s => len (prompts s) <= MAX_PROMPTS_PER_SESSION) l'
    /\ cache_bounded MAX_PROMPTS_PER_SESSION w').
Proof.
revert l' w w'; induction l as [|s l IH]; intros l' w w';
  cbn [load_session_list].
- cbv [ret]. intros [= <- <-]. split; [constructor|auto].
- unfold bind at 1.
  destruct (load_session json_loads cap PROJECTS_DIR joinpath format_value
              fs ds s w) as [[s1|e] w1] eqn:Hs; [|discriminate].
  unfold bind at 1.
  destruct (load_session_list json_loads cap PROJECTS_DIR joinpath
              format_value fs ds l w1) as [[l1|e] w2] eqn:Hl;
    [|discriminate].
  cbv [ret]. intros [= <- <-].
  destruct (IH _ _ _ Hl) as [Hshape Hbound].
  split.
  + constructor; [eapply load_session_shape; eauto|exact Hshape].
  + intros Hb Hall. apply Forall_cons in Hall. destruct Hall as [H1 Hall].
    destruct (load_session_bound _ _ _ _ _ _ Hb H1 Hs) as [H1' Hb1].
    destruct (Hbound Hb1 Hall) as [Hall' Hb2].
    split; [constructor; auto|exact Hb2].
Qed.

Lemma load_session_prompts_props (fs : filesystem) (ds : directories)
  (sessions sessions' : pydict (list SessionInfo)) (w w' : world) :
load_session_prompts json_loads cap PROJECTS_DIR joinpath format_value fs
  ds sessions w
= (Return sessions', w') ->
Forall2 same_groups sessions sessions'
/\ (cache_bounded MAX_PROMPTS_PER_SESSION w ->
    prompts_bounded MAX_PROMPTS_PER_SESSION sessions ->
    prompts_bounded MAX_PROMPTS_PER_SESSION sessions'
    /\ cache_bounded MAX_PROMPTS_PER_SESSION w').
Proof.
revert sessions' w w'; induction sessions as [|[k l] sessions IH];
  intros sessions' w w'; cbn [load_session_prompts].
- cbv [ret]. intros [= <- <-]. split; [constructor|].
  intros; split; [constructor|auto].
- unfold bind at 1.
  destruct (load_session_list json_loads cap PROJECTS_DIR joinpath
              format_value fs ds l w) as [[l1|e] w1] eqn:Hl;
    [|discriminate].
  unfold bind at 1.
  destruct (load_session_prompts json_loads cap PROJECTS_DIR joinpath
              format_value fs ds sessions w1) as [[r1|e] w2] eqn:Hr;
    [|discriminate].
  cbv [ret]. intros [= <- <-].
  destruct (load_session_list_props _ _ _ _ _ _ Hl) as [Hshape Hbound].
  destruct (IH _ _ _ Hr) as [Hshape' Hbound'].
  split.
  + constructor; [split; [reflexivity|exact Hshape]|exact Hshape'].
  + intros Hb Hall. unfold prompts_bounded in *.
    apply Forall_cons in Hall. destruct Hall as [H1 Hall].
    destruct (Hbound Hb H1) as [H1' Hb1].
    destruct (Hbound' Hb1 Hall) as [Hall' Hb2].
    split; [constructor; auto|exact Hb2].
Qed.

(** X25: [load_session_prompts] changes nothing but prompts: the mapping
  it returns has the same projects in the same order, and under each
  the same sessions in the same order with their ids, project paths
  and timestamps. *)
Theorem load_keeps_sessions (fs : filesystem) (ds : directories)
  (sessions sessions' : pydict (list SessionInfo)) (w w' : world) :
load_session_prompts json_loads cap PROJECTS_DIR joinpath format_value fs
  ds sessions w
= (Return sessions', w') ->
Forall2 same_groups sessions sessions'.
Proof. intros H. now apply load_session_prompts_props in H. Qed.

(** X26: if no list in the cache and no session of the mapping has more
  than three prompts, then after [load_session_prompts] no session has
  more than three prompts, and the cache keeps its bound. *)
Theorem load_at_most_three_prompts (fs : filesystem) (ds : directories)
  (sessions sessions' : pydict (list SessionInfo)) (w w' : world) :
cache_bounded MAX_PROMPTS_PER_SESSION w ->
prompts_bounded MAX_PROMPTS_PER_SESSION sessions ->
load_session_prompts json_loads cap PROJECTS_DIR joinpath format_value fs
  ds sessions w
= (Return sessions', w') ->
prompts_bounded MAX_PROMPTS_PER_SESSION sessions'
/\ cache_bounded MAX_PROMPTS_PER_SESSION w'.
Proof.
intros Hb Hs H. apply load_session_prompts_props in H. now apply H.
Qed.

(** X27: for the first session of the mapping, a project path that is
  not a string raises an [AttributeError]; and when the file derived
  from the project path does not exist and listing the projects folder
  raises, that exception leaves [load_session_prompts]: nothing is
  cached, logged or opened, and no mapping is returned. *)
Theorem load_first_session_raises (fs : filesystem) (ds : directories)
  (project : pyval) (session : SessionInfo) (rest : list SessionInfo)
  (groups : pydict (list SessionInfo)) (w : world) :
(is_str (project_path session) = false ->
 load_session_prompts json_loads cap PROJECTS_DIR joinpath format_value fs
   ds ((project, session :: rest) :: groups) w
 = (Raise AttributeError, w))
/\ (forall p e,
       project_path session = PStr p ->
       fs_exists fs
         (joinpath (joinpath PROJECTS_DIR (dir_name_of p))
            (session_file_name format_value session)) = false ->
       fs_iterdir ds PROJECTS_DIR = Raise e ->
       load_session_prompts json_loads cap PROJECTS_DIR joinpath
         format_value fs ds ((project, session :: rest) :: groups) w
       = (Raise e, w)).
Proof.
split.
- intros Hs. cbn [load_session_prompts load_session_list].
  unfold bind at 1. unfold bind at 1. unfold load_session.
  destruct (project_path session); try discriminate; reflexivity.
- intros p e Hp Hex Hit. cbn [load_session_prompts load_session_list].
  unfold bind at 1. unfold bind at 1. unfold load_session.
  rewrite Hp. cbn [project_path_to_dir_name]. rewrite Hex, Hit.
  reflexivity.
Qed.

End LoaderTheory.

Lemma alpha_mapping_loaded :
  load_session_prompts Json.loads 300 projects_dir join_part format_text
    (two_projects 5) project_dirs alpha_mapping empty_world
  = (Return alpha_loaded,
     (load_session_prompts Json.loads 300 projects_dir join_part format_text
        (two_projects 5) project_dirs alpha_mapping empty_world).2).
Proof.
  rewrite (surjective_pairing (load_session_prompts _ _ _ _ _ _ _ _ _)) at 1.
  f_equal; vm_compute; reflexivity.
Qed.

Lemma load_keeps_sessions_witness : Forall2 same_groups alpha_mapping alpha_loaded.
Proof.
  exact (load_keeps_sessions Json.loads 300 projects_dir join_part format_text
           _ _ _ _ _ _ alpha_mapping_loaded).
Defined.

Lemma load_at_most_three_prompts_witness :
  cache_bounded MAX_PROMPTS_PER_SESSION empty_world
  /\ prompts_bounded MAX_PROMPTS_PER_SESSION alpha_mapping
  /\ prompts_bounded MAX_PROMPTS_PER_SESSION alpha_loaded.
Proof.
  assert (H0 : cache_bounded MAX_PROMPTS_PER_SESSION empty_world).
  { intros k m ps H. cbn in H. now rewrite lookup_empty in H. }
  assert (H1 : prompts_bounded MAX_PROMPTS_PER_SESSION alpha_mapping).
  { repeat constructor. vm_compute. discriminate. }
  split; [exact H0|]. split; [exact H1|].
  exact (proj1 (load_at_most_three_prompts Json.loads 300 projects_dir
                  join_part format_text _ _ _ _ _ _ H0 H1
                  alpha_mapping_loaded)).
Defined.

Lemma load_first_session_raises_witness :
  load_session_prompts Json.loads 300 projects_dir join_part format_text
    (files_fs []) no_project_dirs alpha_mapping empty_world
  = (Raise OSError, empty_world).
Proof.
  eapply (proj2 (load_first_session_raises Json.loads 300 projects_dir
                   join_part format_text (files_fs []) no_project_dirs _ _ []
                   [] empty_world)).
  - reflexivity.
  - vm_compute. reflexivity.
  - reflexivity.
Defined.

(** ** The scanner's effects, and the scanner followed by the loader *)

Section PipelineTheory.

Variable json_loads : str -> outcome pyval.
Variable cap : Z.
Variable HISTORY_FILE : Path.
Variable fromtimestamp_ms : Z + pyfloat -> outcome datetime.
Variable PROJECTS_DIR : Path.
Variable joinpath : Path -> str -> Path.
Variable format_value : pyval -> str.

Lemma read_history_frame (today : date) (fs : filesystem) (w w' : world)
  (r : outcome (pydict SessionInfo)) :
read_history json_loads HISTORY_FILE fromtimestamp_ms today fs w = (r, w') ->
cache w' = cache w
/\ opened w' = opened w ++ [HISTORY_FILE]
/\ (log w' = log w
    \/ exists e, is_OSError e = true
                 /\ log w' = log w ++ [LogError (FailedToReadHistory e)]).
Proof.
unfold read_history, bind, note_open.
destruct (fs_open fs HISTORY_FILE) as [f|e].
- destruct (scan_history json_loads fromtimestamp_ms today f [])
    as [all [e|]].
  + destruct (is_OSError e) eqn:He; cbv [emit ret raise bind];
      intros [= <- <-]; simpl; eauto 6.
  + cbv [ret]. intros [= <- <-]; simpl; auto.
- destruct (is_OSError e) eqn:He; cbv [emit ret raise bind];
    intros [= <- <-]; simpl; eauto 6.
Qed.

Lemma get_today_sessions_frame (today : date) (fs : filesystem)
  (w w' : world) (r : outcome (pydict (list SessionInfo))) :
get_today_sessions json_loads HISTORY_FILE fromtimestamp_ms today fs w
= (r, w') ->
cache w' = cache w
/\ ((fs_exists fs HISTORY_FILE = false
     /\ r = Return []
     /\ opened w' = opened w
     /\ log w' = log w ++ [LogWarning (HistoryFileNotFound HISTORY_FILE)])
    \/ (fs_exists fs HISTORY_FILE = true
        /\ opened w' = opened w ++ [HISTORY_FILE]
        /\ (log w' = log w
            \/ exists e,
                 is_OSError e = true
                 /\ log w' = log w ++ [LogError (FailedToReadHistory e)]))).
Proof.
unfold get_today_sessions.
destruct (fs_exists fs HISTORY_FILE); cbn [negb].
- unfold bind at 1.
  destruct (read_history json_loads HISTORY_FILE fromtimestamp_ms today fs w)
    as [[all|e] w1] eqn:Hr; apply read_history_frame in Hr;
    destruct Hr as (Hc & Ho & Hl).
  + destruct (group_by_project (pd_values all) []); cbv [ret raise];
      intros [= <- <-]; auto.
  + intros [= <- <-]; auto.
- cbv [emit ret bind]. intros [= <- <-]. simpl. auto 10.
Qed.

(** X28: [get_today_sessions] never changes the prompt cache.  When the
  history file does not exist it returns the empty mapping, logs one
  warning and opens nothing; otherwise it opens the history file, and
  only that file, and logs at most one error, about an [OSError]. *)
Theorem get_today_sessions_effects (today : date) (fs : filesystem)
  (w w' : world) (r : outcome (pydict (list SessionInfo))) :
get_today_sessions json_loads HISTORY_FILE fromtimestamp_ms today fs w
= (r, w') ->
cache w' = cache w
/\ ((fs_exists fs HISTORY_FILE = false
     /\ r = Return []
     /\ opened w' = opened w
     /\ log w' = log w ++ [LogWarning (HistoryFileNotFound HISTORY_FILE)])
    \/ (fs_exists fs HISTORY_FILE = true
        /\ opened w' = opened w ++ [HISTORY_FILE]
        /\ (log w' = log w
            \/ exists e,
                 is_OSError e = true
                 /\ log w' = log w ++ [LogError (FailedToReadHistory e)]))).
Proof. apply get_today_sessions_frame. Qed.

Lemma Forall2_same_session_props (today : date) (l l' : list SessionInfo) :
Forall2 same_session l l' ->
Forall (fun s => date_of (last_updated s) = today) l ->
StronglySorted not_older l ->
length l' = length l
/\ Forall (fun s => date_of (last_updated s) = today) l'
/\ StronglySorted not_older l'.
Proof.
induction 1 as [|s s' l l' (_ & _ & Hs) Hl IH]; intros Hd Hsorted.
- repeat split; constructor.
- apply Forall_cons in Hd. destruct Hd as [Hd1 Hd].
  apply StronglySorted_inv in Hsorted. destruct Hsorted as [Hsorted Hhd].
  destruct (IH Hd Hsorted) as (Hlen & Hd' & Hs').
  split; [cbn; congruence|]. split.
  + constructor; [congruence|exact Hd'].
  + constructor; [exact Hs'|].
    clear -Hs Hl Hhd. induction Hl as [|t t' l l' (_ & _ & Ht) Hl IH].
    * constructor.
    * apply Forall_cons in Hhd. destruct Hhd as [H1 Hhd].
      constructor; [|now apply IH].
      unfold not_older in *. now rewrite Hs, Ht.
Qed.

(** X29: the scanner followed by the loader, as [update_workspace_status]
  runs them.  If every list in the cache has at most three prompts, the
  mapping passed on to the renderer has, under each project, at most
  three sessions, all of today and newest first, each with at most
  three prompts; and the cache keeps its bound. *)
Theorem scan_and_load_bounds (today : date) (fs : filesystem)
  (ds : directories) (w w1 w2 : world)
  (groups loaded : pydict (list SessionInfo)) :
cache_bounded MAX_PROMPTS_PER_SESSION w ->
get_today_sessions json_loads HISTORY_FILE fromtimestamp_ms today fs w
= (Return groups, w1) ->
load_session_prompts json_loads cap PROJECTS_DIR joinpath format_value fs
  ds groups w1
= (Return loaded, w2) ->
cache_bounded MAX_PROMPTS_PER_SESSION w2
/\ forall project l,
     (project, l) ∈ loaded ->
     (length l <= 3)%nat
     /\ StronglySorted not_older l
     /\ Forall (fun s => date_of (last_updated s) = today
                         /\ len (prompts s) <= 3) l.
Proof.
intros Hb Hg Hload.
pose proof (get_today_sessions_frame _ _ _ _ _ Hg) as [Hc _].
assert (Hb1 : cache_bounded MAX_PROMPTS_PER_SESSION w1).
{ intros k m ps. rewrite Hc. apply Hb. }
(* the groups of the scanner *)
assert (Hgroups : forall project l,
           (project, l) ∈ groups ->
           (length l <= 3)%nat
           /\ StronglySorted not_older l
           /\ Forall (fun s => date_of (last_updated s) = today
                               /\ prompts s = []) l).
{ apply get_today_sessions_returns in Hg.
  destruct Hg as [[_ ->]|(all & groups0 & Hr & Hgr & ->)].
  { intros ? ? H. now apply elem_of_nil in H. }
  pose proof (read_history_dates _ _ _ _ _ _ _ _ Hr) as Hdates.
  apply read_history_built in Hr. destruct Hr as [_ Hfresh].
  intros project l Hin. apply cap_groups_elem in Hin.
  destruct Hin as (l0 & Hin0 & ->).
  split; [rewrite length_take; unfold MAX_SESSIONS_PER_PROJECT; lia|].
  split; [apply StronglySorted_take, sort_newest_first_sorted|].
  apply Forall_forall. intros s Hs.
  apply elem_of_take in Hs. destruct Hs as (i & Hs & _).
  apply list_elem_of_lookup_2 in Hs. rewrite sort_newest_first_perm in Hs.
  destruct (group_by_project_elem _ _ _ Hgr _ _ _ Hin0 Hs)
    as [Hv|(p0 & l1 & Hnil & _)]; [|now apply elem_of_nil in Hnil].
  unfold pd_values in Hv. apply list_elem_of_fmap in Hv.
  destruct Hv as ([k s0] & -> & Hks). split; eauto. }
assert (Hpb : prompts_bounded MAX_PROMPTS_PER_SESSION groups).
{ apply Forall_forall. intros [project l] Hin.
  destruct (Hgroups _ _ Hin) as (_ & _ & Hf).
  eapply Forall_impl; [exact Hf|]. cbn. intros s [_ ->].
  unfold len, MAX_PROMPTS_PER_SESSION. simpl. lia. }
destruct (load_session_prompts_props _ _ _ _ _ _ _ _ _ _ _ Hload)
  as [Hshape Hbound].
destruct (Hbound Hb1 Hpb) as [Hpb' Hb2].
split; [exact Hb2|].
intros project l Hin.
apply list_elem_of_lookup in Hin. destruct Hin as [i Hi].
destruct (Forall2_lookup_r _ _ _ _ _ Hshape Hi)
  as ([project0 l0] & Hi0 & Hk & Hsame).
cbn [fst snd] in Hk, Hsame. subst project0.
apply list_elem_of_lookup_2 in Hi0.
destruct (Hgroups _ _ Hi0) as (Hlen & Hsorted & Hf).
assert (Hd : Forall (fun s => date_of (last_updated s) = today) l0)
  by (eapply Forall_impl; [exact Hf|]; cbn; tauto).
destruct (Forall2_same_session_props today _ _ Hsame Hd Hsorted)
  as (Hlen' & Hd' & Hsorted').
split; [lia|]. split; [exact Hsorted'|].
apply list_elem_of_lookup_2 in Hi.
unfold prompts_bounded in Hpb'. rewrite Forall_forall in Hpb'.
specialize (Hpb' _ Hi). cbn [snd] in Hpb'.
rewrite Forall_forall in Hd', Hpb'. apply Forall_forall.
intros s Hs. split; [now apply Hd'|now apply Hpb'].
Qed.

End PipelineTheory.

Lemma get_today_sessions_effects_witness :
  cache (after_open history_path empty_world) = cache empty_world
  /\ ((fs_exists history_fs history_path = false
       /\ Return history_groups = Return []
       /\ opened (after_open history_path empty_world) = opened empty_world
       /\ log (after_open history_path empty_world)
          = log empty_world ++ [LogWarning (HistoryFileNotFound history_path)])
      \/ (fs_exists history_fs history_path = true
          /\ opened (after_open history_path empty_world)
             = opened empty_world ++ [history_path]
          /\ (log (after_open history_path empty_world) = log empty_world
              \/ exists e,
                   is_OSError e = true
                   /\ log (after_open history_path empty_world)
                      = log empty_world ++ [LogError (FailedToReadHistory e)]))).
Proof.
  exact (get_today_sessions_effects Json.loads history_path
           utc_fromtimestamp_ms _ _ _ _ _ history_groups_returned).
Defined.

Lemma scanned_fs_groups :
  get_today_sessions Json.loads history_path utc_fromtimestamp_ms
    (1970, 1, 1)%nat scanned_fs empty_world
  = (Return history_groups, after_open history_path empty_world).
Proof. vm_compute. reflexivity. Qed.

Lemma scanned_fs_loaded :
  load_session_prompts Json.loads 300 projects_dir join_part format_text
    scanned_fs project_dirs history_groups
    (after_open history_path empty_world)
  = (Return scanned_loaded,
     (load_session_prompts Json.loads 300 projects_dir join_part format_text
        scanned_fs project_dirs history_groups
        (after_open history_path empty_world)).2).
Proof.
  rewrite (surjective_pairing (load_session_prompts _ _ _ _ _ _ _ _ _)) at 1.
  f_equal; vm_compute; reflexivity.
Qed.

Lemma scan_and_load_bounds_witness :
  cache_bounded MAX_PROMPTS_PER_SESSION empty_world
  /\ forall project l,
       (project, l) ∈ scanned_loaded ->
       (length l <= 3)%nat
       /\ StronglySorted not_older l
       /\ Forall (fun s => date_of (last_updated s) = (1970, 1, 1)%nat
                           /\ len (prompts s) <= 3) l.
Proof.
  assert (H0 : cache_bounded MAX_PROMPTS_PER_SESSION empty_world).
  { intros k m ps H. cbn in H. now rewrite lookup_empty in H. }
  split; [exact H0|].
  exact (proj2 (scan_and_load_bounds Json.loads 300 history_path
                  utc_fromtimestamp_ms projects_dir join_part format_text
                  _ _ _ _ _ _ _ _ H0 scanned_fs_groups scanned_fs_loaded)).
Defined.

(** ** The tag patterns and their description in words *)

Lemma is_letter_alpha (c : char) : cls_alpha c = is_letter c.
Proof. unfold cls_alpha, is_letter, in_range. apply orb_comm. Qed.

Lemma is_name_char_name (c : char) : cls_name c = is_name_char c.
Proof.
  unfold cls_name, is_name_char, is_letter, in_range.
  now rewrite (orb_comm ((97 <=? c)%N && (c <=? 122)%N)).
Qed.

Lemma skip_while_ext (p q : char -> bool) (s : str) :
  (forall c, p c = q c) -> skip_while p s = skip_while q s.
Proof.
  intros H. induction s as [|c s IH]; [reflexivity|].
  cbn. rewrite <- H, IH. reflexivity.
Qed.

Lemma name_char_not_gt (c : char) :
  cls_name c = true -> char_eqb 62%N c = false.
Proof.
  unfold cls_name, in_range, char_eqb.
  rewrite !orb_true_iff, !andb_true_iff, !N.leb_le, N.eqb_eq.
  intros H. apply N.eqb_neq. lia.
Qed.

Lemma name_char_not_space (c : char) :
  cls_name c = true -> is_space c = false.
Proof.
  unfold cls_name, in_range, char_eqb, is_space.
  rewrite !orb_true_iff, !andb_true_iff, !N.leb_le, N.eqb_eq.
  intros H. apply not_true_iff_false.
  rewrite !orb_true_iff, !andb_true_iff, !N.leb_le, !N.eqb_eq. lia.
Qed.

(** A greedy repetition of a class gives up nothing when what follows
    it cannot start with a character of the class. *)
Lemma star_exec_greedy (p : char -> bool) (s : str) (k : str -> option str) :
  (forall c s', p c = true -> k (c :: s') = None) ->
  star_exec p s k = k (skip_while p s).
Proof.
  intros Hk. induction s as [|c s IH]; [reflexivity|].
  cbn [star_exec skip_while]. destruct (p c) eqn:Hp; [|reflexivity].
  rewrite IH, (Hk c s Hp). now destruct (k (skip_while p s)).
Qed.

Lemma char_eqb_sym (a b : char) : char_eqb a b = char_eqb b a.
Proof. apply N.eqb_sym. Qed.

Lemma char_eqb_true (a b : char) : char_eqb a b = true -> a = b.
Proof. apply N.eqb_eq. Qed.

Lemma not_ahead_closer (v : str) :
  exec (NotAhead (Seq (Lit 60%N) (Lit 47%N))) v Some
  = if starts_closer v then None else Some v.
Proof.
  destruct v as [|a [|b v]]; cbn [exec starts_closer].
  - reflexivity.
  - rewrite (char_eqb_sym 60%N a). now destruct (char_eqb a 60%N).
  - rewrite (char_eqb_sym 60%N a), (char_eqb_sym 47%N b).
    destruct (char_eqb a 60%N); [|reflexivity].
    now destruct (char_eqb b 47%N).
Qed.

Lemma gt_after_attributes (s2 : str) (k : str -> option str) :
  exec (Lit 62%N) (skip_while cls_not_gt s2) k
  = match after_next_gt s2 with
    | Some after => k after
    | None => None
    end.
Proof.
  induction s2 as [|c s2 IH]; [reflexivity|].
  cbn [skip_while after_next_gt]. unfold cls_not_gt at 1.
  destruct (char_eqb c 62%N) eqn:Hc; cbn [negb].
  - cbn [exec]. now rewrite char_eqb_sym, Hc.
  - exact IH.
Qed.

(** The open-tag pattern matches at the head of [s] exactly when [s]
    starts with an open tag in words, and leaves the same rest. *)
Lemma exec_open_tag (s : str) :
  exec open_tag_re s Some = open_tag_words s.
Proof.
  unfold open_tag_re, seq_of, open_tag_words. cbn [foldr].
  destruct s as [|lt [|a s1]]; cbn [exec].
  - reflexivity.
  - now destruct (char_eqb 60%N lt).
  - rewrite (char_eqb_sym 60%N lt).
    destruct (char_eqb lt 60%N); [|reflexivity]. cbn [andb].
    rewrite is_letter_alpha. destruct (is_letter a); [|reflexivity].
    rewrite star_exec_greedy.
    2: { intros c s' Hc. cbn [exec].
         rewrite (name_char_not_space c Hc), (name_char_not_gt c Hc).
         reflexivity. }
    rewrite (skip_while_ext cls_name is_name_char) by apply is_name_char_name.
    destruct (skip_while is_name_char s1) as [|c s2]; [reflexivity|].
    cbn [exec]. rewrite (char_eqb_sym 62%N c).
    destruct (char_eqb c 62%N) eqn:Hc.
    + apply char_eqb_true in Hc. subst c.
      change (is_space 62%N) with false. cbv iota.
      apply not_ahead_closer.
    + destruct (is_space c); [|reflexivity].
      rewrite star_exec_greedy.
      2: { intros c0 s' H0. cbn [exec]. unfold cls_not_gt in H0.
           apply negb_true_iff in H0. now rewrite char_eqb_sym, H0. }
      change (match
                exec (Lit 62%N) (skip_while cls_not_gt s2)
                  (fun v => exec (NotAhead (Seq (Lit 60%N) (Lit 47%N))) v Some)
              with
              | Some r => Some r
              | None => None
              end
              = match after_next_gt s2 with
                | Some after => if starts_closer after then None else Some after
                | None => None
                end).
      rewrite gt_after_attributes.
      destruct (after_next_gt s2) as [after|]; [|reflexivity].
      rewrite not_ahead_closer. now destruct (starts_closer after).
Qed.

(** The close-tag pattern matches at the head of [s] exactly when [s]
    starts with a close tag in words. *)
Lemma exec_close_tag (s : str) :
  exec close_tag_re s Some = close_tag_words s.
Proof.
  unfold close_tag_re, seq_of, close_tag_words. cbn [foldr].
  destruct s as [|lt [|sl [|a s1]]]; cbn [exec].
  - reflexivity.
  - now destruct (char_eqb 60%N lt).
  - destruct (char_eqb 60%N lt); [|reflexivity].
    now destruct (char_eqb 47%N sl).
  - rewrite (char_eqb_sym 60%N lt), (char_eqb_sym 47%N sl).
    destruct (char_eqb lt 60%N); [|reflexivity].
    destruct (char_eqb sl 47%N); [|reflexivity]. cbn [andb].
    rewrite is_letter_alpha. destruct (is_letter a); [|reflexivity].
    rewrite star_exec_greedy.
    2: { intros c s' Hc. cbn [exec]. now rewrite (name_char_not_gt c Hc). }
    rewrite (skip_while_ext cls_name is_name_char) by apply is_name_char_name.
    destruct (skip_while is_name_char s1) as [|c after]; [reflexivity|].
    cbn [exec]. now rewrite (char_eqb_sym 62%N c).
Qed.

(** [re.findall] finds as many matches as there are tags in words. *)
Lemma findall_count (r : regex) (tag : str -> option str) (s : str)
    (skip : nat) :
  (forall t, exec r t Some = tag t) ->
  length (findall_from r s skip) = count_tags tag s skip.
Proof.
  intros Hr. revert skip.
  induction s as [|c s IH]; intros skip; [reflexivity|].
  cbn [findall_from count_tags]. destruct skip as [|n]; [|apply IH].
  unfold match_here. rewrite Hr.
  destruct (tag (c :: s)) as [after|]; [|apply IH].
  cbn [length]. now rewrite IH.
Qed.

Lemma open_tags_count (content : str) :
  length (findall open_tag_re content) = open_tags_words content.
Proof. apply findall_count, exec_open_tag. Qed.

Lemma close_tags_count (content : str) :
  length (findall close_tag_re content) = close_tags_words content.
Proof. apply findall_count, exec_close_tag. Qed.

(** C3, amended: the filter counts, from left to right and without
    overlap, the open tags and the close tags of the trimmed content.  An
    open tag is [<], a tag name (a letter, then letters, digits and
    hyphens), optionally one whitespace character followed by any
    characters up to the next [>], then [>], and it is not counted when
    [</] follows it immediately, whatever the closer; a close tag is
    [</], a tag name and [>].  The two patterns of the program find
    exactly these tags in every content.  A line is accepted only when
    the two counts are equal, and a line whose content has different
    counts is rejected.  So [<br />] counts as an open tag and [<br/>]
    does not; [<note>unterminated] is rejected and [<note>x</note>] is
    accepted. *)
Theorem accepted_tags_balanced :
  (forall content,
      length (findall open_tag_re content) = open_tags_words content
      /\ length (findall close_tag_re content) = close_tags_words content)
  /\ (forall json_loads cap line p,
         parse_user_message json_loads cap line = Return (Some p) ->
         exists d m content,
           json_loads line = Return (PDict d)
           /\ field "message" d = PDict m
           /\ field "content" m = PStr content
           /\ open_tags_words (strip content)
              = close_tags_words (strip content))
  /\ (forall json_loads cap line d m content,
         json_loads line = Return (PDict d) ->
         field "message" d = PDict m ->
         field "content" m = PStr content ->
         open_tags_words (strip content) <> close_tags_words (strip content) ->
         parse_user_message json_loads cap line = Return None)
  /\ (open_tags_words (py "<br />") = 1%nat
      /\ open_tags_words (py "<br/>") = 0%nat
      /\ open_tags_words (py "<a></b>") = 0%nat
      /\ open_tags_words (py "<a-1 href='x'>text") = 1%nat
      /\ open_tags_words (py "<1a> <a_b> < a> <a") = 0%nat
      /\ close_tags_words (py "</b></a-1>") = 2%nat
      /\ close_tags_words (py "</ b> </b > </1>") = 0%nat)
  /\ parse_user_message Json.loads 300 (user_line "<note>unterminated")
     = Return None
  /\ parse_user_message Json.loads 300 (user_line "<note>x</note>")
     = Return (Some (py "<note>x</note>")).
Proof.
  assert (Hacc : forall json_loads cap line p,
             parse_user_message json_loads cap line = Return (Some p) ->
             exists d m content,
               json_loads line = Return (PDict d)
               /\ field "message" d = PDict m
               /\ field "content" m = PStr content
               /\ open_tags_words (strip content)
                  = close_tags_words (strip content)).
  { intros json_loads cap line p H.
    apply parse_user_message_accepts in H.
    destruct H as (d & m & c & Hl & _ & _ & Hm & _ & _ & Hc & Hf).
    apply filter_content_accepts in Hf. destruct Hf as (_ & _ & Hn & _).
    rewrite open_tags_count, close_tags_count in Hn.
    exists d, m, c. auto. }
  split; [|split; [exact Hacc|split; [|split]]].
  - intros content. split; [apply open_tags_count|apply close_tags_count].
  - intros json_loads cap line d m content Hl Hm Hc Hn.
    destruct (parse_user_message json_loads cap line) as [[p|]|e] eqn:Hp.
    + destruct (Hacc _ _ _ _ Hp) as (d' & m' & c' & Hl' & Hm' & Hc' & He).
      rewrite Hl in Hl'. injection Hl' as <-.
      rewrite Hm in Hm'. injection Hm' as <-.
      rewrite Hc in Hc'. injection Hc' as <-. contradiction.
    + reflexivity.
    + unfold parse_user_message in Hp. rewrite Hl in Hp.
      destruct (filter_record_dict_returns cap d) as [r Hr]. congruence.
  - vm_compute. auto 10.
  - vm_compute. auto.
Qed.

Lemma accepted_tags_balanced_witness :
  exists d m content,
    Json.loads (user_line "<note>x</note>") = Return (PDict d)
    /\ field "message" d = PDict m
    /\ field "content" m = PStr content
    /\ open_tags_words (strip content) = close_tags_words (strip content).
Proof.
  apply (proj1 (proj2 accepted_tags_balanced) Json.loads 300
           (user_line "<note>x</note>") (py "<note>x</note>")).
  vm_compute. reflexivity.
Defined.

(** ** The extractor and files that cannot be read *)

(** C9, as the claim states it, fails: a file whose second read raises
    cannot be read.  When the exception is an [OSError] the extractor
    returns the prompt of the first line, not the empty list; when it is
    a [UnicodeDecodeError] the extractor raises it and logs no
    warning. *)
Lemma unreadable_file_partial_result :
  (extract_prompts_from_session Json.loads 300 (broken_fs OSError) session_a 3
     empty_world
   = (Return [py "one"], after_warning session_a OSError empty_world)
   /\ [py "one"] <> @nil str)
  /\ extract_prompts_from_session Json.loads 300
       (broken_fs UnicodeDecodeError) session_a 3 empty_world
     = (Raise UnicodeDecodeError, after_open session_a empty_world).
Proof.
  split; [split; [vm_compute; reflexivity|discriminate]|].
  vm_compute. reflexivity.
Qed.

Section UnreadableFile.

Variable json_loads : str -> outcome pyval.
Variable cap : Z.

(** C9, amended: when opening a session file, or a read from it before
  [N] prompts are collected, raises an [OSError], the extractor returns
  the prompts accepted on the lines read before the failure, which is
  the empty list when the file cannot be opened or its first read
  fails, and logs one warning; the call returns, the cache is as it
  was and no other file is touched. *)
Theorem extract_unreadable_file (fs : filesystem) (p : Path) (N : Z)
  (w : world) (e : exn) :
is_OSError e = true ->
(fs_open fs p = Raise e ->
 extract_prompts_from_session json_loads cap fs p N w
 = (Return [], after_warning p e w))
/\ (fs_open fs p = Return (ReadError e) ->
    extract_prompts_from_session json_loads cap fs p N w
    = (Return [], after_warning p e w))
/\ (forall pre,
       fs_open fs p = Return (prepend pre (ReadError e)) ->
       Forall (filter_returns json_loads cap) pre ->
       len (accepted json_loads cap pre) < N ->
       extract_prompts_from_session json_loads cap fs p N w
       = (Return (accepted json_loads cap pre), after_warning p e w))
/\ cache (after_warning p e w) = cache w
/\ opened (after_warning p e w) = opened w ++ [p].
Proof.
intros He. split; [|split; [|split; [|split; reflexivity]]].
- intros Ho. unfold extract_prompts_from_session, bind, note_open.
  rewrite Ho, He. reflexivity.
- intros Ho. unfold extract_prompts_from_session, bind, note_open.
  rewrite Ho. cbn [read_prompts]. rewrite He. reflexivity.
- intros pre Ho Hpre Hlen.
  unfold extract_prompts_from_session, bind, note_open.
  rewrite Ho, read_prompts_prefix by auto.
  cbn [read_prompts app]. rewrite He. reflexivity.
Qed.

End UnreadableFile.

Lemma extract_unreadable_file_witness :
  is_OSError OSError = true
  /\ extract_prompts_from_session Json.loads 300 (files_fs []) session_a 3
       empty_world
     = (Return [], after_warning session_a OSError empty_world)
  /\ extract_prompts_from_session Json.loads 300 (broken_fs OSError)
       session_a 3 empty_world
     = (Return (accepted Json.loads 300 [user_line "one"]),
        after_warning session_a OSError empty_world).
Proof.
  pose proof (extract_unreadable_file Json.loads 300 (files_fs []) session_a 3
                empty_world OSError eq_refl) as (H1 & _).
  pose proof (extract_unreadable_file Json.loads 300 (broken_fs OSError)
                session_a 3 empty_world OSError eq_refl) as (_ & _ & H3 & _).
  split; [reflexivity|]. split.
  - apply H1. reflexivity.
  - apply (H3 [user_line "one"]).
    + reflexivity.
    + repeat constructor. eexists. vm_compute. reflexivity.
    + vm_compute. reflexivity.
Defined.

(** ** [format_markdown] on equal mappings *)

Lemma insert_by_map {A} (before : A -> A -> bool) (g : A -> A) (x : A)
    (l : list A) :
  (forall y x, before (g y) (g x) = before y x) ->
  insert_by before (g x) (map g l) = map g (insert_by before x l).
Proof.
  intros Hg. induction l as [|y l IH]; [reflexivity|].
  cbn [map insert_by]. rewrite Hg. destruct (before y x); [|reflexivity].
  cbn [map]. now rewrite IH.
Qed.

Lemma stable_sort_map {A} (before : A -> A -> bool) (g : A -> A)
    (l : list A) :
  (forall y x, before (g y) (g x) = before y x) ->
  stable_sort before (map g l) = map g (stable_sort before l).
Proof.
  intros Hg. unfold stable_sort.
  induction l as [|x l IH]; [reflexivity|].
  cbn [map foldr]. rewrite IH. now apply insert_by_map.
Qed.

Section RenderEqual.

Variable str_lower : str -> str.

Lemma session_lines_shown (s : SessionInfo) :
session_lines (shown s) = session_lines s.
Proof. reflexivity. Qed.

Lemma project_lines_shown (item : str * list SessionInfo) :
project_lines (item.1, map shown item.2) = project_lines item.
Proof.
unfold project_lines. cbn [fst snd]. f_equal. f_equal.
rewrite map_map. apply map_ext, session_lines_shown.
Qed.

Lemma lowered_keys_shown (sessions : pydict (list SessionInfo)) :
lowered_keys str_lower (shown_items sessions)
= lowered_keys str_lower sessions.
Proof.
unfold lowered_keys, shown_items. rewrite map_map. apply map_ext.
intros [k l]. unfold keyed_item. cbn [fst snd]. now destruct k.
Qed.

Lemma is_str_keys_shown (sessions : pydict (list SessionInfo)) :
Forall (fun item => is_str item.1 = true) sessions ->
Forall (fun item => is_str item.1 = true) (shown_items sessions).
Proof.
intros H. unfold shown_items. apply Forall_fmap.
eapply Forall_impl; [exact H|]. now intros [k l].
Qed.

(** The document reads nothing of a session but its time and its
  prompts. *)
Lemma format_markdown_shown (now : datetime)
  (sessions : pydict (list SessionInfo)) :
format_markdown str_lower now (shown_items sessions)
= format_markdown str_lower now sessions.
Proof.
unfold format_markdown. f_equal.
destruct sessions as [|item sessions]; [reflexivity|].
unfold body_lines.
change (shown_items (item :: sessions))
  with ((item.1, map shown item.2) :: shown_items sessions).
destruct (decide (Forall (fun item => is_str item.1 = true)
                    (item :: sessions))) as [Hs|Hs].
- rewrite (with_sort_keys_str str_lower (item :: sessions)) by exact Hs.
  change ((item.1, map shown item.2) :: shown_items sessions)
    with (shown_items (item :: sessions)).
  rewrite (with_sort_keys_str str_lower (shown_items (item :: sessions)))
    by now apply is_str_keys_shown.
  cbn [obind]. f_equal.
  set (g := fun x : str * (str * list SessionInfo) =>
              (x.1, (x.2.1, map shown x.2.2))).
  assert (Hk : map (keyed_item str_lower) (shown_items (item :: sessions))
               = map g (map (keyed_item str_lower) (item :: sessions))).
  { unfold shown_items. rewrite !map_map. apply map_ext.
    intros [k l]. unfold keyed_item, g. cbn [fst snd]. now destruct k. }
  rewrite Hk, stable_sort_map by reflexivity.
  rewrite !map_map. f_equal. apply map_ext.
  intros x. unfold g. cbn [snd]. apply (project_lines_shown x.2).
- apply not_Forall_Exists in Hs; [|intros x; apply _].
  assert (He : Exists (fun item => is_str item.1 = false) (item :: sessions)).
  { eapply Exists_impl; [exact Hs|]. intros x Hx. cbn in Hx.
    now destruct (is_str x.1). }
  rewrite (with_sort_keys_not_str str_lower (item :: sessions)) by exact He.
  change ((item.1, map shown item.2) :: shown_items sessions)
    with (shown_items (item :: sessions)).
  rewrite (with_sort_keys_not_str str_lower (shown_items (item :: sessions))).
  + reflexivity.
  + unfold shown_items. apply Exists_fmap.
    eapply Exists_impl; [exact He|]. now intros [k l].
Qed.

(** With distinct sort keys the document does not depend on the order
  of the items. *)
Lemma format_markdown_perm (now : datetime)
  (sessions sessions' : pydict (list SessionInfo)) :
NoDup (lowered_keys str_lower sessions) ->
sessions ≡ₚ sessions' ->
format_markdown str_lower now sessions'
= format_markdown str_lower now sessions.
Proof.
intros Hnd Hp. unfold format_markdown. f_equal. unfold body_lines.
destruct sessions as [|i s], sessions' as [|i' s'].
- reflexivity.
- now apply Permutation_nil_l in Hp.
- now apply Permutation_nil_r in Hp.
- destruct (decide (Forall (fun item => is_str item.1 = true) (i :: s)))
    as [Hs|Hs].
  + assert (Hs' : Forall (fun item => is_str item.1 = true) (i' :: s'))
      by now rewrite <- Hp.
    rewrite !with_sort_keys_str by assumption. cbn [obind].
    rewrite (stable_sort_key_unique (map (keyed_item str_lower) (i :: s))
               (map (keyed_item str_lower) (i' :: s'))); auto.
    * unfold lowered_keys in Hnd. now rewrite map_map.
    * now apply Permutation_map.
  + apply not_Forall_Exists in Hs; [|intros x; apply _].
    assert (He : Exists (fun item => is_str item.1 = false) (i :: s)).
    { eapply Exists_impl; [exact Hs|]. intros x Hx. cbn in Hx.
      now destruct (is_str x.1). }
    assert (He' : Exists (fun item => is_str item.1 = false) (i' :: s'))
      by now rewrite <- Hp.
    now rewrite !with_sort_keys_not_str.
Qed.

Lemma format_markdown_equal (now : datetime)
  (sessions sessions' : pydict (list SessionInfo)) :
equal_mappings sessions sessions' ->
NoDup (lowered_keys str_lower sessions) ->
format_markdown str_lower now sessions'
= format_markdown str_lower now sessions.
Proof.
intros He Hnd.
rewrite <- (format_markdown_shown now sessions').
rewrite <- (format_markdown_shown now sessions).
apply format_markdown_perm; [|exact He].
now rewrite lowered_keys_shown.
Qed.

(** The clock is read for the header only, to the second. *)
Lemma format_markdown_clock (sessions : pydict (list SessionInfo)) :
(exists e, forall now, format_markdown str_lower now sessions = Raise e)
\/ (exists after, forall now,
       format_markdown str_lower now sessions
       = Return (py "# 🔄 作業状況" ++ newline ++ newline
                 ++ py "*最終更新: " ++ strftime_full now ++ after)).
Proof.
unfold format_markdown, header_lines.
destruct (body_lines str_lower sessions) as [body|e]; [right|left; eauto].
exists (py "*" ++ newline
        ++ match body with
           | [] => []
           | _ => newline ++ join newline body
           end).
intros now. unfold obind. rewrite join_header.
now rewrite <- !app_assoc.
Qed.

End RenderEqual.

(** C2, amended: the document is a function of the mapping and of the
    wall-clock time of the call, read to the second.  For two mappings
    that are equal as dictionaries, with the same project keys in
    whatever insertion order and under each the same sessions carrying
    the same prompts and timestamps, and in which no two project keys
    are equal once lower-cased: calls in the same clock second give the
    same result, and all calls give either the same exception or
    documents that are identical except for the time written after the
    header's last-updated label.  The condition on the keys is needed:
    projects whose names differ in case only are written in the order
    of their insertion, so that two equal mappings render differently
    at the same time. *)
Theorem render_function_of_input_and_clock :
  (forall (str_lower : str -> str)
          (sessions sessions' : pydict (list SessionInfo)),
      equal_mappings sessions sessions' ->
      NoDup (lowered_keys str_lower sessions) ->
      (forall now1 now2,
          strftime_full now1 = strftime_full now2 ->
          format_markdown str_lower now1 sessions
          = format_markdown str_lower now2 sessions')
      /\ ((exists e, forall now,
              format_markdown str_lower now sessions = Raise e
              /\ format_markdown str_lower now sessions' = Raise e)
          \/ (exists after, forall now,
                 format_markdown str_lower now sessions
                 = Return (py "# 🔄 作業状況" ++ newline ++ newline
                           ++ py "*最終更新: " ++ strftime_full now ++ after)
                 /\ format_markdown str_lower now sessions'
                    = Return (py "# 🔄 作業状況" ++ newline ++ newline
                              ++ py "*最終更新: " ++ strftime_full now
                              ++ after))))
  /\ equal_mappings case_mapping case_mapping_swapped
  /\ format_markdown ascii_lower noon case_mapping
     <> format_markdown ascii_lower noon case_mapping_swapped.
Proof.
  split; [|split].
  - intros str_lower sessions sessions' He Hnd.
    pose proof (fun now => format_markdown_equal str_lower now _ _ He Hnd)
      as Heq.
    split.
    + intros now1 now2 Hnow. rewrite Heq.
      unfold format_markdown, header_lines. now rewrite Hnow.
    + destruct (format_markdown_clock str_lower sessions)
        as [[e H]|[after H]]; [left; exists e|right; exists after];
        intros now; rewrite Heq; auto.
  - unfold equal_mappings. vm_compute. apply Permutation_swap.
  - vm_compute. discriminate.
Qed.

Lemma render_function_of_input_and_clock_witness :
  equal_mappings two_project_mapping two_project_mapping_renamed
  /\ NoDup (lowered_keys ascii_lower two_project_mapping)
  /\ format_markdown ascii_lower noon two_project_mapping
     = format_markdown ascii_lower noon two_project_mapping_renamed.
Proof.
  assert (He : equal_mappings two_project_mapping two_project_mapping_renamed).
  { unfold equal_mappings. vm_compute. apply Permutation_swap. }
  assert (Hnd : NoDup (lowered_keys ascii_lower two_project_mapping)).
  { apply (bool_decide_unpack _). vm_compute. exact I. }
  split; [exact He|]. split; [exact Hnd|].
  apply (proj1 (proj1 render_function_of_input_and_clock ascii_lower
                  two_project_mapping two_project_mapping_renamed He Hnd)).
  reflexivity.
Defined.

(** ** The record kept for a session id *)

(** C4, as the claim states it, fails: of two records of today with the
    same session id and the same timestamp the first in the file is
    kept, so that the session is listed under the project [/p] for one
    order of the two lines and under [/q] for the other. *)
Lemma kept_record_depends_on_order :
  get_today_sessions Json.loads history_path utc_fromtimestamp_ms
    (1970, 1, 1)%nat (history_fs_of [tie_p; tie_q]) empty_world
  = (Return [(PStr (py "/p"),
              [session_of (PStr (py "s1")) (PStr (py "/p")) (second_of_day 1)])],
     after_open history_path empty_world)
  /\ get_today_sessions Json.loads history_path utc_fromtimestamp_ms
       (1970, 1, 1)%nat (history_fs_of [tie_q; tie_p]) empty_world
     = (Return [(PStr (py "/q"),
                 [session_of (PStr (py "s1")) (PStr (py "/q"))
                    (second_of_day 1)])],
        after_open history_path empty_world)
  /\ [tie_p; tie_q] ≡ₚ [tie_q; tie_p]
  /\ (get_today_sessions Json.loads history_path utc_fromtimestamp_ms
        (1970, 1, 1)%nat (history_fs_of [tie_p; tie_q]) empty_world).1
     <> (get_today_sessions Json.loads history_path utc_fromtimestamp_ms
           (1970, 1, 1)%nat (history_fs_of [tie_q; tie_p]) empty_world).1.
Proof.
  split; [vm_compute; reflexivity|].
  split; [vm_compute; reflexivity|].
  split; [apply Permutation_swap|].
  vm_compute. discriminate.
Qed.

Lemma NoDup_all_equal {A} (l : list A) (a : A) :
  NoDup l -> (forall x, x ∈ l -> x = a) -> (length l <= 1)%nat.
Proof.
  intros Hnd Ha. destruct l as [|x [|y l]]; cbn; try lia.
  exfalso. apply NoDup_cons in Hnd. destruct Hnd as [Hx _]. apply Hx.
  rewrite (Ha x), <- (Ha y); [left|right; left|left].
Qed.

Lemma NoDup_list_filter {A} (f : A -> bool) (l : list A) :
  NoDup l -> NoDup (List.filter f l).
Proof.
  induction 1 as [|x l Hx Hl IH]; cbn; [constructor|].
  destruct (f x); [|exact IH]. constructor; [|exact IH].
  intros Hin. apply list_elem_of_In, filter_In in Hin.
  apply Hx, list_elem_of_In. tauto.
Qed.

Lemma pd_get_entries {V} (k : pyval) (d : pydict V) (k0 : pyval) (v : V) :
  entries_of k d = [(k0, v)] -> pd_get k d = Some v.
Proof.
  unfold entries_of. induction d as [|[k1 v1] d IH]; cbn; [discriminate|].
  destruct (same_key k1 k); [now intros [= _ ->]|exact IH].
Qed.

Lemma dt_older_trans (a b c : datetime) :
  dt_ltb a b = false -> dt_ltb a c = true -> dt_ltb b c = true.
Proof.
  intros Hab Hac. destruct (dt_ltb b c) eqn:Hbc; [reflexivity|].
  rewrite (dt_geb_trans a b c) in Hac; auto.
Qed.

Lemma first_latest_later (rs : list (pyval * pyval * datetime)) (sid : pyval)
    (r r1 : pyval * pyval * datetime) :
  first_latest rs sid r ->
  (same_key r1.1.1 sid = true -> dt_ltb r.2 r1.2 = false) ->
  first_latest (rs ++ [r1]) sid r.
Proof.
  intros (pre & post & -> & Hk & Hpre & Hpost) H1.
  exists pre, (post ++ [r1]). split; [now rewrite <- app_assoc|].
  split; [exact Hk|]. split; [exact Hpre|].
  intros r' Hin Hk'. apply elem_of_app in Hin. destruct Hin as [Hin|Hin].
  - now apply Hpost.
  - apply list_elem_of_singleton in Hin. subst r'. now apply H1.
Qed.

(** One more record: the entry of [sid] is still made from the first of
    its latest records. *)
Lemma upsert_first_latest (rs0 : list (pyval * pyval * datetime))
    (all0 : pydict SessionInfo) (r : pyval * pyval * datetime) (sid : pyval)
    (s : SessionInfo) :
  built_from rs0 all0 ->
  (forall s0, pd_get sid all0 = Some s0 ->
              first_latest rs0 sid
                (session_id s0, project_path s0, last_updated s0)) ->
  pd_get sid (upsert all0 r) = Some s ->
  first_latest (rs0 ++ [r]) sid
    (session_id s, project_path s, last_updated s).
Proof.
  intros Hb IH. destruct r as [[sid1 p1] dt1]. unfold upsert.
  assert (Hnew : same_key sid1 sid = true ->
                 (forall r', r' ∈ rs0 -> same_key r'.1.1 sid = true ->
                             dt_ltb r'.2 dt1 = true) ->
                 first_latest (rs0 ++ [(sid1, p1, dt1)]) sid (sid1, p1, dt1)).
  { intros Hk Hpre. exists rs0, []. split; [reflexivity|].
    split; [exact Hk|]. split; [exact Hpre|].
    intros r' Hin. now apply elem_of_nil in Hin. }
  destruct (same_key sid1 sid) eqn:Hk.
  - pose proof (proj1 (same_key_eq _ _) Hk) as Hk'.
    rewrite <- (pd_get_same_key sid1 sid _ Hk') in IH.
    destruct (pd_get sid1 all0) as [s0|] eqn:Hg.
    + destruct (dt_ltb (last_updated s0) dt1) eqn:Hlt.
      * rewrite pd_get_set, Hk. intros [= <-]. cbn [session_of session_id
          project_path last_updated]. apply Hnew; [reflexivity|].
        intros [[sid' p'] dt'] Hin Hk2. cbn [fst snd] in *.
        destruct (built_latest _ _ Hb _ _ _ Hin) as (s' & Hs' & Hle).
        assert (Heq : dict_key sid' = dict_key sid1).
        { apply same_key_eq in Hk2. congruence. }
        rewrite (pd_get_same_key _ _ _ Heq), Hg in Hs'. injection Hs' as <-.
        eapply dt_older_trans; eauto.
      * rewrite <- (pd_get_same_key sid1 sid _ Hk'), Hg. intros [= <-].
        apply first_latest_later; [now apply IH|]. intros _. exact Hlt.
    + rewrite pd_get_set, Hk. intros [= <-]. cbn [session_of session_id
        project_path last_updated]. apply Hnew; [reflexivity|].
      intros [[sid' p'] dt'] Hin Hk2. cbn [fst snd] in *.
      destruct (built_latest _ _ Hb _ _ _ Hin) as (s' & Hs' & _).
      assert (Heq : dict_key sid' = dict_key sid1).
      { apply same_key_eq in Hk2. congruence. }
      rewrite (pd_get_same_key _ _ _ Heq), Hg in Hs'. discriminate.
  - assert (Hsame : pd_get sid
                      match pd_get sid1 all0 with
                      | Some s0 =>
                          if dt_ltb (last_updated s0) dt1
                          then pd_set sid1 (session_of sid1 p1 dt1) all0
                          else all0
                      | None => pd_set sid1 (session_of sid1 p1 dt1) all0
                      end
                    = pd_get sid all0).
    { destruct (pd_get sid1 all0) as [s0|];
        [destruct (dt_ltb (last_updated s0) dt1)|];
        rewrite ?pd_get_set, ?Hk; reflexivity. }
    rewrite Hsame. intros Hs. apply first_latest_later; [now apply IH|].
    cbn [fst snd]. congruence.
Qed.

Lemma foldl_upsert_first_latest (rs : list (pyval * pyval * datetime))
    (sid : pyval) (s : SessionInfo) :
  pd_get sid (foldl upsert [] rs) = Some s ->
  first_latest rs sid (session_id s, project_path s, last_updated s).
Proof.
  revert s. induction rs as [|r rs IH] using rev_ind; intros s;
    [discriminate|].
  rewrite foldl_app. cbn [foldl].
  apply upsert_first_latest; [|exact IH].
  apply (built_from_foldl [] [] rs built_from_nil).
Qed.

Section KeptRecord.

Variable json_loads : str -> outcome pyval.
Variable HISTORY_FILE : Path.
Variable fromtimestamp_ms : Z + pyfloat -> outcome datetime.

(** The mapping of sessions after a log that is read to its end. *)
Lemma read_history_lines (today : date) (fs : filesystem) (w : world)
  (ls : list str) :
fs_open fs HISTORY_FILE = Return (stream_of_lines ls) ->
Forall (reads_cleanly json_loads fromtimestamp_ms today) ls ->
read_history json_loads HISTORY_FILE fromtimestamp_ms today fs w
= (Return (foldl upsert []
             (today_records json_loads fromtimestamp_ms today ls)),
   after_open HISTORY_FILE w).
Proof.
intros Ho Hls. unfold read_history, bind, note_open.
rewrite Ho, scan_history_lines by exact Hls. reflexivity.
Qed.

Lemma kept_record_of_log (today : date) (fs : filesystem) (w w' : world)
  (ls : list str) (groups : pydict (list SessionInfo)) (sid : pyval) :
fs_exists fs HISTORY_FILE = true ->
fs_open fs HISTORY_FILE = Return (stream_of_lines ls) ->
Forall (reads_cleanly json_loads fromtimestamp_ms today) ls ->
get_today_sessions json_loads HISTORY_FILE fromtimestamp_ms today fs w
= (Return groups, w') ->
(exists r, r ∈ today_records json_loads fromtimestamp_ms today ls
           /\ same_key r.1.1 sid = true) ->
exists all k s,
  read_history json_loads HISTORY_FILE fromtimestamp_ms today fs w
  = (Return all, w')
  /\ entries_of sid all = [(k, s)]
  /\ kept_record (today_records json_loads fromtimestamp_ms today ls)
       sid groups s.
Proof.
intros Hex Ho Hls Hg Hsid.
set (rs := today_records json_loads fromtimestamp_ms today ls) in *.
pose proof (read_history_lines today fs w ls Ho Hls) as Hr. fold rs in Hr.
apply get_today_sessions_returns in Hg.
destruct Hg as [[? _]|(all & groups0 & Hr' & Hgr & ->)]; [congruence|].
rewrite Hr in Hr'. injection Hr' as <- <-.
set (all := foldl upsert [] rs) in *.
assert (Hb : built_from rs all)
  by apply (built_from_foldl [] [] rs built_from_nil).
destruct (built_from_latest _ _ _ Hb Hsid) as (k & s & Hent & Hs & Hin & Hmax).
assert (Hks : (k, s) ∈ all).
{ assert (H : (k, s) ∈ entries_of sid all) by (rewrite Hent; left).
  unfold entries_of in H. apply list_elem_of_In, filter_In in H.
  apply list_elem_of_In. tauto. }
pose proof (read_history_built _ _ _ _ _ _ _ _ Hr) as [_ Hfresh].
apply group_by_project_grouped in Hgr; [|apply grouped_nil].
destruct Hgr as [[_ Hge] Hp]. cbn [app all_sessions_of map concat] in Hp.
assert (Honly : forall t,
           t ∈ all_sessions_of (cap_groups groups0) ->
           same_key (session_id t) sid = true -> t = s).
{ intros t Ht Hts.
  pose proof (cap_groups_sessions groups0) as Hsub.
  eapply elem_of_submseteq in Ht; [|exact Hsub].
  rewrite Hp in Ht. unfold pd_values in Ht.
  apply list_elem_of_fmap in Ht. destruct Ht as ([k' t'] & -> & Hin').
  cbn [snd] in *.
  destruct (built_entries _ _ Hb _ _ Hin') as [Hk' _].
  assert (H : (k', t') ∈ entries_of sid all).
  { unfold entries_of. apply list_elem_of_In, filter_In.
    split; [now apply list_elem_of_In|].
    cbn [fst]. apply same_key_eq. apply same_key_eq in Hts. congruence. }
  rewrite Hent in H. apply list_elem_of_singleton in H. congruence. }
exists all, k, s. split; [exact Hr|]. split; [exact Hent|].
split; auto.
- eapply Hfresh; eauto.
- apply foldl_upsert_first_latest. eapply pd_get_entries; eauto.
- apply (NoDup_all_equal _ s).
  + apply NoDup_list_filter.
    apply (NoDup_fmap_1 (fun t => dict_key (session_id t))).
    eapply NoDup_submseteq_inv.
    * apply (fmap_submseteq (fun t => dict_key (session_id t))).
      apply cap_groups_sessions.
    * rewrite Hp.
      change ((fun t => dict_key (session_id t)) <$> pd_values all)
        with (map (fun t => dict_key (session_id t)) (pd_values all)).
      rewrite (built_session_keys rs) by exact Hb. apply Hb.
  + intros t Ht. apply list_elem_of_In, filter_In in Ht.
    destruct Ht as [Ht Hts]. apply Honly; [now apply list_elem_of_In|auto].
- assert (Hs0 : s ∈ all_sessions_of groups0).
  { rewrite Hp. unfold pd_values. apply list_elem_of_fmap.
    exists (k, s). auto. }
  unfold all_sessions_of in Hs0. apply elem_of_concat in Hs0.
  destruct Hs0 as (l0 & Hl0 & Hs0). apply list_elem_of_fmap in Hl0.
  destruct Hl0 as ([project l0'] & -> & Hin0). cbn [snd] in Hs0.
  destruct (Hge _ _ Hin0) as [_ Hkey].
  exists project, (take MAX_SESSIONS_PER_PROJECT (sort_newest_first l0')).
  split.
  { unfold cap_groups. apply list_elem_of_fmap.
    exists (project, l0'). auto. }
  split; [apply same_key_eq; auto|].
  rewrite <- (sort_newest_first_perm l0') in Hs0.
  rewrite <- (take_drop MAX_SESSIONS_PER_PROJECT (sort_newest_first l0'))
    in Hs0.
  apply elem_of_app in Hs0. destruct Hs0 as [Hs0|Hs0]; [auto|right].
  pose proof (sort_newest_first_sorted l0') as Hsorted.
  rewrite <- (take_drop MAX_SESSIONS_PER_PROJECT (sort_newest_first l0'))
    in Hsorted.
  split.
  + rewrite length_take.
    destruct (decide (length (sort_newest_first l0')
                      <= MAX_SESSIONS_PER_PROJECT)%nat) as [Hle|Hgt].
    * rewrite drop_ge in Hs0 by exact Hle. now apply elem_of_nil in Hs0.
    * unfold MAX_SESSIONS_PER_PROJECT in *. lia.
  + apply Forall_forall. intros t Ht.
    eapply StronglySorted_app_1_elem_of; eauto.
Qed.

(** The records kept for an id from two orders of the same records. *)
Lemma kept_record_order (rs rs' : list (pyval * pyval * datetime))
  (sid : pyval) (groups groups' : pydict (list SessionInfo))
  (s s' : SessionInfo) :
rs ≡ₚ rs' ->
kept_record rs sid groups s ->
kept_record rs' sid groups' s' ->
last_updated s' = last_updated s /\ (no_ties rs sid -> s' = s).
Proof.
intros Hp [Hid Hin Hf Hmax _ _ _ _] [Hid' Hin' Hf' Hmax' _ _ _ _].
assert (Hdt : last_updated s' = last_updated s).
{ apply dt_ltb_total.
  - apply (Hmax' (session_id s, project_path s, last_updated s));
      [now rewrite <- Hp|exact Hid].
  - apply (Hmax (session_id s', project_path s', last_updated s'));
      [now rewrite Hp|exact Hid']. }
split; [exact Hdt|]. intros Hties.
rewrite <- Hp in Hin'.
assert (H : (session_id s', project_path s', last_updated s')
            = (session_id s, project_path s, last_updated s))
  by (apply Hties; auto).
injection H as H1 H2 _.
destruct s, s'. cbn in *. congruence.
Qed.

(** C4, amended: for a history log that [get_today_sessions] scans to
  its end and returns a mapping for, when one or more of today's
  records carry a session id, the scanner's mapping of sessions holds
  exactly one record for that id.  It is made from the first record in
  the file among the records of the id with the latest time, the times
  being the local date-times the timestamps convert to: the records
  of the id before it are older and none after it is newer.  In the
  mapping returned the id occurs at most once, with this record, which
  is listed under its project unless that list is full with three
  sessions that are not older.  For every other order of the lines the
  record kept has the same time, and it is the same record when the
  records of the id with equal times are equal. *)
Theorem latest_record_per_session (today : date) (fs : filesystem)
  (w w' : world) (ls : list str) (groups : pydict (list SessionInfo))
  (sid : pyval) :
fs_exists fs HISTORY_FILE = true ->
fs_open fs HISTORY_FILE = Return (stream_of_lines ls) ->
Forall (reads_cleanly json_loads fromtimestamp_ms today) ls ->
get_today_sessions json_loads HISTORY_FILE fromtimestamp_ms today fs w
= (Return groups, w') ->
(exists r, r ∈ today_records json_loads fromtimestamp_ms today ls
           /\ same_key r.1.1 sid = true) ->
exists all k s,
  read_history json_loads HISTORY_FILE fromtimestamp_ms today fs w
  = (Return all, w')
  /\ entries_of sid all = [(k, s)]
  /\ kept_record (today_records json_loads fromtimestamp_ms today ls)
       sid groups s
  /\ forall ls' fs' w0 w0' groups',
       ls ≡ₚ ls' ->
       fs_exists fs' HISTORY_FILE = true ->
       fs_open fs' HISTORY_FILE = Return (stream_of_lines ls') ->
       get_today_sessions json_loads HISTORY_FILE fromtimestamp_ms today
         fs' w0
       = (Return groups', w0') ->
       exists all' k' s',
         read_history json_loads HISTORY_FILE fromtimestamp_ms today fs' w0
         = (Return all', w0')
         /\ entries_of sid all' = [(k', s')]
         /\ kept_record
              (today_records json_loads fromtimestamp_ms today ls')
              sid groups' s'
         /\ last_updated s' = last_updated s
         /\ (no_ties (today_records json_loads fromtimestamp_ms today ls)
               sid ->
             s' = s).
Proof.
intros Hex Ho Hls Hg Hsid.
destruct (kept_record_of_log today fs w w' ls groups sid Hex Ho Hls Hg Hsid)
  as (all & k & s & Hr & Hent & Hkept).
exists all, k, s. repeat (split; [assumption|]).
intros ls' fs' w0 w0' groups' Hp Hex' Ho' Hg'.
pose proof (today_records_perm json_loads fromtimestamp_ms today _ _ Hp)
  as Hrs.
assert (Hls' : Forall (reads_cleanly json_loads fromtimestamp_ms today) ls')
  by now rewrite <- Hp.
assert (Hsid' : exists r,
           r ∈ today_records json_loads fromtimestamp_ms today ls'
           /\ same_key r.1.1 sid = true).
{ destruct Hsid as (r & Hin & Hk). exists r. now rewrite <- Hrs. }
destruct (kept_record_of_log today fs' w0 w0' ls' groups' sid
            Hex' Ho' Hls' Hg' Hsid')
  as (all' & k' & s' & Hr' & Hent' & Hkept').
exists all', k', s'. repeat (split; [assumption|]).
exact (kept_record_order _ _ _ _ _ _ _ Hrs Hkept Hkept').
Qed.

End KeptRecord.

Lemma latest_record_per_session_witness :
  exists all k s,
    read_history Json.loads history_path utc_fromtimestamp_ms
      (1970, 1, 1)%nat history_fs empty_world
    = (Return all, after_open history_path empty_world)
    /\ entries_of (PStr (py "s1")) all = [(k, s)]
    /\ kept_record
         (today_records Json.loads utc_fromtimestamp_ms (1970, 1, 1)%nat
            history_lines)
         (PStr (py "s1")) history_groups s
    /\ forall ls' fs' w0 w0' groups',
         history_lines ≡ₚ ls' ->
         fs_exists fs' history_path = true ->
         fs_open fs' history_path = Return (stream_of_lines ls') ->
         get_today_sessions Json.loads history_path utc_fromtimestamp_ms
           (1970, 1, 1)%nat fs' w0
         = (Return groups', w0') ->
         exists all' k' s',
           read_history Json.loads history_path utc_fromtimestamp_ms
             (1970, 1, 1)%nat fs' w0
           = (Return all', w0')
           /\ entries_of (PStr (py "s1")) all' = [(k', s')]
           /\ kept_record
                (today_records Json.loads utc_fromtimestamp_ms
                   (1970, 1, 1)%nat ls')
                (PStr (py "s1")) groups' s'
           /\ last_updated s' = last_updated s
           /\ (no_ties
                 (today_records Json.loads utc_fromtimestamp_ms
                    (1970, 1, 1)%nat history_lines)
                 (PStr (py "s1")) ->
               s' = s).
Proof.
  apply (latest_record_per_session Json.loads history_path
           utc_fromtimestamp_ms (1970, 1, 1)%nat history_fs empty_world
           (after_open history_path empty_world) history_lines
           history_groups (PStr (py "s1"))).
  - reflexivity.
  - reflexivity.
  - repeat constructor; intros e; vm_compute; discriminate.
  - exact history_groups_returned.
  - eexists. split; [left|]. vm_compute. reflexivity.
Defined.
